(** * AI_ChatBot: the response acquisition pipeline of [App.jsx]

    A shallow embedding of [src/AI_ChatBot/src/App.jsx]:
    - [Js]: the fragment of JavaScript values the program inspects
      (truthiness, property reads, optional chaining, [===] on strings);
    - [Config]: [ENV_CONFIG] and [ErrorTypes];
    - [Runtime]: the store the asynchronous code runs against (abort
      controllers, timers, the network and SDK oracles, the console) and a
      state-and-exception monad over it;
    - [Pipeline]: [callDirectAPI] and [callPuterAI];
    - [Chat]: the component state of [App], [simulateStreaming],
      [sendMessage] and [exportChat]. *)

From Stdlib Require Import ZArith QArith String Ascii List Bool Lia.
From stdpp Require Import base tactics list strings pretty.

Set Warnings "-register-all".

Close Scope Q_scope.
Open Scope Z_scope.
Open Scope string_scope.

(* ===================================================================== *)
(** ** JavaScript values *)
(* ===================================================================== *)

Module Js.

(** The constructor an error object was made with; [instanceof TypeError]
    is a test on this tag. *)
Inductive ErrClass : Type :=
| ClsError
| ClsTypeError
| ClsSyntaxError
| ClsDOMException.

(** Values. Numbers are the integers the program handles (status codes);
    [JErr] is an error object with its [name] and [message]. Strings are
    sequences of bytes, the UTF-8 encoding of the string they stand for;
    [===], [includes("fetch")], [split(" ")] and concatenation agree on
    that representation, while [length] and [trim] are read off the code
    points it encodes ([utf16_length], [is_white_space] below). *)
Inductive JsVal : Type :=
| JUndefined
| JNull
| JBool (b : bool)
| JNum (n : Z)
| JStr (s : string)
| JArr (xs : list JsVal)
| JObj (fields : list (string * JsVal))
| JErr (cls : ErrClass) (name message : string).

(** The result of evaluating an expression or a call: a value, a thrown
    value (a rejected promise when the call is asynchronous), or no answer
    within the allotted recursion depth. *)
Inductive Outcome (A : Type) : Type :=
| Returns (a : A)
| Throws (e : JsVal)
| OutOfFuel.
Arguments Returns {A} a.
Arguments Throws {A} e.
Arguments OutOfFuel {A}.

(** [ToBoolean]. *)
Definition truthy (v : JsVal) : bool :=
  match v with
  | JUndefined | JNull => false
  | JBool b => b
  | JNum n => negb (n =? 0)%Z
  | JStr s => negb (String.eqb s "")
  | JArr _ | JObj _ | JErr _ _ _ => true
  end.

(** [a || b]. *)
Definition or_else (a b : JsVal) : JsVal := if truthy a then a else b.

(** [v === "s"] for a string constant [s]. *)
Definition strict_eq_str (v : JsVal) (s : string) : bool :=
  match v with
  | JStr t => String.eqb t s
  | _ => false
  end.

Definition is_nullish (v : JsVal) : bool :=
  match v with
  | JUndefined | JNull => true
  | _ => false
  end.

Definition is_array (v : JsVal) : bool :=
  match v with
  | JArr _ => true
  | _ => false
  end.

Definition is_string (v : JsVal) : bool :=
  match v with
  | JStr _ => true
  | _ => false
  end.

Definition instanceof_TypeError (v : JsVal) : bool :=
  match v with
  | JErr ClsTypeError _ _ => true
  | _ => false
  end.

(** First binding of [k] in an object's own properties. *)
Fixpoint own_property (k : string) (fields : list (string * JsVal)) : JsVal :=
  match fields with
  | [] => JUndefined
  | (k', v) :: rest => if String.eqb k' k then v else own_property k rest
  end.

(** The [TypeError] raised by a property read on [null] or [undefined]
    (V8's wording; no engine's wording contains the word "fetch"). *)
Definition nullish_read_error (v : JsVal) (k : string) : JsVal :=
  JErr ClsTypeError "TypeError"
    ("Cannot read properties of "
       +:+ (match v with JNull => "null" | _ => "undefined" end)
       +:+ " (reading '" +:+ k +:+ "')").

(** [v.k], for the property names the program reads ([type], [name],
    [message], [status], [error], [content], [response], [text]): none of
    them exists on a boolean, a number, a string or an array. *)
Definition get (v : JsVal) (k : string) : Outcome JsVal :=
  match v with
  | JUndefined | JNull => Throws (nullish_read_error v k)
  | JObj fields => Returns (own_property k fields)
  | JErr _ name message =>
      Returns (if String.eqb k "name" then JStr name
               else if String.eqb k "message" then JStr message
               else JUndefined)
  | JBool _ | JNum _ | JStr _ | JArr _ => Returns JUndefined
  end.

(** [v?.k]. *)
Definition get_opt (v : JsVal) (k : string) : JsVal :=
  match get v k with
  | Returns x => x
  | _ => JUndefined
  end.

(** [v[0]?.text] for an array [v]. *)
Definition first_text (xs : list JsVal) : JsVal :=
  match xs with
  | [] => JUndefined
  | x :: _ => get_opt x "text"
  end.

(** [s.includes(t)]. *)
Fixpoint starts_with (t s : string) : bool :=
  match t, s with
  | EmptyString, _ => true
  | String a t', String b s' => Ascii.eqb a b && starts_with t' s'
  | String _ _, EmptyString => false
  end.

Fixpoint includes (s t : string) : bool :=
  starts_with t s ||
  match s with
  | EmptyString => false
  | String _ s' => includes s' t
  end.

(** [s.split(" ")]. *)
Definition space : ascii := " "%char.

Fixpoint split_space (s : string) : list string :=
  match s with
  | EmptyString => [""]
  | String c rest =>
      if Ascii.eqb c space then "" :: split_space rest
      else match split_space rest with
           | w :: ws => String c w :: ws
           | [] => [String c ""]
           end
  end.

(** String concatenation with a possibly missing array element:
    [s + words[i]] yields the text ["undefined"] when [i] is out of range. *)
Definition to_text (w : option string) : string :=
  match w with
  | Some s => s
  | None => "undefined"
  end.

(** [`${n}`] for an integer. *)
Definition num_text (n : Z) : string := pretty n.

(** *** Code points and code units *)

Definition byte (c : ascii) : Z := Z.of_N (N_of_ascii c).

(** A continuation byte, [10xxxxxx]. *)
Definition continuation (c : ascii) : bool :=
  (128 <=? byte c)%Z && (byte c <? 192)%Z.

(** The replacement character, read for a byte that starts no sequence. *)
Definition replacement : Z := 65533.

(** The code points a string encodes, an unpaired surrogate being encoded
    in three bytes like its neighbours. A byte that opens no well-formed
    shortest sequence stands for no character of the program's strings
    and is read as U+FFFD. *)
Fixpoint code_points (s : string) : list Z :=
  match s with
  | EmptyString => []
  | String c0 s1 =>
      let b0 := byte c0 in
      if (b0 <? 128)%Z then b0 :: code_points s1
      else
        match s1 with
        | EmptyString => [replacement]
        | String c1 s2 =>
            if (194 <=? b0)%Z && (b0 <? 224)%Z && continuation c1 then
              ((b0 - 192) * 64 + (byte c1 - 128))%Z :: code_points s2
            else
              match s2 with
              | EmptyString => replacement :: code_points s1
              | String c2 s3 =>
                  let cp3 := ((b0 - 224) * 4096 + (byte c1 - 128) * 64
                              + (byte c2 - 128))%Z in
                  if (224 <=? b0)%Z && (b0 <? 240)%Z
                     && continuation c1 && continuation c2
                     && (2048 <=? cp3)%Z then
                    cp3 :: code_points s3
                  else
                    match s3 with
                    | EmptyString => replacement :: code_points s1
                    | String c3 s4 =>
                        let cp4 := ((b0 - 240) * 262144
                                    + (byte c1 - 128) * 4096
                                    + (byte c2 - 128) * 64
                                    + (byte c3 - 128))%Z in
                        if (240 <=? b0)%Z && (b0 <? 245)%Z
                           && continuation c1 && continuation c2
                           && continuation c3
                           && (65536 <=? cp4)%Z && (cp4 <=? 1114111)%Z then
                          cp4 :: code_points s4
                        else replacement :: code_points s1
                    end
              end
        end
  end.

(** The UTF-16 code units of a code point: two beyond the basic plane. *)
Definition code_units (cp : Z) : Z := if (65536 <=? cp)%Z then 2 else 1.

(** [s.length]: the number of UTF-16 code units. *)
Definition utf16_length (s : string) : Z :=
  fold_right (fun cp n => (code_units cp + n)%Z) 0%Z (code_points s).

(** The characters [trim] strips: WhiteSpace (TAB, VT, FF, ZWNBSP and the
    space separators, category Zs) and LineTerminator (LF, CR, LS, PS). *)
Definition is_white_space (cp : Z) : bool :=
  ((9 <=? cp) && (cp <=? 13)        (* TAB, LF, VT, FF, CR *)
   || (cp =? 32)                      (* SPACE *)
   || (cp =? 160)                     (* NO-BREAK SPACE *)
   || (cp =? 5760)                    (* OGHAM SPACE MARK *)
   || (8192 <=? cp) && (cp <=? 8202)  (* EN QUAD .. HAIR SPACE *)
   || (cp =? 8232) || (cp =? 8233)    (* LINE, PARAGRAPH SEPARATOR *)
   || (cp =? 8239)                    (* NARROW NO-BREAK SPACE *)
   || (cp =? 8287)                    (* MEDIUM MATHEMATICAL SPACE *)
   || (cp =? 12288)                   (* IDEOGRAPHIC SPACE *)
   || (cp =? 65279))%Z.               (* ZERO WIDTH NO-BREAK SPACE *)

(** [s.trim() === ""]: every character of [s] is stripped. *)
Definition trims_to_empty (s : string) : bool :=
  forallb is_white_space (code_points s).

End Js.

(* ===================================================================== *)
(** ** Configuration *)
(* ===================================================================== *)

Module Config.
Import Js.

(** [ErrorTypes]. *)
Module ErrorTypes.
Definition NETWORK : string := "NETWORK_ERROR".
Definition TIMEOUT : string := "TIMEOUT_ERROR".
Definition AUTH : string := "AUTHENTICATION_ERROR".
Definition RATE_LIMIT : string := "RATE_LIMIT_ERROR".
Definition SERVER : string := "SERVER_ERROR".
Definition UNKNOWN : string := "UNKNOWN_ERROR".
End ErrorTypes.

(** What [process.env] provides: each variable is absent or a string; for
    the numeric ones the record holds the result of [parseInt], [None]
    standing for [NaN]. *)
Record ProcessEnv : Type := {
  REACT_APP_PUTER_API_KEY : option string;
  REACT_APP_PUTER_API_URL : option string;
  REACT_APP_PUTER_MODEL : option string;
  REACT_APP_PUTER_TIMEOUT : option Z;
  REACT_APP_PUTER_MAX_RETRIES : option Z;
  REACT_APP_PUTER_RETRY_DELAY : option Z;
  REACT_APP_USE_DIRECT_API : option string;
  REACT_APP_MAX_INPUT_LENGTH : option Z;
  REACT_APP_STREAMING_DELAY : option Z;
  REACT_APP_ENVIRONMENT : option string
}.

(** [parseInt(x) || d]. *)
Definition int_or (x : option Z) (d : Z) : Z :=
  match x with
  | Some n => if (n =? 0)%Z then d else n
  | None => d
  end.

(** [x || d] for a string-or-undefined [x]. *)
Definition str_or (x : option string) (d : string) : string :=
  match x with
  | Some s => if String.eqb s "" then d else s
  | None => d
  end.

(** The fields of [ENV_CONFIG] the pipeline and the chat component read. *)
Record EnvConfig : Type := {
  PUTER_API_KEY : option string;
  PUTER_API_URL : string;
  PUTER_MODEL : string;
  PUTER_TIMEOUT : Z;
  PUTER_MAX_RETRIES : Z;
  PUTER_RETRY_DELAY : Z;
  USE_DIRECT_API : bool;
  MAX_INPUT_LENGTH : Z;
  STREAMING_DELAY : Z;
  ENVIRONMENT : string
}.

Definition ENV_CONFIG (p : ProcessEnv) : EnvConfig := {|
  PUTER_API_KEY := REACT_APP_PUTER_API_KEY p;
  PUTER_API_URL := str_or (REACT_APP_PUTER_API_URL p) "https://api.puter.com/v2";
  PUTER_MODEL := str_or (REACT_APP_PUTER_MODEL p) "gpt-4.1-nano";
  PUTER_TIMEOUT := int_or (REACT_APP_PUTER_TIMEOUT p) 30000;
  PUTER_MAX_RETRIES := int_or (REACT_APP_PUTER_MAX_RETRIES p) 3;
  PUTER_RETRY_DELAY := int_or (REACT_APP_PUTER_RETRY_DELAY p) 1000;
  USE_DIRECT_API :=
    match REACT_APP_USE_DIRECT_API p with
    | Some s => String.eqb s "true"
    | None => false
    end;
  MAX_INPUT_LENGTH := int_or (REACT_APP_MAX_INPUT_LENGTH p) 4000;
  STREAMING_DELAY := int_or (REACT_APP_STREAMING_DELAY p) 30;
  ENVIRONMENT := str_or (REACT_APP_ENVIRONMENT p) "Live"
|}.

(** [ENV_CONFIG.PUTER_API_KEY] as a condition. *)
Definition has_api_key (c : EnvConfig) : bool :=
  match PUTER_API_KEY c with
  | Some k => negb (String.eqb k "")
  | None => false
  end.

(** The options object of [callPuterAI] and [callDirectAPI]; a field left
    out takes its destructuring default. *)
Record Options : Type := {
  opt_retries : option Z;
  opt_timeout : option Z;
  opt_model : option string;
  opt_temperature : option Q;
  opt_max_tokens : option Z
}.

Definition no_options : Options :=
  {| opt_retries := None; opt_timeout := None; opt_model := None;
     opt_temperature := None; opt_max_tokens := None |}.

(** [{ ...options, retries: r }]. *)
Definition with_retries (o : Options) (r : Z) : Options :=
  {| opt_retries := Some r; opt_timeout := opt_timeout o;
     opt_model := opt_model o; opt_temperature := opt_temperature o;
     opt_max_tokens := opt_max_tokens o |}.

End Config.

(* ===================================================================== *)
(** ** The runtime the asynchronous code runs against *)
(* ===================================================================== *)

Module Runtime.
Import Js Config.

(** The request [callDirectAPI] hands to [fetch]; [req_signal] is the
    identity of the [AbortController] whose signal it carries. *)
Record Request : Type := {
  req_url : string;
  req_authorization : string;
  req_environment : string;
  req_prompt : string;
  req_model : string;
  req_temperature : Q;
  req_max_tokens : Z;
  req_signal : nat
}.

(** What [response.json()] settles to. *)
Inductive Body : Type :=
| JsonBody (v : JsVal)
| NotJson (e : JsVal).

Record Response : Type := {
  status : Z;
  body : Body
}.

(** [response.ok]. *)
Definition ok (r : Response) : bool :=
  (200 <=? status r)%Z && (status r <=? 299)%Z.

(** How a [fetch] settles: with a response, by the abort that the timer of
    [callDirectAPI] triggers, or by a rejection of the transport. *)
Inductive FetchOutcome : Type :=
| FetchResponds (r : Response)
| FetchTimesOut
| FetchRejects (e : JsVal).

(** How [window.puter.ai.chat] settles. *)
Inductive SdkOutcome : Type :=
| SdkResolves (v : JsVal)
| SdkRejects (e : JsVal).

(** Console lines, by the statement that prints them. The line that reports
    the SDK's latency is left out: it prints a clock difference only. *)
Inductive LogLine : Type :=
| LogUsingSdk
| LogSdkFallback (message : JsVal)
| LogUsingDirect
| LogMock
| LogApiError (error : JsVal)
| LogRetrying (retries : Z).

Inductive Event : Type :=
| EvFetch (req : Request)
| EvSdkChat (prompt model : string)
| EvSleep (ms : Z)
| EvConsole (l : LogLine).

(** What surrounds one run of the hook [usePuterAI]: the configuration, the
    page ([window.puter?.ai?.chat], the state [isPuterLoaded] captured by
    the callback), and how the successive SDK calls and fetches settle. *)
Record Env : Type := {
  config : EnvConfig;
  puter_ai_chat : bool;
  isPuterLoaded : bool;
  sdk_outcome : nat -> SdkOutcome;
  fetch_outcome : nat -> FetchOutcome
}.

(** The store.  [controllers] holds the [AbortController] objects by
    identity ([true]: aborted); [timeouts] the timers armed with
    [setTimeout(() => controller.abort(), ms)], [None] once cleared or
    fired; [pending] the fetches issued and not yet settled; [isLoading]
    and [error] are the hook's state. *)
Record World : Type := {
  controllers : list bool;
  timeouts : list (option (nat * Z));
  pending : list Request;
  fetch_count : nat;
  sdk_count : nat;
  trace : list Event;
  isLoading : bool;
  error : option (JsVal * string)
}.

Definition empty_world : World := {|
  controllers := []; timeouts := []; pending := [];
  fetch_count := 0; sdk_count := 0; trace := [];
  isLoading := false; error := None
|}.

Definition with_controllers (w : World) (x : list bool) : World :=
  {| controllers := x; timeouts := timeouts w; pending := pending w;
     fetch_count := fetch_count w; sdk_count := sdk_count w; trace := trace w;
     isLoading := isLoading w; error := error w |}.

Definition with_timeouts (w : World) (x : list (option (nat * Z))) : World :=
  {| controllers := controllers w; timeouts := x; pending := pending w;
     fetch_count := fetch_count w; sdk_count := sdk_count w; trace := trace w;
     isLoading := isLoading w; error := error w |}.

Definition with_pending (w : World) (x : list Request) : World :=
  {| controllers := controllers w; timeouts := timeouts w; pending := x;
     fetch_count := fetch_count w; sdk_count := sdk_count w; trace := trace w;
     isLoading := isLoading w; error := error w |}.

Definition with_fetch_count (w : World) (x : nat) : World :=
  {| controllers := controllers w; timeouts := timeouts w; pending := pending w;
     fetch_count := x; sdk_count := sdk_count w; trace := trace w;
     isLoading := isLoading w; error := error w |}.

Definition with_sdk_count (w : World) (x : nat) : World :=
  {| controllers := controllers w; timeouts := timeouts w; pending := pending w;
     fetch_count := fetch_count w; sdk_count := x; trace := trace w;
     isLoading := isLoading w; error := error w |}.

Definition with_trace (w : World) (x : list Event) : World :=
  {| controllers := controllers w; timeouts := timeouts w; pending := pending w;
     fetch_count := fetch_count w; sdk_count := sdk_count w; trace := x;
     isLoading := isLoading w; error := error w |}.

Definition with_isLoading (w : World) (x : bool) : World :=
  {| controllers := controllers w; timeouts := timeouts w; pending := pending w;
     fetch_count := fetch_count w; sdk_count := sdk_count w; trace := trace w;
     isLoading := x; error := error w |}.

Definition with_error (w : World) (x : option (JsVal * string)) : World :=
  {| controllers := controllers w; timeouts := timeouts w; pending := pending w;
     fetch_count := fetch_count w; sdk_count := sdk_count w; trace := trace w;
     isLoading := isLoading w; error := x |}.

(** *** Computations *)

Definition M (A : Type) : Type := World -> Outcome A * World.

Definition ret {A} (a : A) : M A := fun w => (Returns a, w).

Definition throw {A} (e : JsVal) : M A := fun w => (Throws e, w).

Definition out_of_fuel {A} : M A := fun w => (OutOfFuel, w).

Definition lift {A} (o : Outcome A) : M A := fun w => (o, w).

Definition bind {A B} (m : M A) (k : A -> M B) : M B :=
  fun w =>
    match m w with
    | (Returns a, w') => k a w'
    | (Throws e, w') => (Throws e, w')
    | (OutOfFuel, w') => (OutOfFuel, w')
    end.

(** [try { body } catch (e) { handler }]. *)
Definition try_catch {A} (body : M A) (handler : JsVal -> M A) : M A :=
  fun w =>
    match body w with
    | (Throws e, w') => handler e w'
    | r => r
    end.

(** [try { body } finally { fin }], for a finaliser that completes
    normally. *)
Definition try_finally {A} (body : M A) (fin : World -> World) : M A :=
  fun w =>
    match body w with
    | (OutOfFuel, w') => (OutOfFuel, w')
    | (r, w') => (r, fin w')
    end.

Definition modify (f : World -> World) : M unit := fun w => (Returns tt, f w).

Declare Scope js_scope.
Delimit Scope js_scope with js.
Notation "'let*' x ':=' m 'in' k" := (bind m (fun x => k))
  (at level 10, x name, m at level 100, k at level 200) : js_scope.
Notation "m ;; k" := (bind m (fun _ => k))
  (at level 100, k at level 200, right associativity) : js_scope.

(** *** Primitives *)

Definition emit (e : Event) : M unit :=
  modify (fun w => with_trace w (trace w ++ [e])).

Definition console (l : LogLine) : M unit := emit (EvConsole l).

(** [await new Promise((resolve) => setTimeout(resolve, ms))]. *)
Definition sleep (ms : Z) : M unit := emit (EvSleep ms).

(** [new AbortController()]. *)
Definition new_AbortController : M nat :=
  fun w => (Returns (length (controllers w)),
            with_controllers w (controllers w ++ [false])).

(** [controller.abort()]. *)
Definition abort (c : nat) (w : World) : World :=
  with_controllers w (<[c := true]> (controllers w)).

Definition aborted (w : World) (c : nat) : bool :=
  match controllers w !! c with
  | Some b => b
  | None => false
  end.

(** [setTimeout(() => controller.abort(), ms)]. *)
Definition setTimeout_abort (c : nat) (ms : Z) : M nat :=
  fun w => (Returns (length (timeouts w)),
            with_timeouts w (timeouts w ++ [Some (c, ms)])).

(** [clearTimeout(id)]. *)
Definition clearTimeout (id : nat) : M unit :=
  modify (fun w => with_timeouts w (<[id := None]> (timeouts w))).

(** The timer armed for controller [c] fires. *)
Definition fire_timeouts (c : nat) (w : World) : World :=
  with_timeouts (abort c w)
    (map (fun t => match t with
                   | Some (c', ms) => if Nat.eqb c' c then None else Some (c', ms)
                   | None => None
                   end) (timeouts w)).

Definition AbortError : JsVal :=
  JErr ClsDOMException "AbortError" "signal is aborted without reason".

(** [fetch(url, { ..., signal })] up to the point where the promise is
    pending. *)
Definition fetch_issue (req : Request) : M nat :=
  fun w => (Returns (fetch_count w),
            with_fetch_count
              (with_pending (with_trace w (trace w ++ [EvFetch req]))
                            (pending w ++ [req]))
              (S (fetch_count w))).

(** The pending fetch settles. *)
Definition fetch_settle (E : Env) (req : Request) (n : nat) : M Response :=
  fun w =>
    let w' := with_pending w
                (filter (fun r => req_signal r ≠ req_signal req) (pending w)) in
    match fetch_outcome E n with
    | FetchResponds r => (Returns r, w')
    | FetchTimesOut => (Throws AbortError, fire_timeouts (req_signal req) w')
    | FetchRejects e => (Throws e, w')
    end.

(** [await fetch(...)]. *)
Definition fetch (E : Env) (req : Request) : M Response :=
  (let* n := fetch_issue req in fetch_settle E req n)%js.

(** [window.puter.ai.chat(prompt, { model, ... })] up to the point where
    its promise is pending. *)
Definition puter_chat_issue (prompt model : string) : M nat :=
  fun w => (Returns (sdk_count w),
            with_sdk_count (with_trace w (trace w ++ [EvSdkChat prompt model]))
                           (S (sdk_count w))).

(** [await window.puter.ai.chat(prompt, { model, ... })]. *)
Definition puter_chat (E : Env) (prompt model : string) : M JsVal :=
  (let* n := puter_chat_issue prompt model in
   lift (match sdk_outcome E n with
         | SdkResolves v => Returns v
         | SdkRejects e => Throws e
         end))%js.

Definition setIsLoading (b : bool) : M unit :=
  modify (fun w => with_isLoading w b).

Definition setError (e : option (JsVal * string)) : M unit :=
  modify (fun w => with_error w e).

(** What a run made observable. *)
Definition fetches (w : World) : list Request :=
  omap (fun e => match e with EvFetch r => Some r | _ => None end) (trace w).

Definition sdk_chats (w : World) : list string :=
  omap (fun e => match e with EvSdkChat p _ => Some p | _ => None end) (trace w).

Definition sleeps (w : World) : list Z :=
  omap (fun e => match e with EvSleep ms => Some ms | _ => None end) (trace w).

End Runtime.

(* ===================================================================== *)
(** ** The hook [usePuterAI]: [callDirectAPI] and [callPuterAI] *)
(* ===================================================================== *)

Module Pipeline.
Import Js Config Runtime.
Import ErrorTypes.
Local Open Scope js_scope.

(** [{ type, message, status }]. *)
Definition error_object (type : string) (message : JsVal) (status : Z) : JsVal :=
  JObj [("type", JStr type); ("message", message); ("status", JNum status)].

(** [new Error(message)]. *)
Definition new_Error (message : string) : JsVal := JErr ClsError "Error" message.

(** [error.message.includes("fetch")] on an error instance. *)
Definition message_includes (error : JsVal) (t : string) : bool :=
  match error with
  | JErr _ _ m => includes m t
  | _ => false
  end.

Section Direct.
Variable E : Env.
Let cfg := config E.

  (** The [catch] block of [callDirectAPI]. *)
Definition direct_catch {A} (timeoutId : nat) (error : JsVal) : M A :=
    clearTimeout timeoutId ;;
    let* name := lift (get error "name") in
    if strict_eq_str name "AbortError" || strict_eq_str name "TimeoutError" then
      throw (error_object TIMEOUT (JStr "Request timeout") 408)
    else if instanceof_TypeError error && message_includes error "fetch" then
      throw (error_object NETWORK (JStr "Network connection failed") 0)
    else throw error.

  (** [if (!response.ok) { ... }]: the mapping of the status code. *)
Definition direct_reject (response : Response) : M JsVal :=
    let errorData :=
      match body response with
      | JsonBody v => v
      | NotJson _ => JObj []
      end in
    if (status response =? 401)%Z then
      throw (error_object AUTH (JStr "Invalid API key") 401)
    else if (status response =? 429)%Z then
      throw (error_object RATE_LIMIT (JStr "Rate limit exceeded") 429)
    else if (status response =? 503)%Z || (status response =? 504)%Z then
      throw (error_object SERVER (JStr "Service unavailable") (status response))
    else
      let* e := lift (get errorData "error") in
      throw (error_object UNKNOWN
               (or_else e (JStr ("API Error: " +:+ num_text (status response))))
               (status response)).

  (** The text taken from a successful response. *)
Definition direct_accept (response : Response) : M JsVal :=
    let* data := lift (match body response with
                       | JsonBody v => Returns v
                       | NotJson e => Throws e
                       end) in
    let* message := lift (get data "message") in
    let* response_ := lift (get data "response") in
    let* text := lift (get data "text") in
    ret (or_else (get_opt message "content")
           (or_else response_
              (or_else text (JStr "No response generated")))).

  (** What follows [await fetch(...)] in the [try] block. *)
Definition direct_settled (timeoutId : nat) (response : Response) : M JsVal :=
    clearTimeout timeoutId ;;
    if negb (ok response) then direct_reject response
    else direct_accept response.

Definition direct_request (prompt : string) (options : Options)
                            (controller : nat) : Request :=
    {| req_url := PUTER_API_URL cfg +:+ "/ai/chat";
       req_authorization := "Bearer " +:+ default "undefined" (PUTER_API_KEY cfg);
       req_environment := ENVIRONMENT cfg;
       req_prompt := prompt;
       req_model := default (PUTER_MODEL cfg) (opt_model options);
       req_temperature := default (7 # 10)%Q (opt_temperature options);
       req_max_tokens := default 2000 (opt_max_tokens options);
       req_signal := controller |}.

  (** [callDirectAPI] up to its first suspension: the controller and its
      timer are created, the credential is checked and the request is
      issued; the result is the pending request. *)
Definition callDirectAPI_issue (prompt : string) (options : Options)
    : M (nat * Request * nat) :=
    let timeout := default (PUTER_TIMEOUT cfg) (opt_timeout options) in
    let* controller := new_AbortController in
    let* timeoutId := setTimeout_abort controller timeout in
    try_catch
      (if negb (has_api_key cfg) then throw (new_Error "API key is not configured")
       else
         let req := direct_request prompt options controller in
         let* n := fetch_issue req in
         ret (timeoutId, req, n))
      (direct_catch timeoutId).

  (** [callDirectAPI]. *)
Definition callDirectAPI (prompt : string) (options : Options) : M JsVal :=
    let timeout := default (PUTER_TIMEOUT cfg) (opt_timeout options) in
    let* controller := new_AbortController in
    let* timeoutId := setTimeout_abort controller timeout in
    try_catch
      (if negb (has_api_key cfg) then throw (new_Error "API key is not configured")
       else
         let* response := fetch E (direct_request prompt options controller) in
         direct_settled timeoutId response)
      (direct_catch timeoutId).

End Direct.

(** The normalisation of what the SDK resolved to ([callPuterAI], the
    statements after the call inside the inner [try]). *)
Definition sdk_response_text (response : JsVal) : Outcome JsVal :=
  if is_string response then Returns response
  else
    let content := get_opt (get_opt response "message") "content" in
    if truthy content then
      match content with
      | JArr parts => Returns (or_else (first_text parts) (JStr ""))
      | _ => Returns content
      end
    else Throws (new_Error "Invalid SDK response format").

Definition mock_response (prompt : string) : string :=
  "This is a mock response from the AI assistant in development mode." +:+
  String (ascii_of_nat 10) (String (ascii_of_nat 10) "") +:+
  "Your prompt was: " +:+ String (ascii_of_nat 34) "" +:+ prompt +:+ String (ascii_of_nat 34) "" +:+
  String (ascii_of_nat 10) (String (ascii_of_nat 10) "") +:+
  "To use the real API, please add your Puter.ai API key to the .env file.".

(** The messages shown to the user. *)
Definition timeout_message : string :=
  "⏰ Request timed out. Please try again.".
Definition network_message : string :=
  "🌐 Network error. Please check your internet connection.".
Definition auth_message : string :=
  "🔑 Authentication failed. Please check your API configuration.".
Definition rate_limit_message : string :=
  "⏳ Rate limit exceeded. Please wait a moment and try again.".
Definition server_message : string :=
  "🔧 Service temporarily unavailable. Please try again later.".
Definition unexpected_message : string :=
  "⚠️ An unexpected error occurred. Please try again.".

(** The message shown for an error type (the [switch] of [callPuterAI]). *)
Definition userFriendlyMessage (errorType : JsVal) : string :=
  if strict_eq_str errorType TIMEOUT then timeout_message
  else if strict_eq_str errorType NETWORK then network_message
  else if strict_eq_str errorType AUTH then auth_message
  else if strict_eq_str errorType RATE_LIMIT then rate_limit_message
  else if strict_eq_str errorType SERVER then server_message
  else unexpected_message.

(** The error types the [catch] block retries. *)
Definition retryable (errorType : JsVal) : bool :=
  strict_eq_str errorType TIMEOUT || strict_eq_str errorType NETWORK ||
  strict_eq_str errorType SERVER || strict_eq_str errorType RATE_LIMIT.

(** [error.type || ErrorTypes.UNKNOWN]. *)
Definition errorType_of (type : JsVal) : JsVal := or_else type (JStr UNKNOWN).

(** The error type [callPuterAI] assigns to the value it caught. *)
Definition error_kind (error : JsVal) : JsVal :=
  errorType_of (get_opt error "type").

Section Acquire.
Variable E : Env.
Let cfg := config E.

  (** The condition under which the SDK is tried. *)
Definition sdk_path : bool :=
    negb (USE_DIRECT_API cfg) && puter_ai_chat E && isPuterLoaded E.

  (** The [try] block of [callPuterAI]; [options] holds the destructured
      [{ model, timeout, temperature, max_tokens }]. *)
Definition acquire_try (prompt : string) (options : Options) : M JsVal :=
    if sdk_path then
      try_catch
        (console LogUsingSdk ;;
         let* response :=
           puter_chat E prompt (default (PUTER_MODEL cfg) (opt_model options)) in
         lift (sdk_response_text response))
        (fun sdkError =>
           let* message := lift (get sdkError "message") in
           console (LogSdkFallback message) ;;
           callDirectAPI E prompt options)
    else if has_api_key cfg then
      console LogUsingDirect ;;
      callDirectAPI E prompt options
    else if String.eqb (ENVIRONMENT cfg) "development" then
      console LogMock ;;
      sleep 1000 ;;
      ret (JStr (mock_response prompt))
    else
      throw (JObj [("type", JStr AUTH);
                   ("message", JStr "API key is not configured")]).

  (** The [catch] block of [callPuterAI]; [again] is the recursive call
      [callPuterAI(prompt, { ...options, retries: retries - 1 })]. *)
Definition acquire_catch (retries : Z) (again : M JsVal) (error : JsVal)
    : M JsVal :=
    console (LogApiError error) ;;
    let* type := lift (get error "type") in
    let errorType := errorType_of type in
    if (0 <? retries)%Z && retryable errorType then
      console (LogRetrying retries) ;;
      sleep (PUTER_RETRY_DELAY cfg) ;;
      again
    else
      setError (Some (errorType, userFriendlyMessage errorType)) ;;
      throw (new_Error (userFriendlyMessage errorType)).

  (** The options [callPuterAI] passes on: each of [model], [timeout],
      [temperature] and [max_tokens] after its default was applied. *)
Definition call_options (options : Options) : Options :=
    {| opt_retries := None;
       opt_timeout := Some (default (PUTER_TIMEOUT cfg) (opt_timeout options));
       opt_model := Some (default (PUTER_MODEL cfg) (opt_model options));
       opt_temperature := Some (default (7 # 10)%Q (opt_temperature options));
       opt_max_tokens := Some (default 2000 (opt_max_tokens options)) |}.

  (** One invocation of [callPuterAI], the recursive call being [again].
      The [finally] block writes [isLoading] last: a run is observed through
      the store it ends in. *)
Definition callPuterAI_body (again : Options -> M JsVal)
                              (prompt : string) (options : Options) : M JsVal :=
    let retries := default (PUTER_MAX_RETRIES cfg) (opt_retries options) in
    setIsLoading true ;;
    setError None ;;
    try_finally
      (try_catch
         (acquire_try prompt (call_options options))
         (acquire_catch retries (again (with_retries options (retries - 1)))))
      (fun w => with_isLoading w false).

  (** [callPuterAI] up to its first suspension: the SDK call or the
      request is issued, or the mock delay is armed; when none of the three
      applies the call runs to its end without suspending. *)
Definition callPuterAI_issue (prompt : string) (options : Options) : M unit :=
    if sdk_path then
      setIsLoading true ;; setError None ;;
      console LogUsingSdk ;;
      puter_chat_issue prompt (default (PUTER_MODEL cfg) (opt_model options)) ;;
      ret tt
    else if has_api_key cfg then
      setIsLoading true ;; setError None ;;
      console LogUsingDirect ;;
      callDirectAPI_issue E prompt (call_options options) ;;
      ret tt
    else if String.eqb (ENVIRONMENT cfg) "development" then
      setIsLoading true ;; setError None ;;
      console LogMock
    else
      try_catch
        (callPuterAI_body (fun _ => out_of_fuel) prompt options ;; ret tt)
        (fun _ => ret tt).

  (** [callPuterAI] unrolled [fuel + 1] times. *)
Fixpoint callPuterAI_fuel (fuel : nat) (prompt : string) (options : Options)
    : M JsVal :=
    callPuterAI_body
      (match fuel with
       | O => fun _ => out_of_fuel
       | S fuel' => callPuterAI_fuel fuel' prompt
       end) prompt options.

  (** [callPuterAI]: the recursion descends on [retries] and stops at zero,
      so [retries] unrollings suffice. *)
Definition callPuterAI (prompt : string) (options : Options) : M JsVal :=
    callPuterAI_fuel
      (Z.to_nat (default (PUTER_MAX_RETRIES cfg) (opt_retries options)))
      prompt options.

End Acquire.

(** A computation that answers: it returns or throws from every store. *)
Definition answers {A} (m : M A) : Prop := forall w, fst (m w) <> OutOfFuel.

(** A computation that throws objects only, never [null] or [undefined]. *)
Definition throws_objects {A} (m : M A) : Prop :=
  forall w e w', m w = (Throws e, w') -> is_nullish e = false.

(** A computation that leaves the observation [f] of the store as it
    found it. *)
Definition keeps {A X} (f : World -> X) (m : M A) : Prop :=
  forall w, f (snd (m w)) = f w.

(** A computation that issues at most [n] requests, and at most [k] calls
    of the SDK. *)
Definition calls_at_most {A} (n k : nat) (m : M A) : Prop :=
  forall w,
    (fetch_count w <= fetch_count (snd (m w)) <= fetch_count w + n)%nat /\
    (sdk_count w <= sdk_count (snd (m w)) <= sdk_count w + k)%nat.

(** The failures of the transport that [callDirectAPI] gives a type, with
    the object it throws for each: the abort by its timer, the rejection
    of [fetch] with a [TypeError] that mentions "fetch", and the statuses
    401, 429, 503 and 504. *)
Inductive classified : FetchOutcome -> JsVal -> Prop :=
| classified_timeout :
    classified FetchTimesOut
      (error_object TIMEOUT (JStr "Request timeout") 408)
| classified_network m :
    includes m "fetch" = true ->
    classified (FetchRejects (JErr ClsTypeError "TypeError" m))
      (error_object NETWORK (JStr "Network connection failed") 0)
| classified_unauthorized r :
    status r = 401%Z ->
    classified (FetchResponds r)
      (error_object AUTH (JStr "Invalid API key") 401)
| classified_rate_limited r :
    status r = 429%Z ->
    classified (FetchResponds r)
      (error_object RATE_LIMIT (JStr "Rate limit exceeded") 429)
| classified_unavailable r :
    status r = 503%Z \/ status r = 504%Z ->
    classified (FetchResponds r)
      (error_object SERVER (JStr "Service unavailable") (status r)).

(** The transport fails the way [callDirectAPI] classifies as a network
    error: [fetch] rejects with a [TypeError] whose message mentions
    "fetch". *)
Definition network_failure (o : FetchOutcome) : Prop :=
  exists m, o = FetchRejects (JErr ClsTypeError "TypeError" m) /\
            includes m "fetch" = true.

End Pipeline.

(* ===================================================================== *)
(** ** The component [App]: reveal, submission, export *)
(* ===================================================================== *)

Module Chat.
Import Js Config Runtime Pipeline.

Record Message : Type := {
  sender : string;
  text : string
}.

(** The variables one call of [simulateStreaming] closes over, shared by
    the interval callback and by the updater functions it hands to
    [setStreamingMessage]; [iv_active] is cleared by [clearInterval]. *)
Record Interval : Type := {
  iv_active : bool;
  iv_index : nat;
  iv_words : list string;
  iv_fullText : string
}.

(** An update queued for the state [streamingMessage]: a value, or the
    updater [(prev) => prev + (prev ? " " : "") + words[index]] of the
    interval [id], which reads [index] when it is run. *)
Inductive Update : Type :=
| SetTo (s : string)
| AppendWord (id : nat).

(** When React runs an updater function: inside the [setState] call that
    receives it (its eager computation, taken only when the component has
    no other update pending), or when it next renders the component. *)
Inductive Timing : Type :=
| AtCall
| AtRender.

Record App : Type := {
  rt : World;
  messages : list Message;
  input : string;
  isTyping : bool;
  streamingMessage : string;
  streamingQueue : list Update;
  isStreaming : bool;
  selectedSuggestion : option Z;
  apiError : option string;
  intervals : list Interval;
  streamIntervalRef : option nat;
  abortControllerRef : option nat
}.

Definition initial_app : App := {|
  rt := empty_world; messages := []; input := ""; isTyping := false;
  streamingMessage := ""; streamingQueue := []; isStreaming := false;
  selectedSuggestion := None; apiError := None; intervals := [];
  streamIntervalRef := None; abortControllerRef := None
|}.

Definition with_rt (a : App) (x : World) : App :=
  {| rt := x; messages := messages a; input := input a; isTyping := isTyping a;
     streamingMessage := streamingMessage a; streamingQueue := streamingQueue a;
     isStreaming := isStreaming a; selectedSuggestion := selectedSuggestion a;
     apiError := apiError a; intervals := intervals a;
     streamIntervalRef := streamIntervalRef a;
     abortControllerRef := abortControllerRef a |}.

Definition with_messages (a : App) (x : list Message) : App :=
  {| rt := rt a; messages := x; input := input a; isTyping := isTyping a;
     streamingMessage := streamingMessage a; streamingQueue := streamingQueue a;
     isStreaming := isStreaming a; selectedSuggestion := selectedSuggestion a;
     apiError := apiError a; intervals := intervals a;
     streamIntervalRef := streamIntervalRef a;
     abortControllerRef := abortControllerRef a |}.

Definition with_input (a : App) (x : string) : App :=
  {| rt := rt a; messages := messages a; input := x; isTyping := isTyping a;
     streamingMessage := streamingMessage a; streamingQueue := streamingQueue a;
     isStreaming := isStreaming a; selectedSuggestion := selectedSuggestion a;
     apiError := apiError a; intervals := intervals a;
     streamIntervalRef := streamIntervalRef a;
     abortControllerRef := abortControllerRef a |}.

Definition with_isTyping (a : App) (x : bool) : App :=
  {| rt := rt a; messages := messages a; input := input a; isTyping := x;
     streamingMessage := streamingMessage a; streamingQueue := streamingQueue a;
     isStreaming := isStreaming a; selectedSuggestion := selectedSuggestion a;
     apiError := apiError a; intervals := intervals a;
     streamIntervalRef := streamIntervalRef a;
     abortControllerRef := abortControllerRef a |}.

Definition with_streaming (a : App) (x : string) (q : list Update) : App :=
  {| rt := rt a; messages := messages a; input := input a; isTyping := isTyping a;
     streamingMessage := x; streamingQueue := q;
     isStreaming := isStreaming a; selectedSuggestion := selectedSuggestion a;
     apiError := apiError a; intervals := intervals a;
     streamIntervalRef := streamIntervalRef a;
     abortControllerRef := abortControllerRef a |}.

Definition with_isStreaming (a : App) (x : bool) : App :=
  {| rt := rt a; messages := messages a; input := input a; isTyping := isTyping a;
     streamingMessage := streamingMessage a; streamingQueue := streamingQueue a;
     isStreaming := x; selectedSuggestion := selectedSuggestion a;
     apiError := apiError a; intervals := intervals a;
     streamIntervalRef := streamIntervalRef a;
     abortControllerRef := abortControllerRef a |}.

Definition with_selection (a : App) (x : option Z) (e : option string) : App :=
  {| rt := rt a; messages := messages a; input := input a; isTyping := isTyping a;
     streamingMessage := streamingMessage a; streamingQueue := streamingQueue a;
     isStreaming := isStreaming a; selectedSuggestion := x;
     apiError := e; intervals := intervals a;
     streamIntervalRef := streamIntervalRef a;
     abortControllerRef := abortControllerRef a |}.

Definition with_intervals (a : App) (x : list Interval) : App :=
  {| rt := rt a; messages := messages a; input := input a; isTyping := isTyping a;
     streamingMessage := streamingMessage a; streamingQueue := streamingQueue a;
     isStreaming := isStreaming a; selectedSuggestion := selectedSuggestion a;
     apiError := apiError a; intervals := x;
     streamIntervalRef := streamIntervalRef a;
     abortControllerRef := abortControllerRef a |}.

Definition with_streamIntervalRef (a : App) (x : option nat) : App :=
  {| rt := rt a; messages := messages a; input := input a; isTyping := isTyping a;
     streamingMessage := streamingMessage a; streamingQueue := streamingQueue a;
     isStreaming := isStreaming a; selectedSuggestion := selectedSuggestion a;
     apiError := apiError a; intervals := intervals a;
     streamIntervalRef := x;
     abortControllerRef := abortControllerRef a |}.

Definition with_abortControllerRef (a : App) (x : option nat) : App :=
  {| rt := rt a; messages := messages a; input := input a; isTyping := isTyping a;
     streamingMessage := streamingMessage a; streamingQueue := streamingQueue a;
     isStreaming := isStreaming a; selectedSuggestion := selectedSuggestion a;
     apiError := apiError a; intervals := intervals a;
     streamIntervalRef := streamIntervalRef a;
     abortControllerRef := x |}.

(** *** The state [streamingMessage] and its queue *)

(** [prev + (prev ? " " : "") + words[index]]. *)
Definition append_word (prev : string) (word : option string) : string :=
  prev +:+ (if String.eqb prev "" then "" else " ") +:+ to_text word.

Definition run_update (ivs : list Interval) (prev : string) (u : Update) : string :=
  match u with
  | SetTo s => s
  | AppendWord id =>
      match ivs !! id with
      | Some iv => append_word prev (iv_words iv !! iv_index iv)
      | None => prev
      end
  end.

(** The state the queued updates lead to. *)
Definition pending_streamingMessage (a : App) : string :=
  fold_left (run_update (intervals a)) (streamingQueue a) (streamingMessage a).

(** React renders the component: the queued updates are applied in order. *)
Definition render (a : App) : App :=
  with_streaming a (pending_streamingMessage a) [].

(** [setStreamingMessage(u)]; an updater run at the call is replaced by the
    value it computes there. *)
Definition setStreamingMessage (t : Timing) (u : Update) (a : App) : App :=
  match t, u with
  | AtCall, AppendWord _ =>
      with_streaming a (streamingMessage a)
        (streamingQueue a ++
           [SetTo (run_update (intervals a) (pending_streamingMessage a) u)])
  | _, _ => with_streaming a (streamingMessage a) (streamingQueue a ++ [u])
  end.

(** *** [simulateStreaming] *)

(** [clearInterval(id)]. *)
Definition clearInterval (id : nat) (a : App) : App :=
  match intervals a !! id with
  | Some iv =>
      with_intervals a
        (<[id := {| iv_active := false; iv_index := iv_index iv;
                    iv_words := iv_words iv; iv_fullText := iv_fullText iv |}]>
           (intervals a))
  | None => a
  end.

(** [if (ref.current) clearInterval(ref.current)], for the ref that holds
    the interval. *)
Definition clear_current_interval (a : App) : App :=
  match streamIntervalRef a with
  | Some id => clearInterval id a
  | None => a
  end.

(** [simulateStreaming(fullText)]: the previous interval is cleared, the
    buffer reset, and a new interval armed whose callback starts at
    [index = 0]. *)
Definition simulateStreaming (fullText : string) (a : App) : App :=
  let a1 := clear_current_interval a in
  let a2 := with_isStreaming a1 true in
  let a3 := setStreamingMessage AtRender (SetTo "") a2 in
  let id := length (intervals a3) in
  let a4 := with_intervals a3
              (intervals a3 ++
                 [{| iv_active := true; iv_index := 0;
                     iv_words := split_space fullText;
                     iv_fullText := fullText |}]) in
  with_streamIntervalRef a4 (Some id).

(** One run of the callback of interval [id]. *)
Definition interval_callback (t : Timing) (id : nat) (a : App) : App :=
  match intervals a !! id with
  | Some iv =>
      if iv_active iv then
        if Nat.ltb (iv_index iv) (length (iv_words iv)) then
          let a1 := setStreamingMessage t (AppendWord id) a in
          with_intervals a1
            (<[id := {| iv_active := true; iv_index := S (iv_index iv);
                        iv_words := iv_words iv;
                        iv_fullText := iv_fullText iv |}]> (intervals a1))
        else
          let a1 := clear_current_interval a in
          let a2 := with_isStreaming a1 false in
          let a3 := with_messages a2
                      (messages a2 ++
                         [{| sender := "ai"; text := iv_fullText iv |}]) in
          setStreamingMessage AtRender (SetTo "") a3
      else a
  | None => a
  end.

(** A tick: the callback runs and React renders before the next one. *)
Definition tick (t : Timing) (id : nat) (a : App) : App :=
  render (interval_callback t id a).

(** The ticks of the interval the ref holds, one timing per tick. *)
Definition ticks (ts : list Timing) (a : App) : App :=
  fold_left (fun a t =>
               match streamIntervalRef a with
               | Some id => tick t id a
               | None => a
               end) ts a.

(** The buffer as rendered after each tick. *)
Fixpoint buffers (ts : list Timing) (a : App) : list string :=
  match ts with
  | [] => []
  | t :: ts' => let a' := ticks [t] a in streamingMessage a' :: buffers ts' a'
  end.

(** [simulateStreaming(fullText)] followed by the render that ends the
    task it was called in. *)
Definition reveal (fullText : string) (a : App) : App :=
  render (simulateStreaming fullText a).

(** *** [sendMessage] *)

(** [!input.trim()]: the empty string is the only falsy one. *)
Definition is_blank (s : string) : bool := trims_to_empty s.

(** Runs a hook computation against the store of the component. *)
Definition run_hook {A} (m : M A) (a : App) : App := with_rt a (snd (m (rt a))).

(** [sendMessage] up to its first suspension, [await callPuterAI(...)].
    The guards are [!input.trim()] and [input.length > MAX_INPUT_LENGTH]. *)
Definition sendMessage_begin (E : Env) (a : App) : App :=
  let cfg := config E in
  if is_blank (input a) then a
  else if (MAX_INPUT_LENGTH cfg <? utf16_length (input a))%Z then a
  else
    let prompt := input a in
    let a1 := with_messages a
                (messages a ++ [{| sender := "user"; text := prompt |}]) in
    let a2 := with_input a1 "" in
    let a3 := with_isTyping a2 true in
    let a4 := with_selection a3 None None in
    let a5 := match abortControllerRef a4 with
              | Some c => with_rt a4 (abort c (rt a4))
              | None => a4
              end in
    let (c, w) := new_AbortController (rt a5) in
    let a6 := with_abortControllerRef (with_rt a5 w)
                (match c with Returns id => Some id | _ => None end) in
    run_hook
      (callPuterAI_issue E prompt
         {| opt_retries := Some (PUTER_MAX_RETRIES cfg);
            opt_timeout := Some (PUTER_TIMEOUT cfg);
            opt_model := Some (PUTER_MODEL cfg);
            opt_temperature := Some (7 # 10)%Q;
            opt_max_tokens := Some 2000 |})
      a6.

(** The pending fetch [req] is cancelled when the controller whose signal
    it carries has been aborted. *)
Definition cancelled (a : App) (req : Request) : bool :=
  aborted (rt a) (req_signal req).

(** The state of a reveal in progress: the ref holds interval [id], which
    is armed over [words] with [k] of them handed to the buffer; nothing
    is queued. *)
Definition revealing (id k : nat) (words : list string) (fullText : string)
                     (a : App) : Prop :=
  streamIntervalRef a = Some id /\
  intervals a !! id =
    Some {| iv_active := true; iv_index := k; iv_words := words;
            iv_fullText := fullText |} /\
  isStreaming a = true /\
  streamingQueue a = [].

(** [handleInputChange]: the typed value replaces the input unless its
    [length], in UTF-16 code units, exceeds [MAX_INPUT_LENGTH]. *)
Definition handleInputChange (cfg : EnvConfig) (value : string) (a : App) : App :=
  if (utf16_length value <=? MAX_INPUT_LENGTH cfg)%Z
  then with_input a value
  else a.

(** [clearChat], the user having confirmed. *)
Definition clearChat (a : App) : App :=
  with_selection (with_messages a []) None None.

(** *** [exportChat] *)

Record ExportRecord : Type := {
  role : string;
  content : string;
  timestamp : string
}.

(** [s.slice(0, 10)]. *)
Definition slice_0_10 (s : string) : string := String.substring 0 10 s.

(** [exportChat]: [clock i] is the text of the [i]-th
    [new Date().toISOString()] evaluated during the export, one per
    message in order and a last one for the file name. The result is the
    array written to the file, and the name of the file. *)
Definition exportChat (clock : nat -> string) (msgs : list Message)
  : list ExportRecord * string :=
  (imap (fun i msg => {| role := sender msg; content := text msg;
                         timestamp := clock i |}) msgs,
   "chat-history-" +:+ slice_0_10 (clock (length msgs)) +:+ ".json").

(** *** [sendMessage], the whole call *)

(** What [fullText.split(" ")] throws when [fullText] is no string: only a
    string has the method. *)
Definition split_error (fullText : JsVal) : JsVal :=
  match fullText with
  | JUndefined | JNull => nullish_read_error fullText "split"
  | _ => JErr ClsTypeError "TypeError" "fullText.split is not a function"
  end.

(** [simulateStreaming(aiResponse)] with whatever value the pipeline
    returned: when it is no string the statements before
    [fullText.split(" ")] have run and no interval is armed. *)
Definition simulateStreaming_of (aiResponse : JsVal) (a : App)
  : Outcome unit * App :=
  match aiResponse with
  | JStr fullText => (Returns tt, simulateStreaming fullText a)
  | _ =>
      let a1 := clear_current_interval a in
      let a2 := with_isStreaming a1 true in
      (Throws (split_error aiResponse),
       setStreamingMessage AtRender (SetTo "") a2)
  end.

(** The options [sendMessage] passes to [callPuterAI]. *)
Definition sendMessage_options (cfg : EnvConfig) : Options :=
  {| opt_retries := Some (PUTER_MAX_RETRIES cfg);
     opt_timeout := Some (PUTER_TIMEOUT cfg);
     opt_model := Some (PUTER_MODEL cfg);
     opt_temperature := Some (7 # 10)%Q;
     opt_max_tokens := Some 2000 |}.

(** [sendMessage] from the guards to the call of [callPuterAI]. *)
Definition sendMessage_prepare (a : App) : App :=
  let a1 := with_messages a
              (messages a ++ [{| sender := "user"; text := input a |}]) in
  let a2 := with_input a1 "" in
  let a3 := with_isTyping a2 true in
  let a4 := with_selection a3 None None in
  let a5 := match abortControllerRef a4 with
            | Some c => with_rt a4 (abort c (rt a4))
            | None => a4
            end in
  let (c, w) := new_AbortController (rt a5) in
  with_abortControllerRef (with_rt a5 w)
    (match c with Returns id => Some id | _ => None end).

(** The [catch] block of [sendMessage]. The state holds texts: a thrown
    value whose [message] is no string is outside it ([None]); reading the
    [message] of [null] or [undefined] throws after [setIsTyping(false)]. *)
Definition sendMessage_catch (err : JsVal) (a : App) : option App :=
  let a1 := with_isTyping a false in
  match get err "message" with
  | Returns (JStr m) =>
      let a2 := with_selection a1 (selectedSuggestion a1) (Some m) in
      Some (with_messages a2 (messages a2 ++ [{| sender := "ai"; text := m |}]))
  | Returns _ => None
  | _ => Some a1
  end.

(** [sendMessage] from the point where [await callPuterAI(...)] settles
    as [r]. *)
Definition sendMessage_resume (r : Outcome JsVal) (a : App) : option App :=
  match r with
  | Returns aiResponse =>
      match simulateStreaming_of aiResponse (with_isTyping a false) with
      | (Throws err, a') => sendMessage_catch err a'
      | (_, a') => Some a'
      end
  | Throws err => sendMessage_catch err a
  | OutOfFuel => None
  end.

(** [sendMessage], nothing else running while it awaits the pipeline. *)
Definition sendMessage (E : Env) (a : App) : option App :=
  if is_blank (input a) then Some a
  else if (MAX_INPUT_LENGTH (config E) <? utf16_length (input a))%Z
  then Some a
  else
    let a6 := sendMessage_prepare a in
    let (r, w) :=
      callPuterAI E (input a) (sendMessage_options (config E)) (rt a6) in
    sendMessage_resume r (with_rt a6 w).

(** The component unmounts: the cleanup of the effect clears the interval
    in the ref and aborts the controller in the ref. *)
Definition unmount (a : App) : App :=
  let a1 := clear_current_interval a in
  match abortControllerRef a1 with
  | Some c => with_rt a1 (abort c (rt a1))
  | None => a1
  end.

(** No interval can run: the one the ref holds, if any, is cleared, and
    no update is queued. *)
Definition idle (a : App) : Prop :=
  streamingQueue a = [] /\
  forall id iv, streamIntervalRef a = Some id ->
                intervals a !! id = Some iv -> iv_active iv = false.


(** *** The controls *)



End Chat.

(* ===================================================================== *)
(** ** The effect of [usePuterAI] that loads the SDK script *)
(* ===================================================================== *)

Module Probe.
Import Js Config.

(** The state [apiHealth]. *)
Inductive Health : Type :=
| checking
| healthy
| unhealthy.

(** A script element of the document, with its [src]. *)
Record Script : Type := {
  script_id : nat;
  script_src : string
}.

(** The document and the hook's state: [scripts] are the script elements
    in the document, [created] counts the script elements there have been
    (the number the next one gets), [waited] lists the delays of the
    retry timers that ran. *)
Record Page : Type := {
  scripts : list Script;
  created : nat;
  isPuterLoaded : bool;
  apiHealth : Health;
  scriptLoadAttempted : bool;
  waited : list Z
}.

(** [ENV_CONFIG.PUTER_SCRIPT_URL], from [REACT_APP_API_URL]. *)
Definition PUTER_SCRIPT_URL (REACT_APP_API_URL : option string) : string :=
  str_or REACT_APP_API_URL "https://js.puter.com/v2/".

(** What the effect runs against: the configuration, the address of the
    script, and whether the [n]-th script element created loads ([onload])
    or fails ([onerror]). *)
Record Loader : Type := {
  loader_config : EnvConfig;
  script_url : string;
  loads : nat -> bool
}.

(** How the promise of [loadPuterScript] settles. *)
Inductive Settled : Type :=
| Resolved
| Rejected (message : string)
| Unsettled.

Definition maxRetries : nat := 3.

(** [document.querySelector('script[src*="puter.com"]')]. *)
Definition puter_script_present (p : Page) : bool :=
  existsb (fun s => includes (script_src s) "puter.com") (scripts p).

(** [setIsPuterLoaded(true); setApiHealth("healthy")]. *)
Definition mark_healthy (p : Page) : Page :=
  {| scripts := scripts p; created := created p; isPuterLoaded := true;
     apiHealth := healthy; scriptLoadAttempted := scriptLoadAttempted p;
     waited := waited p |}.

(** [setApiHealth("unhealthy")]. *)
Definition mark_unhealthy (p : Page) : Page :=
  {| scripts := scripts p; created := created p;
     isPuterLoaded := isPuterLoaded p; apiHealth := unhealthy;
     scriptLoadAttempted := scriptLoadAttempted p; waited := waited p |}.

(** [document.body.appendChild(script); setScriptLoadAttempted(true)]. *)
Definition append_script (url : string) (p : Page) : Page :=
  {| scripts := scripts p ++ [{| script_id := created p; script_src := url |}];
     created := S (created p); isPuterLoaded := isPuterLoaded p;
     apiHealth := apiHealth p; scriptLoadAttempted := true;
     waited := waited p |}.

(** The retry timer runs after [ms] and removes the script [id]:
    [document.body.removeChild(script)]. *)
Definition retry_after (ms : Z) (id : nat) (p : Page) : Page :=
  {| scripts := filter (fun s => script_id s <> id) (scripts p);
     created := created p; isPuterLoaded := isPuterLoaded p;
     apiHealth := apiHealth p; scriptLoadAttempted := scriptLoadAttempted p;
     waited := waited p ++ [ms] |}.

(** [loadPuterScript], with [retryCount] as it stands at the call; the
    recursion stops once [retryCount] has reached [maxRetries], so
    [maxRetries - retryCount] unrollings suffice. *)
Fixpoint loadPuterScript (L : Loader) (fuel retryCount : nat) (p : Page)
  : Settled * Page :=
  if puter_script_present p then (Resolved, mark_healthy p)
  else
    let id := created p in
    let p1 := append_script (script_url L) p in
    if loads L id then (Resolved, mark_healthy p1)
    else if Nat.ltb retryCount maxRetries then
      let p2 :=
        retry_after
          (PUTER_RETRY_DELAY (loader_config L) * Z.of_nat (S retryCount)) id p1 in
      match fuel with
      | O => (Unsettled, p2)
      | S fuel' => loadPuterScript L fuel' (S retryCount) p2
      end
    else
      (Rejected "Failed to load Puter.ai script after multiple attempts",
       mark_unhealthy p1).

(** The effect: nothing when the direct API is forced or a load was
    attempted before; otherwise [loadPuterScript().catch(...)] with
    [retryCount = 0]. *)
Definition load_effect (L : Loader) (p : Page) : Page :=
  if USE_DIRECT_API (loader_config L) || scriptLoadAttempted p then p
  else
    match loadPuterScript L maxRetries 0 p with
    | (Rejected _, p') => mark_unhealthy p'
    | (_, p') => p'
    end.

(** The page before the effect has run, the document holding script
    elements with the addresses [srcs]. *)
Definition fresh_page (srcs : list string) : Page :=
  {| scripts := imap (fun i src => {| script_id := i; script_src := src |}) srcs;
     created := length srcs; isPuterLoaded := false;
     apiHealth := checking; scriptLoadAttempted := false; waited := [] |}.

(** Every script element of the document was numbered before the next one
    to be created. *)
Definition numbered (p : Page) : Prop :=
  Forall (fun s => (script_id s < created p)%nat) (scripts p).

(** The delays [d * 1, ..., d * k]. *)
Definition linear_delays (d : Z) (first k : nat) : list Z :=
  map (fun i => (d * Z.of_nat i)%Z) (seq first k).

End Probe.

(* ===================================================================== *)
(** ** Concrete configurations and environments *)
(* ===================================================================== *)

Module Scenarios.
Import Js Config Runtime Pipeline Chat.

(** No variable of [process.env] is set. *)
Definition nothing_set : ProcessEnv := {|
  REACT_APP_PUTER_API_KEY := None; REACT_APP_PUTER_API_URL := None;
  REACT_APP_PUTER_MODEL := None; REACT_APP_PUTER_TIMEOUT := None;
  REACT_APP_PUTER_MAX_RETRIES := None; REACT_APP_PUTER_RETRY_DELAY := None;
  REACT_APP_USE_DIRECT_API := None; REACT_APP_MAX_INPUT_LENGTH := None;
  REACT_APP_STREAMING_DELAY := None; REACT_APP_ENVIRONMENT := None
|}.

(** A credential and nothing else. *)
Definition key_set : ProcessEnv := {|
  REACT_APP_PUTER_API_KEY := Some "sk-test"; REACT_APP_PUTER_API_URL := None;
  REACT_APP_PUTER_MODEL := None; REACT_APP_PUTER_TIMEOUT := None;
  REACT_APP_PUTER_MAX_RETRIES := None; REACT_APP_PUTER_RETRY_DELAY := None;
  REACT_APP_USE_DIRECT_API := None; REACT_APP_MAX_INPUT_LENGTH := None;
  REACT_APP_STREAMING_DELAY := None; REACT_APP_ENVIRONMENT := None
|}.

(** No credential, and the environment named [name]. *)
Definition named (name : string) : ProcessEnv := {|
  REACT_APP_PUTER_API_KEY := None; REACT_APP_PUTER_API_URL := None;
  REACT_APP_PUTER_MODEL := None; REACT_APP_PUTER_TIMEOUT := None;
  REACT_APP_PUTER_MAX_RETRIES := None; REACT_APP_PUTER_RETRY_DELAY := None;
  REACT_APP_USE_DIRECT_API := None; REACT_APP_MAX_INPUT_LENGTH := None;
  REACT_APP_STREAMING_DELAY := None; REACT_APP_ENVIRONMENT := Some name
|}.

Definition failed_to_fetch : JsVal :=
  JErr ClsTypeError "TypeError" "Failed to fetch".

(** The page without the SDK; every fetch settles as [o]. *)
Definition page (p : ProcessEnv) (o : FetchOutcome) : Env := {|
  config := ENV_CONFIG p;
  puter_ai_chat := false;
  isPuterLoaded := false;
  sdk_outcome := fun _ => SdkRejects (JErr ClsError "Error" "unused");
  fetch_outcome := fun _ => o
|}.

(** The page with the SDK loaded; every SDK call settles as [s] and every
    fetch as [o]. *)
Definition page_with_sdk (p : ProcessEnv) (s : SdkOutcome) (o : FetchOutcome)
  : Env := {|
  config := ENV_CONFIG p;
  puter_ai_chat := true;
  isPuterLoaded := true;
  sdk_outcome := fun _ => s;
  fetch_outcome := fun _ => o
|}.

Definition offline : Env := page key_set (FetchRejects failed_to_fetch).

Definition responds (status : Z) (data : JsVal) : FetchOutcome :=
  FetchResponds {| status := status; body := JsonBody data |}.

Definition answer (text : string) : JsVal :=
  JObj [("message", JObj [("content", JStr text)])].

(** An answer whose content is a list of parts instead of a text. *)
Definition content_parts (text : string) : JsVal :=
  JArr [JObj [("type", JStr "text"); ("text", JStr text)]].

Definition answer_in_parts (text : string) : JsVal :=
  JObj [("message", JObj [("content", content_parts text)])].


(** A no-break space, U+00A0, which [trim] strips. *)
Definition no_break_space : string :=
  String (ascii_of_nat 194) (String (ascii_of_nat 160) "").

(** [n] letters of two bytes and one code unit each. *)
Definition accented (n : nat) : string := String.concat "" (repeat "é" n).

End Scenarios.

(* ===================================================================== *)
(** ** Properties of the pipeline *)
(* ===================================================================== *)

Module PipelineFacts.
Import Js Config Runtime Pipeline Scenarios.
Import ErrorTypes.

(** Symbolic execution: the monadic operations and the primitives are
    unfolded down to matches on the oracles and on the configuration. *)
Ltac js_unfold :=
  unfold callPuterAI_issue, callPuterAI_body, acquire_try, acquire_catch,
    callDirectAPI, callDirectAPI_issue, direct_settled, direct_reject,
    direct_accept, direct_catch, puter_chat, puter_chat_issue, fetch,
    fetch_issue, fetch_settle, fire_timeouts, abort, setIsLoading, setError,
    clearTimeout, setTimeout_abort, new_AbortController, console, sleep, emit,
    modify, try_finally, try_catch, bind, lift, ret, throw, out_of_fuel in *.

Ltac js_run := repeat (js_unfold; cbn in *).

(** *** Observations of a run *)

Lemma sleeps_snoc w e :
  sleeps (with_trace w (trace w ++ [e])) =
  (sleeps w ++ match e with EvSleep ms => [ms] | _ => [] end)%list.
Proof.
  unfold sleeps; cbn. rewrite omap_app. destruct e; cbn; reflexivity.
Qed.

Lemma fetches_snoc w e :
  fetches (with_trace w (trace w ++ [e])) =
  (fetches w ++ match e with EvFetch r => [r] | _ => [] end)%list.
Proof.
  unfold fetches; cbn. rewrite omap_app. destruct e; cbn; reflexivity.
Qed.

(** *** [callDirectAPI] *)

(** Without a credential the adapter stops before the request. *)
Lemma callDirectAPI_no_key E prompt options w :
  has_api_key (config E) = false ->
  callDirectAPI E prompt options w =
    (Throws (new_Error "API key is not configured"),
     with_timeouts (with_controllers w (controllers w ++ [false]))
       (<[length (timeouts w) := None]>
          ((timeouts w ++
              [Some (length (controllers w),
                     default (PUTER_TIMEOUT (config E)) (opt_timeout options))])%list))).
Proof.
  intros H. js_unfold; cbn. rewrite H. reflexivity.
Qed.


Lemma callPuterAI_body_again E again1 again2 prompt options w :
  (0 <? default (PUTER_MAX_RETRIES (config E)) (opt_retries options))%Z = false ->
  callPuterAI_body E again1 prompt options w =
  callPuterAI_body E again2 prompt options w.
Proof.
  intros H.
  unfold callPuterAI_body, acquire_catch, try_finally, try_catch, bind,
    setIsLoading, setError, console, emit, modify, lift.
  rewrite H. cbn. reflexivity.
Qed.

Lemma callPuterAI_unfold E prompt options w :
  callPuterAI E prompt options w =
  callPuterAI_body E (callPuterAI E prompt) prompt options w.
Proof.
  unfold callPuterAI.
  set (retries := default (PUTER_MAX_RETRIES (config E)) (opt_retries options)).
  destruct (Z.ltb_spec 0 retries) as [Hpos|Hneg].
  - replace (Z.to_nat retries) with (S (Z.to_nat (retries - 1))) by lia.
    reflexivity.
  - replace (Z.to_nat retries) with 0%nat by lia.
    apply callPuterAI_body_again. apply Z.ltb_ge. exact Hneg.
Qed.

(** *** Totality *)

Lemma answers_ret {A} (a : A) : answers (ret a).
Proof. intros w; discriminate. Qed.

Lemma answers_throw {A} e : answers (@throw A e).
Proof. intros w; discriminate. Qed.

Lemma answers_modify f : answers (modify f).
Proof. intros w; discriminate. Qed.

Lemma answers_lift {A} (o : Outcome A) : o <> OutOfFuel -> answers (lift o).
Proof. intros H w; exact H. Qed.

Lemma answers_bind {A B} (m : M A) (k : A -> M B) :
  answers m -> (forall a, answers (k a)) -> answers (bind m k).
Proof.
  intros Hm Hk w. unfold bind. specialize (Hm w).
  destruct (m w) as [[a|e|] w']; cbn in *;
    [apply Hk | discriminate | congruence].
Qed.

Lemma answers_try_catch {A} (m : M A) (h : JsVal -> M A) :
  answers m -> (forall e, answers (h e)) -> answers (try_catch m h).
Proof.
  intros Hm Hh w. unfold try_catch. specialize (Hm w).
  destruct (m w) as [[a|e|] w']; cbn in *;
    [discriminate | apply Hh | congruence].
Qed.

Lemma answers_try_finally {A} (m : M A) fin :
  answers m -> answers (try_finally m fin).
Proof.
  intros Hm w. unfold try_finally. specialize (Hm w).
  destruct (m w) as [[a|e|] w']; cbn in *;
    [discriminate | discriminate | congruence].
Qed.

Lemma answers_if {A} (b : bool) (m1 m2 : M A) :
  answers m1 -> answers m2 -> answers (if b then m1 else m2).
Proof. destruct b; auto. Qed.

Lemma get_answers v k : get v k <> OutOfFuel.
Proof. destruct v; discriminate. Qed.

Lemma answers_new_AbortController : answers new_AbortController.
Proof. intros w; discriminate. Qed.

Lemma answers_setTimeout_abort c ms : answers (setTimeout_abort c ms).
Proof. intros w; discriminate. Qed.

Lemma answers_fetch_issue req : answers (fetch_issue req).
Proof. intros w; discriminate. Qed.

Lemma answers_fetch_settle E req n : answers (fetch_settle E req n).
Proof.
  intros w. unfold fetch_settle.
  destruct (fetch_outcome E n); discriminate.
Qed.

Lemma answers_puter_chat_issue prompt model : answers (puter_chat_issue prompt model).
Proof. intros w; discriminate. Qed.

Lemma sdk_response_text_answers v : sdk_response_text v <> OutOfFuel.
Proof.
  unfold sdk_response_text.
  destruct (is_string v); [discriminate|].
  destruct (truthy _); [|discriminate].
  destruct (get_opt (get_opt v "message") "content"); discriminate.
Qed.

Ltac step_in := match goal with |- forall _, _ => intro end.

Ltac answers_tac :=
  repeat first
    [ step_in
    | apply answers_ret | apply answers_throw | apply answers_modify
    | apply answers_new_AbortController | apply answers_setTimeout_abort
    | apply answers_fetch_issue | apply answers_fetch_settle
    | apply answers_puter_chat_issue
    | apply answers_if | apply answers_try_catch | apply answers_try_finally
    | apply answers_bind
    | apply answers_lift
    | apply get_answers | apply sdk_response_text_answers
    | match goal with |- match ?x with _ => _ end <> OutOfFuel =>
        destruct x; discriminate
      end ].

Lemma answers_callDirectAPI E prompt options : answers (callDirectAPI E prompt options).
Proof. unfold callDirectAPI, direct_catch, direct_settled, direct_reject, direct_accept. answers_tac. Qed.

Lemma answers_acquire_try E prompt options : answers (acquire_try E prompt options).
Proof.
  unfold acquire_try, puter_chat.
  repeat first [ apply answers_callDirectAPI | progress answers_tac ].
Qed.

Lemma answers_callPuterAI_fuel E prompt :
  forall fuel options,
    (Z.to_nat (default (PUTER_MAX_RETRIES (config E)) (opt_retries options)) <= fuel)%nat ->
    answers (callPuterAI_fuel E fuel prompt options).
Proof.
  induction fuel as [|fuel IH]; intros options Hfuel;
    cbn [callPuterAI_fuel]; unfold callPuterAI_body;
    (apply answers_bind; [answers_tac|intros _]);
    (apply answers_bind; [answers_tac|intros _]);
    (apply answers_try_finally, answers_try_catch; [apply answers_acquire_try|]);
    intros e; unfold acquire_catch;
    (apply answers_bind; [answers_tac|intros _]);
    (apply answers_bind; [answers_tac|intros ty]).
  - replace (0 <? _)%Z with false by (symmetry; apply Z.ltb_ge; lia).
    cbn. answers_tac.
  - apply answers_if; [|answers_tac].
    apply answers_bind; [answers_tac|intros _].
    apply answers_bind; [answers_tac|intros _].
    apply IH. cbn. lia.
Qed.

Lemma callPuterAI_answers E prompt options : answers (callPuterAI E prompt options).
Proof. apply answers_callPuterAI_fuel. reflexivity. Qed.


(** *** One invocation of [callPuterAI] *)

Section Invocation.
Variables (E : Env) (prompt : string) (options : Options).
Local Abbreviation retries :=
    (default (PUTER_MAX_RETRIES (config E)) (opt_retries options)).
Local Abbreviation entered w := (with_error (with_isLoading w true) None).
Local Abbreviation finished := (fun w => with_isLoading w false).

Local Open Scope js_scope.

Lemma callPuterAI_returned w v w1 :
    acquire_try E prompt (call_options E options) (entered w) = (Returns v, w1) ->
    callPuterAI E prompt options w = (Returns v, finished w1).
  Proof.
    intros Htry. rewrite callPuterAI_unfold.
    unfold callPuterAI_body, try_finally, try_catch, bind, setIsLoading,
      setError, modify.
    rewrite Htry. reflexivity.
  Qed.

Lemma callPuterAI_retried w e w1 type :
    acquire_try E prompt (call_options E options) (entered w) = (Throws e, w1) ->
    get e "type" = Returns type ->
    retryable (errorType_of type) = true ->
    (0 < retries)%Z ->
    callPuterAI E prompt options w =
      try_finally
        (console (LogApiError e) ;;
         console (LogRetrying retries) ;;
         sleep (PUTER_RETRY_DELAY (config E)) ;;
         callPuterAI E prompt (with_retries options (retries - 1)))
        finished w1.
  Proof.
    intros Htry Hget Hkind Hpos. rewrite callPuterAI_unfold.
    unfold callPuterAI_body, try_finally at 1, try_catch, bind at 1 2, setIsLoading,
      setError, modify.
    rewrite Htry.
    unfold acquire_catch.
    unfold try_finally, bind, lift, console, sleep, emit, modify.
    rewrite Hget, Hkind. apply Z.ltb_lt in Hpos. rewrite Hpos. cbn. reflexivity.
  Qed.

Lemma callPuterAI_surfaced w e w1 type :
    acquire_try E prompt (call_options E options) (entered w) = (Throws e, w1) ->
    get e "type" = Returns type ->
    retryable (errorType_of type) = false \/ (retries <= 0)%Z ->
    callPuterAI E prompt options w =
      try_finally
        (console (LogApiError e) ;;
         setError (Some (errorType_of type, userFriendlyMessage (errorType_of type))) ;;
         throw (new_Error (userFriendlyMessage (errorType_of type))))
        finished w1.
  Proof.
    intros Htry Hget Hstop. rewrite callPuterAI_unfold.
    unfold callPuterAI_body, try_finally at 1, try_catch, bind at 1 2, setIsLoading,
      setError, modify.
    rewrite Htry.
    unfold acquire_catch.
    unfold try_finally, bind, lift, console, sleep, emit, modify.
    rewrite Hget.
    replace ((0 <? retries)%Z && retryable (errorType_of type)) with false.
    - reflexivity.
    - symmetry. destruct Hstop as [->| Hle].
      + apply andb_false_r.
      + apply Z.ltb_ge in Hle. rewrite Hle. reflexivity.
  Qed.

End Invocation.

(** *** Scenarios on the direct transport *)

Ltac observe :=
  unfold sleeps, fetches, sdk_chats; cbn;
  rewrite ?omap_app; cbn; rewrite ?app_nil_r; try reflexivity.

Lemma acquire_try_network_failure E prompt options w :
  sdk_path E = false ->
  has_api_key (config E) = true ->
  network_failure (fetch_outcome E (fetch_count w)) ->
  exists w1,
    acquire_try E prompt options w =
      (Throws (error_object NETWORK (JStr "Network connection failed") 0), w1) /\
    fetch_count w1 = S (fetch_count w) /\
    sleeps w1 = sleeps w /\
    error w1 = error w.
Proof.
  intros Hsdk Hkey (m & Hout & Hm).
  unfold acquire_try. rewrite Hsdk, Hkey.
  js_unfold; cbn. rewrite Hkey; cbn. rewrite Hout; cbn. rewrite Hm; cbn.
  eexists; split; [reflexivity|]. cbn. repeat split. observe.
Qed.

Lemma acquire_try_unauthorized E prompt options w r :
  sdk_path E = false ->
  has_api_key (config E) = true ->
  fetch_outcome E (fetch_count w) = FetchResponds r ->
  status r = 401%Z ->
  exists w1,
    acquire_try E prompt options w =
      (Throws (error_object AUTH (JStr "Invalid API key") 401), w1) /\
    fetch_count w1 = S (fetch_count w) /\
    sleeps w1 = sleeps w.
Proof.
  intros Hsdk Hkey Hout Hst.
  unfold acquire_try. rewrite Hsdk, Hkey.
  js_unfold; cbn. rewrite Hkey; cbn. rewrite Hout; cbn.
  unfold ok. rewrite Hst; cbn.
  eexists; split; [reflexivity|]. cbn. repeat split. observe.
Qed.

Lemma network_failures_exhaust_retries E prompt :
  sdk_path E = false ->
  has_api_key (config E) = true ->
  (forall n, network_failure (fetch_outcome E n)) ->
  forall (n : nat) options w,
    default (PUTER_MAX_RETRIES (config E)) (opt_retries options) = Z.of_nat n ->
    exists w',
      callPuterAI E prompt options w = (Throws (new_Error network_message), w') /\
      fetch_count w' = (fetch_count w + S n)%nat /\
      sleeps w' = (sleeps w ++ repeat (PUTER_RETRY_DELAY (config E)) n)%list /\
      error w' = Some (JStr NETWORK, network_message).
Proof.
  intros Hsdk Hkey Hnet. induction n as [|n IH]; intros options w Hretries.
  - destruct (acquire_try_network_failure E prompt (call_options E options)
                (with_error (with_isLoading w true) None) Hsdk Hkey (Hnet _))
      as (w1 & Htry & Hcount & Hsleeps & _).
    erewrite callPuterAI_surfaced; [|exact Htry|reflexivity|right; lia].
    unfold try_finally, bind, console, setError, emit, modify, throw.
    eexists; split; [reflexivity|]. repeat split.
    + cbn. rewrite Hcount. cbn. lia.
    + change (sleeps (with_trace w1 (trace w1 ++ [EvConsole (LogApiError (error_object NETWORK (JStr "Network connection failed") 0))])) =
              (sleeps w ++ [])%list).
      rewrite sleeps_snoc, Hsleeps. reflexivity.
  - destruct (acquire_try_network_failure E prompt (call_options E options)
                (with_error (with_isLoading w true) None) Hsdk Hkey (Hnet _))
      as (w1 & Htry & Hcount & Hsleeps & _).
    erewrite callPuterAI_retried; [|exact Htry|reflexivity|reflexivity|lia].
    rewrite Hretries.
    unfold try_finally, bind at 1 2 3, console, sleep, emit, modify. cbn [fst snd].
    match goal with |- context [callPuterAI E prompt ?o ?w2] =>
      destruct (IH o w2) as (w' & Hrun & Hc & Hs & He); [cbn; lia|]
    end.
    rewrite Hrun. eexists; split; [reflexivity|]. repeat split.
    + cbn in *. lia.
    + change (sleeps (with_isLoading w' false)) with (sleeps w').
      rewrite Hs, !sleeps_snoc, Hsleeps. cbn [app repeat].
      rewrite !app_nil_r, <- app_assoc. reflexivity.
    + exact He.
Qed.

Lemma unauthorized_is_surfaced E prompt options w r :
  sdk_path E = false ->
  has_api_key (config E) = true ->
  fetch_outcome E (fetch_count w) = FetchResponds r ->
  status r = 401%Z ->
  exists w',
    callPuterAI E prompt options w = (Throws (new_Error auth_message), w') /\
    fetch_count w' = S (fetch_count w) /\
    sleeps w' = sleeps w /\
    error w' = Some (JStr AUTH, auth_message).
Proof.
  intros Hsdk Hkey Hout Hst.
  destruct (acquire_try_unauthorized E prompt (call_options E options)
              (with_error (with_isLoading w true) None) r Hsdk Hkey Hout Hst)
    as (w1 & Htry & Hcount & Hsleeps).
  erewrite callPuterAI_surfaced; [|exact Htry|reflexivity|left; reflexivity].
  unfold try_finally, bind, console, setError, emit, modify, throw.
  eexists; split; [reflexivity|]. repeat split.
  - cbn. rewrite Hcount. reflexivity.
  - change (sleeps (with_trace w1 (trace w1 ++ [EvConsole (LogApiError (error_object AUTH (JStr "Invalid API key") 401))])) = sleeps w).
    rewrite sleeps_snoc, Hsleeps. cbn. apply app_nil_r.
Qed.

Lemma retryable_kinds errorType :
  retryable errorType = true <->
  errorType = JStr TIMEOUT \/ errorType = JStr NETWORK \/
  errorType = JStr SERVER \/ errorType = JStr RATE_LIMIT.
Proof.
  unfold retryable. split.
  - intros H. destruct errorType; cbn in H; try discriminate.
    repeat (apply orb_true_iff in H; destruct H as [H|H]);
      apply String.eqb_eq in H; subst; auto.
  - intros [->|[->|[->| ->]]]; reflexivity.
Qed.

(** C1. The [catch] block of [callPuterAI] retries an error of type
    TIMEOUT, NETWORK, SERVER or RATE_LIMIT while [retries] is positive:
    it waits [PUTER_RETRY_DELAY] (1000 ms unless configured, the same at
    every retry) and calls itself with [retries - 1]; an error of type AUTH
    is surfaced at once. With three retries and a transport that always
    fails with the network error, four requests are made and the network
    message is surfaced; with a 401 on the first request, one request is
    made whatever the budget. *)
Theorem callPuterAI_retry_policy :
  (forall E prompt options w e w1 type,
      acquire_try E prompt (call_options E options)
        (with_error (with_isLoading w true) None) = (Throws e, w1) ->
      get e "type" = Returns type ->
      retryable (errorType_of type) = true ->
      (0 < default (PUTER_MAX_RETRIES (config E)) (opt_retries options))%Z ->
      callPuterAI E prompt options w =
        try_finally
          (console (LogApiError e) ;;
           console (LogRetrying
                      (default (PUTER_MAX_RETRIES (config E)) (opt_retries options))) ;;
           sleep (PUTER_RETRY_DELAY (config E)) ;;
           callPuterAI E prompt
             (with_retries options
                (default (PUTER_MAX_RETRIES (config E)) (opt_retries options) - 1)))%js
          (fun w => with_isLoading w false) w1) /\
  (forall errorType,
      retryable errorType = true <->
      errorType = JStr TIMEOUT \/ errorType = JStr NETWORK \/
      errorType = JStr SERVER \/ errorType = JStr RATE_LIMIT) /\
  (forall E prompt options w e w1,
      acquire_try E prompt (call_options E options)
        (with_error (with_isLoading w true) None) = (Throws e, w1) ->
      get e "type" = Returns (JStr AUTH) ->
      callPuterAI E prompt options w =
        try_finally
          (console (LogApiError e) ;;
           setError (Some (JStr AUTH, auth_message)) ;;
           throw (new_Error auth_message))%js
          (fun w => with_isLoading w false) w1) /\
  (forall p,
      REACT_APP_PUTER_RETRY_DELAY p = None ->
      PUTER_RETRY_DELAY (ENV_CONFIG p) = 1000%Z) /\
  (forall E prompt options w,
      sdk_path E = false ->
      has_api_key (config E) = true ->
      (forall n, network_failure (fetch_outcome E n)) ->
      default (PUTER_MAX_RETRIES (config E)) (opt_retries options) = 3%Z ->
      exists w',
        callPuterAI E prompt options w = (Throws (new_Error network_message), w') /\
        fetch_count w' = (fetch_count w + 4)%nat /\
        sleeps w' = (sleeps w ++ [PUTER_RETRY_DELAY (config E);
                                  PUTER_RETRY_DELAY (config E);
                                  PUTER_RETRY_DELAY (config E)])%list) /\
  (forall E prompt options w r,
      sdk_path E = false ->
      has_api_key (config E) = true ->
      fetch_outcome E (fetch_count w) = FetchResponds r ->
      status r = 401%Z ->
      exists w',
        callPuterAI E prompt options w = (Throws (new_Error auth_message), w') /\
        fetch_count w' = (fetch_count w + 1)%nat /\
        sleeps w' = sleeps w).
Proof.
  repeat apply conj.
  - intros. apply callPuterAI_retried with (type := type); assumption.
  - apply retryable_kinds.
  - intros E prompt options w e w1 Htry Hget.
    apply (callPuterAI_surfaced E prompt options w e w1 (JStr AUTH) Htry Hget).
    left; reflexivity.
  - intros p Hp. cbn. rewrite Hp. reflexivity.
  - intros E prompt options w Hsdk Hkey Hnet Hretries.
    destruct (network_failures_exhaust_retries E prompt Hsdk Hkey Hnet 3
                options w Hretries) as (w' & Hrun & Hc & Hs & _).
    exists w'. repeat split; assumption.
  - intros E prompt options w r Hsdk Hkey Hout Hst.
    destruct (unauthorized_is_surfaced E prompt options w r Hsdk Hkey Hout Hst)
      as (w' & Hrun & Hc & Hs & _).
    exists w'. repeat split; [assumption|lia|assumption].
Qed.

(** The policy at work: offline, with the default budget of three retries,
    four requests go out, one second apart, before the network message. *)
Lemma callPuterAI_retry_policy_witness :
  exists w',
    callPuterAI offline "hello" no_options empty_world =
      (Throws (new_Error network_message), w') /\
    fetch_count w' = 4%nat /\
    sleeps w' = [1000; 1000; 1000]%Z.
Proof.
  destruct callPuterAI_retry_policy as (_ & _ & _ & _ & Hnet & _).
  apply (Hnet offline "hello" no_options empty_world).
  - reflexivity.
  - reflexivity.
  - intros n. exists "Failed to fetch". split; reflexivity.
  - reflexivity.
Defined.


(** *** The status codes of the direct transport *)

Lemma callDirectAPI_rejected_status E prompt options w r :
  has_api_key (config E) = true ->
  fetch_outcome E (fetch_count w) = FetchResponds r ->
  ok r = false ->
  forall timeoutId w0,
    fst (callDirectAPI E prompt options w) =
    fst (try_catch (direct_reject r) (direct_catch timeoutId) w0).
Proof.
  intros Hkey Hout Hok timeoutId w0.
  unfold callDirectAPI, fetch, direct_settled.
  js_unfold; cbn. rewrite Hkey; cbn. rewrite Hout; cbn. rewrite Hok; cbn.
  repeat match goal with
         | |- context [if ?b then _ else _] => destruct b; cbn
         end; try reflexivity.
  destruct (body r) as [d|d]; cbn; [destruct d; cbn|]; reflexivity.
Qed.

(** C2. For a response that is not [ok], [callDirectAPI] throws by status:
    401 the AUTH error, 429 RATE_LIMIT, 503 and 504 SERVER, whatever the
    body; for any other status the thrown value is classified UNKNOWN, and
    it is [{ type: UNKNOWN, message, status }] with the [error] field of
    the body as message whenever the body has a truthy one. *)
Theorem callDirectAPI_status_mapping E prompt options w r :
  has_api_key (config E) = true ->
  fetch_outcome E (fetch_count w) = FetchResponds r ->
  ok r = false ->
  let thrown := fst (callDirectAPI E prompt options w) in
  (status r = 401%Z ->
     thrown = Throws (error_object AUTH (JStr "Invalid API key") 401)) /\
  (status r = 429%Z ->
     thrown = Throws (error_object RATE_LIMIT (JStr "Rate limit exceeded") 429)) /\
  (status r = 503%Z \/ status r = 504%Z ->
     thrown = Throws (error_object SERVER (JStr "Service unavailable") (status r))) /\
  (status r <> 401%Z -> status r <> 429%Z ->
   status r <> 503%Z -> status r <> 504%Z ->
     (exists e, thrown = Throws e /\ error_kind e = JStr UNKNOWN) /\
     (forall data message,
         body r = JsonBody data ->
         get data "error" = Returns message ->
         truthy message = true ->
         thrown = Throws (error_object UNKNOWN message (status r)))).
Proof.
  intros Hkey Hout Hok thrown.
  assert (Hthrown : thrown = fst (try_catch (direct_reject r) (direct_catch 0) w))
    by (apply callDirectAPI_rejected_status; assumption).
  rewrite Hthrown. clear Hthrown thrown.
  unfold direct_reject. repeat apply conj.
  - intros ->. reflexivity.
  - intros ->. reflexivity.
  - intros [-> | ->]; reflexivity.
  - intros H401 H429 H503 H504.
    apply Z.eqb_neq in H401, H429, H503, H504.
    rewrite H401, H429, H503, H504. cbn [orb].
    split.
    + destruct (body r) as [d|d].
      * destruct d; js_unfold; cbn; eexists; (split; [reflexivity|]);
          reflexivity.
      * js_unfold; cbn. eexists; split; reflexivity.
    + intros data message Hbody Hget Htruthy. rewrite Hbody.
      js_unfold; cbn. rewrite Hget. cbn.
      unfold or_else. rewrite Htruthy. reflexivity.
Qed.

(** A 500 whose body carries [{ error: "boom" }]. *)
Lemma callDirectAPI_status_mapping_witness :
  fst (callDirectAPI (page key_set (responds 500 (JObj [("error", JStr "boom")])))
         "hello" no_options empty_world) =
  Throws (error_object UNKNOWN (JStr "boom") 500).
Proof.
  destruct (callDirectAPI_status_mapping
              (page key_set (responds 500 (JObj [("error", JStr "boom")])))
              "hello" no_options empty_world
              {| status := 500; body := JsonBody (JObj [("error", JStr "boom")]) |}
              eq_refl eq_refl eq_refl) as (_ & _ & _ & H).
  destruct H as [_ H]; try (intros Hd; discriminate Hd).
  apply (H (JObj [("error", JStr "boom")]) (JStr "boom")); reflexivity.
Defined.


(** *** The missing credential *)

(** C5. Without a credential [callDirectAPI] issues no request, but what it
    throws is [new Error("API key is not configured")], an error without a
    [type]: [callPuterAI] classifies it UNKNOWN, not AUTH, and shows the
    message for unexpected errors. *)
Theorem callDirectAPI_missing_key_untyped E prompt options w :
  has_api_key (config E) = false ->
  exists w',
    callDirectAPI E prompt options w =
      (Throws (new_Error "API key is not configured"), w') /\
    fetches w' = fetches w /\
    pending w' = pending w /\
    error_kind (new_Error "API key is not configured") = JStr UNKNOWN /\
    error_kind (new_Error "API key is not configured") <> JStr AUTH /\
    userFriendlyMessage (error_kind (new_Error "API key is not configured")) =
      unexpected_message.
Proof.
  intros Hkey. rewrite callDirectAPI_no_key by assumption.
  eexists; split; [reflexivity|].
  repeat split. discriminate.
Qed.

(** No credential is configured and the adapter is called. *)
Lemma callDirectAPI_missing_key_untyped_witness :
  fst (callDirectAPI (page nothing_set (FetchRejects failed_to_fetch))
         "hello" no_options empty_world) =
  Throws (new_Error "API key is not configured").
Proof.
  destruct (callDirectAPI_missing_key_untyped
              (page nothing_set (FetchRejects failed_to_fetch))
              "hello" no_options empty_world eq_refl) as (w' & H & _).
  rewrite H. reflexivity.
Defined.

(** The same missing credential, met by the two paths of [callPuterAI]:
    after a failed SDK call the user reads the message for unexpected
    errors; without the SDK, the message for authentication errors. *)
Lemma missing_key_two_messages :
  fst (callPuterAI
         (page_with_sdk nothing_set (SdkRejects (JErr ClsError "Error" "quota"))
            (FetchRejects failed_to_fetch))
         "hello" no_options empty_world) =
    Throws (new_Error unexpected_message) /\
  fst (callPuterAI (page nothing_set (FetchRejects failed_to_fetch))
         "hello" no_options empty_world) =
    Throws (new_Error auth_message).
Proof. split; reflexivity. Qed.

(** *** The mock response *)

Section NoPath.
Variables (E : Env) (prompt : string) (options : Options) (w : World).
Hypothesis no_sdk : sdk_path E = false.
Hypothesis no_key : has_api_key (config E) = false.

Lemma acquire_try_mock :
  ENVIRONMENT (config E) = "development" ->
  acquire_try E prompt options w =
    (Returns (JStr (mock_response prompt)),
     with_trace (with_trace w (trace w ++ [EvConsole LogMock]))
       ((trace w ++ [EvConsole LogMock]) ++ [EvSleep 1000])).
Proof.
  intros Hdev. unfold acquire_try. rewrite no_sdk, no_key, Hdev.
  reflexivity.
Qed.

Lemma acquire_try_not_configured :
  ENVIRONMENT (config E) <> "development" ->
  acquire_try E prompt options w =
    (Throws (JObj [("type", JStr AUTH);
                   ("message", JStr "API key is not configured")]), w).
Proof.
  intros Hdev. unfold acquire_try. rewrite no_sdk, no_key.
  apply String.eqb_neq in Hdev. rewrite Hdev. reflexivity.
Qed.

End NoPath.

(** C4, as the code has it. When the SDK is not used and no credential is
    configured, the environment named exactly "development" gets the mock
    response, after a delay of 1000 ms and without any request; every other
    environment, "production" among them, gets the authentication
    error, whatever the retry budget. *)
Theorem mock_only_in_development E prompt options w :
  sdk_path E = false ->
  has_api_key (config E) = false ->
  (ENVIRONMENT (config E) = "development" ->
     exists w',
       callPuterAI E prompt options w =
         (Returns (JStr (mock_response prompt)), w') /\
       sleeps w' = (sleeps w ++ [1000%Z])%list /\
       fetches w' = fetches w /\
       sdk_chats w' = sdk_chats w) /\
  (ENVIRONMENT (config E) <> "development" ->
     exists w',
       callPuterAI E prompt options w = (Throws (new_Error auth_message), w') /\
       error w' = Some (JStr AUTH, auth_message) /\
       sleeps w' = sleeps w /\
       fetches w' = fetches w /\
       sdk_chats w' = sdk_chats w).
Proof.
  intros Hsdk Hkey. split; intros Hdev.
  - erewrite callPuterAI_returned
      by (apply acquire_try_mock; assumption).
    eexists; split; [reflexivity|].
    repeat split; observe.
  - erewrite callPuterAI_surfaced;
      [|apply acquire_try_not_configured; assumption|reflexivity|left; reflexivity].
    eexists; split; [reflexivity|].
    repeat split; observe.
Qed.

(** Development without a credential: the mock answers. *)
Lemma mock_only_in_development_witness :
  exists w',
    callPuterAI (page (named "development") (FetchRejects failed_to_fetch))
      "hello" no_options empty_world =
      (Returns (JStr (mock_response "hello")), w') /\
    sleeps w' = [1000%Z] /\ fetches w' = [] /\ sdk_chats w' = [].
Proof.
  destruct (mock_only_in_development
              (page (named "development") (FetchRejects failed_to_fetch))
              "hello" no_options empty_world eq_refl eq_refl) as [H _].
  apply H. reflexivity.
Defined.

(** C4, as stated, fails: "staging" is not production, the SDK is absent
    and no credential is set, yet no mock response is returned: the call
    fails with the authentication message. *)
Lemma staging_gets_no_mock :
  let E := page (named "staging") (FetchRejects failed_to_fetch) in
  sdk_path E = false /\
  has_api_key (config E) = false /\
  ENVIRONMENT (config E) <> "production" /\
  fst (callPuterAI E "hello" no_options empty_world) =
    Throws (new_Error auth_message) /\
  fst (callPuterAI E "hello" no_options empty_world) <>
    Returns (JStr (mock_response "hello")).
Proof.
  cbn zeta. repeat split; try reflexivity; discriminate.
Qed.

(** *** The response of the SDK *)

(** C6, as the code has it. A string is returned as it is. Otherwise the
    field [message.content] decides: when truthy and not an array it is
    returned as it is; when an array, the [text] of its first element is
    returned, or the empty string when that element or a truthy [text] is
    missing; when not truthy the response is rejected as invalid. *)
Theorem sdk_response_text_cases response :
  (forall s, response = JStr s -> sdk_response_text response = Returns (JStr s)) /\
  (is_string response = false ->
   forall content,
     content = get_opt (get_opt response "message") "content" ->
     (forall parts,
         content = JArr parts ->
         sdk_response_text response =
           Returns (or_else (first_text parts) (JStr ""))) /\
     (truthy content = true -> is_array content = false ->
        sdk_response_text response = Returns content) /\
     (truthy content = false ->
        sdk_response_text response =
          Throws (new_Error "Invalid SDK response format"))).
Proof.
  split.
  - intros s ->. reflexivity.
  - intros Hstr content ->. unfold sdk_response_text. rewrite Hstr.
    repeat apply conj.
    + intros parts ->. reflexivity.
    + intros Htruthy Harr. rewrite Htruthy.
      destruct (get_opt _ _); try reflexivity; discriminate.
    + intros ->. reflexivity.
Qed.

(** A structured response with a single text part. *)
Lemma sdk_response_text_cases_witness :
  sdk_response_text
    (JObj [("message", JObj [("content", JArr [JObj [("text", JStr "Hello")]])])]) =
  Returns (JStr "Hello").
Proof.
  destruct (sdk_response_text_cases
              (JObj [("message",
                      JObj [("content", JArr [JObj [("text", JStr "Hello")]])])]))
    as [_ H].
  destruct (H eq_refl _ eq_refl) as (Harr & _).
  apply (Harr [JObj [("text", JStr "Hello")]]). reflexivity.
Defined.

(** C6, as stated, fails: an empty list of parts has no text and the
    response is accepted, as the empty string; and of two parts only the
    first is read. *)
Lemma sdk_response_without_text_accepted :
  sdk_response_text (JObj [("message", JObj [("content", JArr [])])]) =
    Returns (JStr "") /\
  sdk_response_text
    (JObj [("message",
            JObj [("content", JArr [JObj [("text", JStr "Hello, ")];
                                    JObj [("text", JStr "world")]])])]) =
    Returns (JStr "Hello, ").
Proof. split; reflexivity. Qed.


(** *** What can be thrown *)

Lemma get_of_object e k : is_nullish e = false -> exists v, get e k = Returns v.
Proof. destruct e; try discriminate; intros _; eexists; reflexivity. Qed.

Lemma get_throws_object v k e : get v k = Throws e -> is_nullish e = false.
Proof. destruct v; cbn; intros H; inversion H; reflexivity. Qed.

Lemma throws_objects_ret {A} (a : A) : throws_objects (ret a).
Proof. intros w e w' H; discriminate H. Qed.

Lemma throws_objects_modify f : throws_objects (modify f).
Proof. intros w e w' H; discriminate H. Qed.

Lemma throws_objects_throw {A} e :
  is_nullish e = false -> throws_objects (@throw A e).
Proof. intros He w e' w' H; inversion H; subst; exact He. Qed.

Lemma throws_objects_get v k : throws_objects (lift (get v k)).
Proof.
  intros w e w' H. inversion H as [[Hget Hw]].
  eapply get_throws_object; eassumption.
Qed.

Lemma throws_objects_bind {A B} (m : M A) (k : A -> M B) :
  throws_objects m -> (forall a, throws_objects (k a)) ->
  throws_objects (bind m k).
Proof.
  intros Hm Hk w e w' H. unfold bind in H.
  destruct (m w) as [[a|e0|] w0] eqn:Hmw.
  - eapply Hk; eassumption.
  - inversion H; subst. eapply Hm; eassumption.
  - discriminate H.
Qed.

Lemma throws_objects_try_catch {A} (m : M A) (h : JsVal -> M A) :
  (forall e, throws_objects (h e)) -> throws_objects (try_catch m h).
Proof.
  intros Hh w e w' H. unfold try_catch in H.
  destruct (m w) as [[a|e0|] w0] eqn:Hmw.
  - discriminate H.
  - eapply Hh; eassumption.
  - discriminate H.
Qed.

Lemma throws_objects_if {A} (b : bool) (m1 m2 : M A) :
  throws_objects m1 -> throws_objects m2 ->
  throws_objects (if b then m1 else m2).
Proof. destruct b; auto. Qed.

Lemma throws_objects_direct_catch {A} timeoutId error :
  throws_objects (@direct_catch A timeoutId error).
Proof.
  intros w e w' H.
  unfold direct_catch, clearTimeout, modify, bind, lift, throw in H.
  destruct error; cbn in H;
    repeat match type of H with
           | context [if ?b then _ else _] => destruct b
           end;
    inversion H; reflexivity.
Qed.

Lemma throws_objects_callDirectAPI E prompt options :
  throws_objects (callDirectAPI E prompt options).
Proof.
  unfold callDirectAPI.
  apply throws_objects_bind; [intros w e w' H; discriminate H|intros c].
  apply throws_objects_bind; [intros w e w' H; discriminate H|intros t].
  apply throws_objects_try_catch. intros e. apply throws_objects_direct_catch.
Qed.

Lemma throws_objects_acquire_try E prompt options :
  throws_objects (acquire_try E prompt options).
Proof.
  unfold acquire_try.
  repeat apply throws_objects_if.
  - apply throws_objects_try_catch. intros sdkError.
    apply throws_objects_bind; [apply throws_objects_get|intros message].
    apply throws_objects_bind; [apply throws_objects_modify|intros _].
    apply throws_objects_callDirectAPI.
  - apply throws_objects_bind; [apply throws_objects_modify|intros _].
    apply throws_objects_callDirectAPI.
  - apply throws_objects_bind; [apply throws_objects_modify|intros _].
    apply throws_objects_bind; [apply throws_objects_modify|intros _].
    apply throws_objects_ret.
  - apply throws_objects_throw. reflexivity.
Qed.

(** Whatever [callPuterAI] throws is [new Error(m)] for one of the fixed
    messages [m], which the hook also records with the error type. *)
Lemma callPuterAI_fuel_throws_message E prompt :
  forall fuel options w e w',
    callPuterAI_fuel E fuel prompt options w = (Throws e, w') ->
    exists errorType,
      e = new_Error (userFriendlyMessage errorType) /\
      error w' = Some (errorType, userFriendlyMessage errorType).
Proof.
  induction fuel as [|fuel IH]; intros options w e w' Hrun;
    cbn [callPuterAI_fuel] in Hrun;
    unfold callPuterAI_body, try_finally, try_catch, bind at 1 2,
      setIsLoading, setError, modify in Hrun;
    cbn [fst snd] in Hrun;
    match type of Hrun with context [acquire_try ?E ?p ?o ?w0] =>
      destruct (acquire_try E p o w0) as [[v|e0|] w1] eqn:Htry
    end; try discriminate Hrun;
    (destruct (get_of_object e0 "type"
                 (throws_objects_acquire_try _ _ _ _ _ _ Htry)) as [type Hget]);
    unfold acquire_catch, bind, lift, console, sleep, emit, modify, setError,
      throw, out_of_fuel in Hrun;
    rewrite Hget in Hrun;
    destruct ((0 <? _)%Z && retryable (errorType_of type)) in Hrun;
    cbn in Hrun.
  - discriminate Hrun.
  - inversion Hrun; subst. eexists; split; reflexivity.
  - match type of Hrun with context [callPuterAI_fuel ?E ?f ?p ?o ?w0] =>
      destruct (callPuterAI_fuel E f p o w0) as [[v|e1|] w2] eqn:Hrec
    end; try discriminate Hrun.
    inversion Hrun; subst.
    destruct (IH _ _ _ _ Hrec) as (errorType & -> & Herr).
    exists errorType. split; [reflexivity|exact Herr].
  - inversion Hrun; subst. eexists; split; reflexivity.
Qed.

(** *** The fallback from the SDK *)





(** Outside the claim: when the SDK rejects with [undefined], reading
    [sdkError.message] in the handler throws, and the request is not
    made. *)
Lemma sdk_rejection_with_undefined :
  let E := page_with_sdk key_set (SdkRejects JUndefined)
             (responds 200 (answer "Hi there")) in
  let (r, w') := callPuterAI E "hello" no_options empty_world in
  r = Throws (new_Error unexpected_message) /\ fetches w' = [].
Proof. cbn zeta. split; reflexivity. Qed.


(** *** What a run leaves in the hook's state *)

Lemma keeps_ret {A X} (f : World -> X) (a : A) : keeps f (ret a).
Proof. intros w; reflexivity. Qed.

Lemma keeps_throw {A X} (f : World -> X) e : keeps f (@throw A e).
Proof. intros w; reflexivity. Qed.

Lemma keeps_lift {A X} (f : World -> X) (o : Outcome A) : keeps f (lift o).
Proof. intros w; reflexivity. Qed.

Lemma keeps_bind {A B X} (f : World -> X) (m : M A) (k : A -> M B) :
  keeps f m -> (forall a, keeps f (k a)) -> keeps f (bind m k).
Proof.
  intros Hm Hk w. unfold bind. specialize (Hm w).
  destruct (m w) as [[a|e|] w1]; cbn in *; [|assumption..].
  rewrite Hk. exact Hm.
Qed.

Lemma keeps_try_catch {A X} (f : World -> X) (m : M A) (h : JsVal -> M A) :
  keeps f m -> (forall e, keeps f (h e)) -> keeps f (try_catch m h).
Proof.
  intros Hm Hh w. unfold try_catch. specialize (Hm w).
  destruct (m w) as [[a|e|] w1]; cbn in *; [assumption| |assumption].
  rewrite Hh. exact Hm.
Qed.

Lemma keeps_if {A X} (f : World -> X) (b : bool) (m1 m2 : M A) :
  keeps f m1 -> keeps f m2 -> keeps f (if b then m1 else m2).
Proof. destruct b; auto. Qed.

Lemma keeps_fetch_settle {X} (f : World -> X) E req n :
  (forall w x, f (with_pending w x) = f w) ->
  (forall w x, f (with_timeouts w x) = f w) ->
  (forall w x, f (with_controllers w x) = f w) ->
  keeps f (fetch_settle E req n).
Proof.
  intros H1 H2 H3 w. unfold fetch_settle, fire_timeouts, abort.
  destruct (fetch_outcome E n); cbn [snd]; rewrite ?H2, ?H3, ?H1; reflexivity.
Qed.

(** The pieces of [callPuterAI]'s [try] block write neither [isLoading]
    nor [error]. *)
Ltac keeps_tac :=
  repeat first
    [ step_in
    | apply keeps_ret | apply keeps_throw | apply keeps_lift
    | apply keeps_if | apply keeps_try_catch | apply keeps_bind
    | apply keeps_fetch_settle; reflexivity
    | (intros ?w; reflexivity) ].






(** *** How many calls a run makes *)

Lemma calls_at_most_weaken {A} n k n' k' (m : M A) :
  (n <= n')%nat -> (k <= k')%nat ->
  calls_at_most n k m -> calls_at_most n' k' m.
Proof. intros Hn Hk H w. specialize (H w). lia. Qed.

Lemma calls_none {A} (m : M A) :
  keeps fetch_count m -> keeps sdk_count m -> calls_at_most 0 0 m.
Proof. intros H1 H2 w. rewrite H1, H2. lia. Qed.

Lemma calls_bind {A B} n1 k1 n2 k2 (m : M A) (f : A -> M B) :
  calls_at_most n1 k1 m -> (forall a, calls_at_most n2 k2 (f a)) ->
  calls_at_most (n1 + n2) (k1 + k2) (bind m f).
Proof.
  intros Hm Hf w. unfold bind. specialize (Hm w).
  destruct (m w) as [[a|e|] w1]; cbn [snd] in *; [|lia..].
  specialize (Hf a w1). lia.
Qed.

Lemma calls_try_catch {A} n1 k1 n2 k2 (m : M A) (h : JsVal -> M A) :
  calls_at_most n1 k1 m -> (forall e, calls_at_most n2 k2 (h e)) ->
  calls_at_most (n1 + n2) (k1 + k2) (try_catch m h).
Proof.
  intros Hm Hh w. unfold try_catch. specialize (Hm w).
  destruct (m w) as [[a|e|] w1]; cbn [snd] in *; [lia| |lia].
  specialize (Hh e w1). lia.
Qed.

Lemma calls_callDirectAPI E prompt options :
  calls_at_most 1 0 (callDirectAPI E prompt options).
Proof.
  unfold callDirectAPI.
  apply (calls_bind 0 0 1 0); [intros w; cbn; lia|intros controller].
  apply (calls_bind 0 0 1 0); [intros w; cbn; lia|intros timeoutId].
  apply (calls_try_catch 1 0 0 0).
  - destruct (negb _); [intros w; cbn; lia|].
    apply (calls_bind 1 0 0 0).
    + intros w. unfold fetch, bind, fetch_issue, fetch_settle, fire_timeouts, abort.
      cbn. destruct (fetch_outcome E (fetch_count w)); cbn; lia.
    + intros response. apply calls_none; unfold direct_settled, direct_reject,
        direct_accept, clearTimeout; keeps_tac.
  - intros e. apply calls_none; unfold direct_catch, clearTimeout; keeps_tac.
Qed.

Lemma calls_acquire_try E prompt options :
  calls_at_most 1 1 (acquire_try E prompt options).
Proof.
  unfold acquire_try.
  destruct (sdk_path E).
  - apply (calls_try_catch 0 1 1 0).
    + apply (calls_bind 0 0 0 1); [intros w; cbn; lia|intros _].
      apply (calls_bind 0 1 0 0).
      * intros w. unfold puter_chat, puter_chat_issue, bind, lift. cbn.
        destruct (sdk_outcome E (sdk_count w)); cbn; lia.
      * intros response. intros w; cbn; lia.
    + intros sdkError.
      apply (calls_bind 0 0 1 0); [intros w; cbn; lia|intros message].
      apply (calls_bind 0 0 1 0); [intros w; cbn; lia|intros _].
      apply calls_callDirectAPI.
  - destruct (has_api_key (config E)).
    + apply (calls_bind 0 0 1 1); [intros w; cbn; lia|intros _].
      eapply calls_at_most_weaken; [| |apply calls_callDirectAPI]; lia.
    + destruct (String.eqb _ _); intros w; cbn; lia.
Qed.

Lemma calls_callPuterAI_fuel E prompt :
  forall fuel options w r w',
    callPuterAI_fuel E fuel prompt options w = (r, w') ->
    (fetch_count w <= fetch_count w' <= fetch_count w + S fuel)%nat /\
    (sdk_count w <= sdk_count w' <= sdk_count w + S fuel)%nat.
Proof.
  induction fuel as [|fuel IH]; intros options w r w' Hrun;
    cbn [callPuterAI_fuel] in Hrun;
    unfold callPuterAI_body, try_finally, try_catch, bind at 1 2,
      setIsLoading, setError, modify in Hrun;
    cbn [fst snd] in Hrun;
    match type of Hrun with context [acquire_try ?E ?p ?o ?w0] =>
      pose proof (calls_acquire_try E p o w0) as Htry;
      destruct (acquire_try E p o w0) as [[v|e0|] w1]
    end;
    cbn [fst snd fetch_count sdk_count with_error with_isLoading with_trace]
      in *.
  1, 3, 4, 6: inversion Hrun; subst; cbn; lia.
  all: unfold acquire_catch, bind, lift, console, sleep, emit, modify, setError,
         throw, out_of_fuel in Hrun;
       destruct (get e0 "type") as [type|e1|]; cbn [fst snd] in Hrun;
       try (inversion Hrun; subst; cbn; lia);
       destruct ((0 <? _)%Z && retryable (errorType_of type));
       cbn [fst snd] in Hrun;
       try (inversion Hrun; subst; cbn; lia).
  match type of Hrun with context [callPuterAI_fuel ?E ?f ?p ?o ?w0] =>
    specialize (IH o w0);
    destruct (callPuterAI_fuel E f p o w0) as [[v|e1|] w2]
  end; specialize (IH _ _ eq_refl); inversion Hrun; subst; cbn in *; lia.
Qed.

(** X2. One call of [callPuterAI] with a retry budget of [retries] issues
    at most [retries + 1] requests and at most [retries + 1] calls of the
    SDK (one of each when the budget is zero or negative). *)
Theorem callPuterAI_calls_bounded E prompt options w :
  let budget :=
    Z.to_nat (default (PUTER_MAX_RETRIES (config E)) (opt_retries options)) in
  let w' := snd (callPuterAI E prompt options w) in
  (fetch_count w <= fetch_count w' <= fetch_count w + S budget)%nat /\
  (sdk_count w <= sdk_count w' <= sdk_count w + S budget)%nat.
Proof.
  cbn zeta. unfold callPuterAI.
  destruct (callPuterAI_fuel E _ prompt options w) as [r w'] eqn:Hrun.
  eapply calls_callPuterAI_fuel. exact Hrun.
Qed.


(** *** The failures of the transport and the retry budget *)

Lemma acquire_try_direct E prompt options w :
  sdk_path E = false ->
  has_api_key (config E) = true ->
  acquire_try E prompt options w =
    (console LogUsingDirect ;; callDirectAPI E prompt options)%js w.
Proof.
  intros Hsdk Hkey. unfold acquire_try. rewrite Hsdk, Hkey. reflexivity.
Qed.

Lemma classified_type o e :
  classified o e ->
  exists kind, get e "type" = Returns (JStr kind) /\
               error_kind e = JStr kind /\
               errorType_of (JStr kind) = JStr kind.
Proof. intros []; eexists; repeat split; reflexivity. Qed.

(** Each classified failure makes [callDirectAPI] throw its object, after
    one request and without waiting. *)
Lemma callDirectAPI_classified E prompt options w e :
  has_api_key (config E) = true ->
  classified (fetch_outcome E (fetch_count w)) e ->
  exists w1,
    callDirectAPI E prompt options w = (Throws e, w1) /\
    fetch_count w1 = S (fetch_count w) /\
    sleeps w1 = sleeps w /\
    error w1 = error w.
Proof.
  intros Hkey Hc.
  inversion Hc as [Ho|m Hm Ho|r Hst Ho|r Hst Ho|r Hst Ho]; subst e;
    symmetry in Ho;
    js_unfold; cbn; rewrite Hkey; cbn; rewrite Ho; cbn.
  - eexists; split; [reflexivity|]. repeat split. observe.
  - rewrite Hm. cbn. eexists; split; [reflexivity|]. repeat split. observe.
  - unfold ok. rewrite Hst. cbn.
    eexists; split; [reflexivity|]. repeat split. observe.
  - unfold ok. rewrite Hst. cbn.
    eexists; split; [reflexivity|]. repeat split. observe.
  - unfold ok. destruct Hst as [Hst|Hst]; rewrite Hst; cbn;
      (eexists; split; [reflexivity|]; repeat split; observe).
Qed.

Lemma persistent_failures_exhaust_retries E prompt :
  sdk_path E = false ->
  has_api_key (config E) = true ->
  (forall n, exists e, classified (fetch_outcome E n) e /\
                       retryable (error_kind e) = true) ->
  forall (n : nat) options w,
    default (PUTER_MAX_RETRIES (config E)) (opt_retries options) = Z.of_nat n ->
    exists w' e,
      classified (fetch_outcome E (fetch_count w + n)) e /\
      callPuterAI E prompt options w =
        (Throws (new_Error (userFriendlyMessage (error_kind e))), w') /\
      fetch_count w' = (fetch_count w + S n)%nat /\
      sleeps w' = (sleeps w ++ repeat (PUTER_RETRY_DELAY (config E)) n)%list.
Proof.
  intros Hsdk Hkey Hfail. induction n as [|n IH]; intros options w Hretries;
    destruct (Hfail (fetch_count w)) as (e & Hc & Hretry);
    destruct (classified_type _ _ Hc) as (kind & Hget & Hkind & Hty);
    destruct (callDirectAPI_classified E prompt (call_options E options)
                (with_trace (with_error (with_isLoading w true) None)
                   (trace w ++ [EvConsole LogUsingDirect])) e Hkey Hc)
      as (w1 & Hcall & Hcount & Hsleeps & _);
    assert (Htry : acquire_try E prompt (call_options E options)
                     (with_error (with_isLoading w true) None) = (Throws e, w1))
      by (rewrite acquire_try_direct by assumption; exact Hcall);
    assert (Hsl : sleeps w1 = sleeps w)
      by (rewrite Hsleeps; unfold sleeps; cbn; rewrite omap_app; cbn;
          apply app_nil_r);
    cbn [fetch_count with_trace with_error with_isLoading] in Hcount.
  - erewrite callPuterAI_surfaced; [|exact Htry|exact Hget|right; lia].
    unfold try_finally, bind, console, setError, emit, modify, throw.
    exists (with_isLoading
              (with_error (with_trace w1 (trace w1 ++ [EvConsole (LogApiError e)]))
                 (Some (errorType_of (JStr kind),
                        userFriendlyMessage (errorType_of (JStr kind))))) false), e.
    rewrite Nat.add_0_r. split; [exact Hc|]. rewrite Hkind, Hty.
    split; [reflexivity|]. split.
    + cbn. rewrite Hcount. lia.
    + change (sleeps (with_trace w1 (trace w1 ++ [EvConsole (LogApiError e)])) =
              (sleeps w ++ [])%list).
      rewrite sleeps_snoc, Hsl. reflexivity.
  - rewrite Hkind in Hretry.
    erewrite callPuterAI_retried;
      [|exact Htry|exact Hget|rewrite Hty; exact Hretry|lia].
    rewrite Hretries.
    unfold try_finally, bind at 1 2 3, console, sleep, emit, modify. cbn [fst snd].
    match goal with |- context [callPuterAI E prompt ?o ?w2] =>
      destruct (IH o w2) as (w' & e' & Hc' & Hrun & Hfc & Hs); [cbn; lia|]
    end.
    rewrite Hrun.
    cbn [fetch_count with_trace] in Hc', Hfc.
    exists (with_isLoading w' false), e'. split.
    + replace (fetch_count w + S n)%nat with (fetch_count w1 + n)%nat by lia.
      exact Hc'.
    + split; [reflexivity|]. split.
      * cbn. lia.
      * change (sleeps (with_isLoading w' false)) with (sleeps w').
        rewrite Hs, !sleeps_snoc, Hsl. cbn [app repeat].
        rewrite !app_nil_r, <- app_assoc. reflexivity.
Qed.

(** X3. As long as the transport keeps failing in a way the pipeline
    retries (time-out, network error, 429, 503, 504), a budget of [n]
    retries is used up: [n + 1] requests are issued, [n] waits of
    [PUTER_RETRY_DELAY] each lie between them, and the pipeline throws the
    fixed message of the last failure. *)
Theorem retry_budget_is_used_up E prompt options w (n : nat) :
  sdk_path E = false ->
  has_api_key (config E) = true ->
  (forall i, exists e, classified (fetch_outcome E i) e /\
                       retryable (error_kind e) = true) ->
  default (PUTER_MAX_RETRIES (config E)) (opt_retries options) = Z.of_nat n ->
  exists w' e,
    classified (fetch_outcome E (fetch_count w + n)) e /\
    callPuterAI E prompt options w =
      (Throws (new_Error (userFriendlyMessage (error_kind e))), w') /\
    fetch_count w' = (fetch_count w + S n)%nat /\
    sleeps w' = (sleeps w ++ repeat (PUTER_RETRY_DELAY (config E)) n)%list.
Proof.
  intros Hsdk Hkey Hfail Hretries.
  apply persistent_failures_exhaust_retries; assumption.
Qed.

(** A service that answers 503 to everything. *)
Lemma retry_budget_is_used_up_witness :
  exists w',
    callPuterAI (page key_set (responds 503 JNull)) "hello" no_options empty_world =
      (Throws (new_Error server_message), w') /\
    fetch_count w' = 4%nat /\
    sleeps w' = [1000; 1000; 1000]%Z.
Proof.
  destruct (retry_budget_is_used_up (page key_set (responds 503 JNull))
              "hello" no_options empty_world 3 eq_refl eq_refl) as
    (w' & e & Hc & Hrun & Hcount & Hsleeps).
  - intros i. eexists. split.
    + apply classified_unavailable. left. reflexivity.
    + reflexivity.
  - reflexivity.
  - exists w'.
    inversion Hc as [| |r Hst Ho|r Hst Ho|r Hst Ho]; subst;
      try discriminate Hst.
    split; [exact Hrun|]. split; [exact Hcount|exact Hsleeps].
Defined.


(** *** A response that is accepted *)

(** X4. From a response that is [ok] and whose body is JSON other than
    [null], [callDirectAPI] returns the first truthy one of
    [data.message?.content], [data.response] and [data.text], and the text
    "No response generated" when none is: what it returns is never empty,
    an empty [content] included. *)
Theorem callDirectAPI_accepts E prompt options w r data :
  has_api_key (config E) = true ->
  fetch_outcome E (fetch_count w) = FetchResponds r ->
  ok r = true ->
  body r = JsonBody data ->
  is_nullish data = false ->
  exists v,
    fst (callDirectAPI E prompt options w) = Returns v /\
    truthy v = true /\
    v = or_else (get_opt (get_opt data "message") "content")
          (or_else (get_opt data "response")
             (or_else (get_opt data "text") (JStr "No response generated"))).
Proof.
  intros Hkey Hout Hok Hbody Hdata.
  eexists. split; [|split; [|reflexivity]].
  - js_unfold; cbn. rewrite Hkey; cbn. rewrite Hout; cbn. rewrite Hok; cbn.
    rewrite Hbody; cbn.
    destruct data; try discriminate Hdata; reflexivity.
  - unfold or_else.
    repeat match goal with
           | |- context [if truthy ?x then _ else _] =>
               destruct (truthy x) eqn:?
           end; try assumption; reflexivity.
Qed.

(** An answer whose [content] is the empty string. *)
Lemma callDirectAPI_accepts_witness :
  fst (callDirectAPI (page key_set (responds 200 (answer ""))) "hello"
         no_options empty_world) =
  Returns (JStr "No response generated").
Proof.
  destruct (callDirectAPI_accepts (page key_set (responds 200 (answer "")))
              "hello" no_options empty_world
              {| status := 200; body := JsonBody (answer "") |} (answer "")
              eq_refl eq_refl eq_refl eq_refl eq_refl) as (v & Hv & _ & ->).
  exact Hv.
Defined.

(** *** Failures without a type *)

Lemma untyped_failure_is_surfaced E prompt options w e w1 type :
  sdk_path E = false ->
  has_api_key (config E) = true ->
  callDirectAPI E prompt (call_options E options)
    (with_trace (with_error (with_isLoading w true) None)
       (trace w ++ [EvConsole LogUsingDirect])) = (Throws e, w1) ->
  get e "type" = Returns type ->
  truthy type = false ->
  exists w',
    callPuterAI E prompt options w = (Throws (new_Error unexpected_message), w') /\
    fetch_count w' = fetch_count w1 /\
    sleeps w' = sleeps w1 /\
    error w' = Some (JStr UNKNOWN, unexpected_message).
Proof.
  intros Hsdk Hkey Hcall Hget Htype.
  assert (Htry : acquire_try E prompt (call_options E options)
                   (with_error (with_isLoading w true) None) = (Throws e, w1))
    by (rewrite acquire_try_direct by assumption; exact Hcall).
  assert (Hty : errorType_of type = JStr UNKNOWN)
    by (unfold errorType_of, or_else; rewrite Htype; reflexivity).
  erewrite callPuterAI_surfaced;
    [|exact Htry|exact Hget|left; rewrite Hty; reflexivity].
  rewrite Hty.
  unfold try_finally, bind, console, setError, emit, modify, throw.
  eexists; split; [reflexivity|]. repeat split.
  change (sleeps (with_trace w1 (trace w1 ++ [EvConsole (LogApiError e)])) =
          sleeps w1).
  rewrite sleeps_snoc. apply app_nil_r.
Qed.

(** X5. A rejection of [fetch] that [callDirectAPI] does not recognise, a
    [TypeError] whose message does not contain "fetch", is rethrown
    without a type: the pipeline shows the message for unexpected errors
    after this one request, whatever the retry budget. *)
Theorem unrecognised_rejection_not_retried E prompt options w m :
  sdk_path E = false ->
  has_api_key (config E) = true ->
  fetch_outcome E (fetch_count w) = FetchRejects (JErr ClsTypeError "TypeError" m) ->
  includes m "fetch" = false ->
  exists w',
    callPuterAI E prompt options w = (Throws (new_Error unexpected_message), w') /\
    fetch_count w' = S (fetch_count w) /\
    sleeps w' = sleeps w.
Proof.
  intros Hsdk Hkey Hout Hm.
  edestruct (untyped_failure_is_surfaced E prompt options w) as
    (w' & Hrun & Hcount & Hsleeps & _); try eassumption.
  - js_unfold; cbn. rewrite Hkey; cbn. rewrite Hout; cbn. rewrite Hm; cbn.
    reflexivity.
  - reflexivity.
  - reflexivity.
  - exists w'. split; [exact Hrun|]. split.
    + rewrite Hcount. reflexivity.
    + rewrite Hsleeps. observe.
Qed.

(** The wording of a browser that reports "Load failed". *)
Lemma unrecognised_rejection_not_retried_witness :
  exists w',
    callPuterAI (page key_set (FetchRejects (JErr ClsTypeError "TypeError" "Load failed")))
      "hello" no_options empty_world =
      (Throws (new_Error unexpected_message), w') /\
    fetch_count w' = 1%nat /\
    sleeps w' = [].
Proof.
  apply (unrecognised_rejection_not_retried
           (page key_set (FetchRejects (JErr ClsTypeError "TypeError" "Load failed")))
           "hello" no_options empty_world "Load failed");
    reflexivity.
Defined.

(** X6. A response that is [ok] but whose body is not JSON, or is the JSON
    [null], does not give the placeholder text: reading it throws an error
    without a type, and the pipeline shows the message for unexpected
    errors after this one request. *)
Theorem unreadable_success_is_an_error E prompt options w r :
  sdk_path E = false ->
  has_api_key (config E) = true ->
  fetch_outcome E (fetch_count w) = FetchResponds r ->
  ok r = true ->
  (body r = JsonBody JNull \/
   exists m, body r = NotJson (JErr ClsSyntaxError "SyntaxError" m)) ->
  exists w',
    callPuterAI E prompt options w = (Throws (new_Error unexpected_message), w') /\
    fetch_count w' = S (fetch_count w) /\
    sleeps w' = sleeps w.
Proof.
  intros Hsdk Hkey Hout Hok Hbody.
  destruct Hbody as [Hb|[m Hb]];
    (edestruct (untyped_failure_is_surfaced E prompt options w) as
        (w' & Hrun & Hcount & Hsleeps & _);
     [exact Hsdk|exact Hkey
     |js_unfold; cbn; rewrite Hkey; cbn; rewrite Hout; cbn; rewrite Hok; cbn;
      rewrite Hb; cbn; reflexivity
     |reflexivity|reflexivity|]);
    (exists w'; split; [exact Hrun|]; split;
     [rewrite Hcount; reflexivity|rewrite Hsleeps; observe]).
Qed.

(** A 200 with the body [null]. *)
Lemma unreadable_success_is_an_error_witness :
  exists w',
    callPuterAI (page key_set (responds 200 JNull)) "hello" no_options empty_world =
      (Throws (new_Error unexpected_message), w') /\
    fetch_count w' = 1%nat /\
    sleeps w' = [].
Proof.
  apply (unreadable_success_is_an_error (page key_set (responds 200 JNull))
           "hello" no_options empty_world
           {| status := 200; body := JsonBody JNull |});
    try reflexivity.
  left. reflexivity.
Defined.


(** *** The timer and the controller of a request *)

(** X7. Whatever the outcome, [callDirectAPI] creates one controller and
    one timer and leaves the timer cleared; the controller ends aborted
    exactly when the request was issued and the timer fired first. *)
Theorem callDirectAPI_clears_its_timer E prompt options w :
  let w' := snd (callDirectAPI E prompt options w) in
  length (timeouts w') = S (length (timeouts w)) /\
  timeouts w' !! length (timeouts w) = Some None /\
  length (controllers w') = S (length (controllers w)) /\
  (aborted w' (length (controllers w)) = true <->
   has_api_key (config E) = true /\
   fetch_outcome E (fetch_count w) = FetchTimesOut).
Proof.
  cbn zeta.
  assert (Hlookup : forall (l : list (option (nat * Z))) x,
             <[length l := None]> (l ++ [x])%list !! length l = Some None).
  { intros l x. apply list_lookup_insert_eq. rewrite length_app. cbn. lia. }
  assert (Hctl : forall (l : list bool),
             (l ++ [false])%list !! length l = Some false).
  { intros l. apply list_lookup_middle. reflexivity. }
  assert (Hab : forall (l : list bool),
             <[length l := true]> (l ++ [false])%list !! length l = Some true).
  { intros l. apply list_lookup_insert_eq. rewrite length_app. cbn. lia. }
  unfold aborted.
  js_unfold; cbn.
  destruct (has_api_key (config E)); cbn;
    [destruct (fetch_outcome E (fetch_count w)) as [r| |e]; cbn|];
    repeat match goal with
           | |- context [if ?b then _ else _] => destruct b; cbn
           | |- context [match get ?v ?k with _ => _ end] =>
               destruct (get v k); cbn
           | |- context [match body ?r with _ => _ end] =>
               destruct (body r); cbn
           end;
    rewrite ?length_insert, ?length_map, ?length_app, ?list_insert_insert_eq,
      ?Hlookup, ?Hctl, ?Hab; cbn;
    repeat split; try lia; try reflexivity;
    try (intros Hx;
         solve [ discriminate Hx
               | destruct Hx as [Hx1 Hx2];
                 solve [discriminate Hx1 | discriminate Hx2] ]);
    try (apply list_lookup_insert_eq;
         rewrite length_map, length_app; cbn; lia).
Qed.


(** *** Configured numbers *)

Lemma int_or_nonzero x d : d <> 0%Z -> int_or x d <> 0%Z.
Proof.
  intros Hd. unfold int_or. destruct x as [n|]; [|exact Hd].
  destruct (Z.eqb_spec n 0); assumption.
Qed.

Lemma no_retry_without_budget E prompt options w :
  sdk_path E = false ->
  has_api_key (config E) = true ->
  network_failure (fetch_outcome E (fetch_count w)) ->
  (default (PUTER_MAX_RETRIES (config E)) (opt_retries options) <= 0)%Z ->
  exists w',
    callPuterAI E prompt options w = (Throws (new_Error network_message), w') /\
    fetch_count w' = S (fetch_count w) /\
    sleeps w' = sleeps w.
Proof.
  intros Hsdk Hkey Hnet Hle.
  destruct (acquire_try_network_failure E prompt (call_options E options)
              (with_error (with_isLoading w true) None) Hsdk Hkey Hnet)
    as (w1 & Htry & Hcount & Hsleeps & _).
  erewrite callPuterAI_surfaced; [|exact Htry|reflexivity|right; exact Hle].
  unfold try_finally, bind, console, setError, emit, modify, throw.
  eexists; split; [reflexivity|]. split.
  - cbn. rewrite Hcount. reflexivity.
  - change (sleeps (with_trace w1 (trace w1 ++ [EvConsole (LogApiError (error_object NETWORK (JStr "Network connection failed") 0))])) = sleeps w).
    rewrite sleeps_snoc, Hsleeps. cbn. apply app_nil_r.
Qed.

(** X8. [parseInt(x) || d] makes zero unconfigurable: no numeric field of
    [ENV_CONFIG] is ever 0, a configured 0 gives the default, any other
    integer is kept. So with REACT_APP_PUTER_MAX_RETRIES set to 0 a failing
    network is still tried four times, and it takes a negative value to
    have a single attempt. *)
Theorem configured_zero_is_replaced p :
  let c := ENV_CONFIG p in
  (PUTER_TIMEOUT c <> 0 /\ PUTER_MAX_RETRIES c <> 0 /\
   PUTER_RETRY_DELAY c <> 0 /\ MAX_INPUT_LENGTH c <> 0 /\
   STREAMING_DELAY c <> 0)%Z /\
  (forall n, REACT_APP_PUTER_MAX_RETRIES p = Some n ->
             PUTER_MAX_RETRIES c = if (n =? 0)%Z then 3%Z else n) /\
  (forall E prompt w,
      config E = c ->
      sdk_path E = false ->
      has_api_key c = true ->
      (forall i, network_failure (fetch_outcome E i)) ->
      (REACT_APP_PUTER_MAX_RETRIES p = Some 0%Z ->
       exists w',
         callPuterAI E prompt no_options w =
           (Throws (new_Error network_message), w') /\
         fetch_count w' = (fetch_count w + 4)%nat) /\
      (forall n, (n < 0)%Z -> REACT_APP_PUTER_MAX_RETRIES p = Some n ->
       exists w',
         callPuterAI E prompt no_options w =
           (Throws (new_Error network_message), w') /\
         fetch_count w' = (fetch_count w + 1)%nat)).
Proof.
  cbn zeta. repeat apply conj.
  1-5: apply int_or_nonzero; discriminate.
  - intros n Hn. cbn. rewrite Hn. reflexivity.
  - intros E prompt w Hcfg Hsdk Hkey Hnet. rewrite <- Hcfg in Hkey. split.
    + intros Hzero.
      destruct (network_failures_exhaust_retries E prompt Hsdk Hkey Hnet 3
                  no_options w) as (w' & Hrun & Hcount & _).
      { rewrite Hcfg. cbn. rewrite Hzero. reflexivity. }
      exists w'. split; [exact Hrun|]. lia.
    + intros n Hneg Hn.
      destruct (no_retry_without_budget E prompt no_options w Hsdk Hkey (Hnet _))
        as (w' & Hrun & Hcount & _).
      { rewrite Hcfg. cbn. rewrite Hn. cbn.
        destruct (Z.eqb_spec n 0) as [Hz|Hz]; [lia|]. lia. }
      exists w'. split; [exact Hrun|]. lia.
Qed.

(** The budget set to 0, offline. *)
Lemma configured_zero_is_replaced_witness :
  let p := {| REACT_APP_PUTER_API_KEY := Some "sk-test";
              REACT_APP_PUTER_API_URL := None; REACT_APP_PUTER_MODEL := None;
              REACT_APP_PUTER_TIMEOUT := None;
              REACT_APP_PUTER_MAX_RETRIES := Some 0%Z;
              REACT_APP_PUTER_RETRY_DELAY := None;
              REACT_APP_USE_DIRECT_API := None;
              REACT_APP_MAX_INPUT_LENGTH := None;
              REACT_APP_STREAMING_DELAY := None;
              REACT_APP_ENVIRONMENT := None |} in
  exists w',
    callPuterAI (page p (FetchRejects failed_to_fetch)) "hello" no_options
      empty_world = (Throws (new_Error network_message), w') /\
    fetch_count w' = 4%nat.
Proof.
  cbn zeta.
  match goal with |- context [page ?p _] =>
    destruct (configured_zero_is_replaced p) as (_ & _ & H)
  end.
  destruct (H (page _ (FetchRejects failed_to_fetch)) "hello" empty_world
              eq_refl eq_refl eq_refl) as [H0 _].
  - intros i. exists "Failed to fetch". split; reflexivity.
  - apply H0. reflexivity.
Defined.

End PipelineFacts.

(* ===================================================================== *)
(** ** Properties of the chat component *)
(* ===================================================================== *)

Module ChatFacts.
Import Js Config Runtime Pipeline Chat Scenarios.

(** *** The reveal of "alpha beta gamma" *)

(** C7. The buffer shows "alpha", "alpha beta", "alpha beta gamma" exactly
    when React runs each of the three updaters inside the [setState] call.
    An updater run at the next render reads [index] after [index++]: with
    all three run there the buffer shows "beta", "beta gamma" and
    "beta gamma undefined". In every case the fourth tick commits the full
    text, clears the buffer and the interval, and a later tick changes
    nothing. *)
Theorem reveal_reads_index_when_rendered :
  (forall t1 t2 t3,
      buffers [t1; t2; t3] (reveal "alpha beta gamma" initial_app) =
        ["alpha"; "alpha beta"; "alpha beta gamma"] <->
      t1 = AtCall /\ t2 = AtCall /\ t3 = AtCall) /\
  buffers [AtRender; AtRender; AtRender] (reveal "alpha beta gamma" initial_app) =
    ["beta"; "beta gamma"; "beta gamma undefined"] /\
  (forall t1 t2 t3 t4 t5,
      let a3 := ticks [t1; t2; t3] (reveal "alpha beta gamma" initial_app) in
      let a4 := ticks [t4] a3 in
      messages a3 = [] /\
      messages a4 = [{| sender := "ai"; text := "alpha beta gamma" |}] /\
      streamingMessage a4 = "" /\
      isStreaming a4 = false /\
      ticks [t5] a4 = a4).
Proof.
  repeat apply conj.
  - intros t1 t2 t3. split.
    + destruct t1, t2, t3; vm_compute; intros H;
        first [ repeat split; reflexivity | discriminate H ].
    + intros (-> & -> & ->). vm_compute. reflexivity.
  - vm_compute. reflexivity.
  - intros t1 t2 t3 t4 t5.
    destruct t1, t2, t3, t4, t5; vm_compute; repeat split.
Qed.


(** *** The steps of a reveal *)

Lemma clear_current_interval_length a :
  length (intervals (clear_current_interval a)) = length (intervals a).
Proof.
  unfold clear_current_interval, clearInterval.
  destruct (streamIntervalRef a) as [id|]; [|reflexivity].
  destruct (intervals a !! id); [|reflexivity].
  apply length_insert.
Qed.

Lemma clear_current_interval_messages a :
  messages (clear_current_interval a) = messages a.
Proof.
  unfold clear_current_interval, clearInterval.
  destruct (streamIntervalRef a) as [id|]; [|reflexivity].
  destruct (intervals a !! id); reflexivity.
Qed.

(** What [simulateStreaming] leaves: the new interval, armed at index 0,
    held by the ref; the message list untouched; the buffer empty. *)
Lemma reveal_state fullText a :
  let r := reveal fullText a in
  streamIntervalRef r = Some (length (intervals a)) /\
  intervals r !! length (intervals a) =
    Some {| iv_active := true; iv_index := 0;
            iv_words := split_space fullText; iv_fullText := fullText |} /\
  messages r = messages a /\
  isStreaming r = true /\
  streamingMessage r = "" /\
  streamingQueue r = [].
Proof.
  unfold reveal, simulateStreaming, render, setStreamingMessage,
    pending_streamingMessage.
  cbn [streamIntervalRef intervals messages isStreaming streamingMessage
       streamingQueue with_streaming with_intervals with_streamIntervalRef
       with_isStreaming].
  rewrite clear_current_interval_length, clear_current_interval_messages.
  repeat split.
  - rewrite <- (clear_current_interval_length a).
    apply list_lookup_middle. reflexivity.
  - rewrite fold_left_app. reflexivity.
Qed.

Lemma tick_reveals_word t id a iv :
  intervals a !! id = Some iv ->
  iv_active iv = true ->
  (iv_index iv < length (iv_words iv))%nat ->
  let a' := tick t id a in
  messages a' = messages a /\
  isStreaming a' = isStreaming a /\
  streamIntervalRef a' = streamIntervalRef a /\
  streamingQueue a' = [] /\
  intervals a' =
    <[id := {| iv_active := true; iv_index := S (iv_index iv);
               iv_words := iv_words iv; iv_fullText := iv_fullText iv |}]>
      (intervals a).
Proof.
  intros Hiv Hact Hlt. apply Nat.ltb_lt in Hlt.
  unfold tick, interval_callback. rewrite Hiv, Hact, Hlt.
  destruct t; repeat split; reflexivity.
Qed.

Lemma tick_commits t id a iv :
  streamIntervalRef a = Some id ->
  intervals a !! id = Some iv ->
  iv_active iv = true ->
  (length (iv_words iv) <= iv_index iv)%nat ->
  let a' := tick t id a in
  messages a' = (messages a ++ [{| sender := "ai"; text := iv_fullText iv |}])%list /\
  isStreaming a' = false /\
  streamingMessage a' = "" /\
  streamingQueue a' = [] /\
  streamIntervalRef a' = Some id /\
  intervals a' =
    <[id := {| iv_active := false; iv_index := iv_index iv;
               iv_words := iv_words iv; iv_fullText := iv_fullText iv |}]>
      (intervals a).
Proof.
  intros Href Hiv Hact Hge. apply Nat.ltb_ge in Hge.
  unfold tick, interval_callback. rewrite Hiv, Hact, Hge.
  unfold clear_current_interval, clearInterval. rewrite Href, Hiv.
  unfold render, setStreamingMessage, pending_streamingMessage.
  cbn [streamIntervalRef intervals messages isStreaming streamingMessage
       streamingQueue with_streaming with_intervals with_messages
       with_isStreaming].
  rewrite fold_left_app. repeat split; try reflexivity; assumption.
Qed.

Lemma tick_of_cleared_interval t id a iv :
  intervals a !! id = Some iv ->
  iv_active iv = false ->
  streamingQueue a = [] ->
  tick t id a = a.
Proof.
  intros Hiv Hact Hq. unfold tick, interval_callback. rewrite Hiv, Hact.
  destruct a; cbn in Hq; subst. reflexivity.
Qed.

(** *** The reveal of the empty text *)

(** C8, as the code has it. The reveal of the empty text commits nothing
    when it is called: [split] yields one empty word, the interval is
    armed, and the record with the empty text is committed by the second
    tick, which also empties the buffer, ends the streaming state and
    clears the interval. *)
Theorem empty_reveal_commits_on_second_tick (a : App) (t1 t2 t3 : Timing) :
  let r := reveal "" a in
  let a1 := ticks [t1] r in
  let a2 := ticks [t1; t2] r in
  messages r = messages a /\ isStreaming r = true /\
  messages a1 = messages a /\ isStreaming a1 = true /\
  messages a2 = (messages a ++ [{| sender := "ai"; text := "" |}])%list /\
  streamingMessage a2 = "" /\
  isStreaming a2 = false /\
  ticks [t3] a2 = a2.
Proof.
  cbn zeta.
  destruct (reveal_state "" a) as (Href & Hiv & Hmsg & Hstr & _ & _).
  set (r := reveal "" a) in *. set (n := length (intervals a)) in *.
  assert (Hn : (n < length (intervals r))%nat)
    by (eapply lookup_lt_Some; exact Hiv).
  destruct (tick_reveals_word t1 n r _ Hiv eq_refl) as
    (Hmsg1 & Hstr1 & Href1 & Hq1 & Hivs1); [cbn; lia|].
  set (a1 := tick t1 n r) in *.
  assert (Hiv1 : intervals a1 !! n =
                 Some {| iv_active := true; iv_index := 1;
                         iv_words := split_space ""; iv_fullText := "" |}).
  { rewrite Hivs1. apply list_lookup_insert_eq. exact Hn. }
  assert (Hn1 : (n < length (intervals a1))%nat)
    by (eapply lookup_lt_Some; exact Hiv1).
  destruct (tick_commits t2 n a1 _ (eq_trans Href1 Href) Hiv1 eq_refl) as
    (Hmsg2 & Hstr2 & Hbuf2 & Hq2 & Href2 & Hivs2); [cbn; lia|].
  set (a2 := tick t2 n a1) in *.
  assert (E1 : ticks [t1] r = a1).
  { unfold ticks. cbn [fold_left]. rewrite Href. reflexivity. }
  assert (E2 : ticks [t1; t2] r = a2).
  { unfold ticks. cbn [fold_left]. rewrite Href. fold a1.
    rewrite Href1, Href. reflexivity. }
  rewrite E1, E2.
  repeat split; try assumption; try congruence.
  - rewrite Hmsg2, Hmsg1, Hmsg. reflexivity.
  - unfold ticks. cbn [fold_left]. rewrite Href2.
    eapply tick_of_cleared_interval; [| |exact Hq2].
    + rewrite Hivs2. apply list_lookup_insert_eq. exact Hn1.
    + reflexivity.
Qed.

(** C8, as stated, fails: after the call and before any tick, the message
    list is still empty and the streaming state is on. *)
Lemma empty_reveal_not_immediate :
  messages (reveal "" initial_app) = [] /\
  messages (reveal "" initial_app) <> [{| sender := "ai"; text := "" |}] /\
  isStreaming (reveal "" initial_app) = true /\
  iv_active <$> intervals (reveal "" initial_app) !! 0%nat = Some true.
Proof. vm_compute. repeat split. discriminate. Qed.


(** *** Submitting a prompt *)

(** The controllers after [callPuterAI] has started are those before it,
    followed by the ones [callDirectAPI] created: none is aborted by the
    start of a call. *)
Lemma callPuterAI_issue_controllers E prompt options w :
  exists created,
    controllers (snd (callPuterAI_issue E prompt options w)) =
    (controllers w ++ created)%list.
Proof.
  unfold callPuterAI_issue.
  destruct (sdk_path E) eqn:Hsdk.
  { exists []. rewrite app_nil_r. reflexivity. }
  destruct (has_api_key (config E)) eqn:Hkey.
  { exists [false]. PipelineFacts.js_unfold; cbn. rewrite Hkey. reflexivity. }
  destruct (String.eqb (ENVIRONMENT (config E)) "development") eqn:Hdev.
  { exists []. rewrite app_nil_r. reflexivity. }
  exists []. rewrite app_nil_r.
  unfold callPuterAI_body, acquire_try. rewrite Hsdk, Hkey, Hdev.
  PipelineFacts.js_unfold; cbn.
  rewrite andb_false_r. reflexivity.
Qed.


(** *** The export *)

Lemma exportChat_lookup clock msgs i :
  (exportChat clock msgs).1 !! i =
  (fun msg => {| role := sender msg; content := text msg;
                 timestamp := clock i |}) <$> msgs !! i.
Proof. unfold exportChat. cbn [fst]. apply list_lookup_imap. Qed.

Lemma exportChat_roles clock msgs :
  role <$> (exportChat clock msgs).1 = sender <$> msgs /\
  content <$> (exportChat clock msgs).1 = text <$> msgs.
Proof.
  unfold exportChat. cbn [fst]. revert clock.
  induction msgs as [|m msgs IH]; intros clock; [split; reflexivity|].
  rewrite imap_cons. cbn [fmap list_fmap].
  destruct (IH (clock ∘ S)) as [IH1 IH2]. unfold compose in *.
  split; f_equal; assumption.
Qed.

(** C10. Every exported record takes its role and content from the message
    at its position and its timestamp from the clock read during the
    export; messages store no time. Two exports of the same conversation
    agree on roles and contents, and at every position where the clock
    readings differ the two records differ in their timestamps. *)
Theorem exportChat_timestamps_are_fresh (clock1 clock2 : nat -> string)
                                        (msgs : list Message) :
  let e1 := (exportChat clock1 msgs).1 in
  let e2 := (exportChat clock2 msgs).1 in
  length e1 = length msgs /\
  (forall i msg, msgs !! i = Some msg ->
     e1 !! i = Some {| role := sender msg; content := text msg;
                       timestamp := clock1 i |}) /\
  role <$> e1 = role <$> e2 /\
  content <$> e1 = content <$> e2 /\
  (forall i r1 r2,
     e1 !! i = Some r1 -> e2 !! i = Some r2 ->
     role r1 = role r2 /\ content r1 = content r2 /\
     (clock1 i <> clock2 i -> timestamp r1 <> timestamp r2)).
Proof.
  cbn zeta. repeat apply conj.
  - unfold exportChat. cbn [fst]. apply length_imap.
  - intros i msg Hmsg. rewrite exportChat_lookup, Hmsg. reflexivity.
  - destruct (exportChat_roles clock1 msgs) as [-> _].
    destruct (exportChat_roles clock2 msgs) as [-> _]. reflexivity.
  - destruct (exportChat_roles clock1 msgs) as [_ ->].
    destruct (exportChat_roles clock2 msgs) as [_ ->]. reflexivity.
  - intros i r1 r2. rewrite !exportChat_lookup.
    destruct (msgs !! i) as [msg|]; cbn; [|discriminate].
    intros [= <-] [= <-]. cbn. repeat split. auto.
Qed.


(** *** A reveal from its start to its commit *)

Lemma ticks_snoc ts t a :
  ticks (ts ++ [t]) a =
  match streamIntervalRef (ticks ts a) with
  | Some id => tick t id (ticks ts a)
  | None => ticks ts a
  end.
Proof. unfold ticks. rewrite fold_left_app. reflexivity. Qed.

Lemma ticks_one t a :
  ticks [t] a =
  match streamIntervalRef a with
  | Some id => tick t id a
  | None => a
  end.
Proof. reflexivity. Qed.

(** While words remain, a tick hands over one more and commits nothing. *)
Lemma revealing_step t id k words fullText a :
  revealing id k words fullText a ->
  (k < length words)%nat ->
  revealing id (S k) words fullText (tick t id a) /\
  messages (tick t id a) = messages a.
Proof.
  intros (Href & Hiv & Hstr & Hq) Hlt.
  destruct (tick_reveals_word t id a _ Hiv eq_refl Hlt)
    as (Hmsg & Hstr' & Href' & Hq' & Hivs).
  split; [|exact Hmsg].
  unfold revealing. split; [|split; [|split]].
  - rewrite Href'. exact Href.
  - rewrite Hivs. apply list_lookup_insert_eq.
    eapply lookup_lt_Some. exact Hiv.
  - rewrite Hstr'. exact Hstr.
  - exact Hq'.
Qed.

Lemma revealing_ticks fullText a ts :
  (length ts <= length (split_space fullText))%nat ->
  revealing (length (intervals a)) (length ts) (split_space fullText) fullText
    (ticks ts (reveal fullText a)) /\
  messages (ticks ts (reveal fullText a)) = messages a.
Proof.
  induction ts as [|t ts IH] using rev_ind; intros Hlen.
  - destruct (reveal_state fullText a) as (Href & Hiv & Hmsg & Hstr & _ & Hq).
    repeat split; assumption.
  - rewrite length_app in *. cbn [length] in *.
    destruct IH as [Hrev Hmsg]; [lia|].
    rewrite ticks_snoc. destruct Hrev as (Href & Hrest).
    rewrite Href.
    destruct (revealing_step t _ _ _ _ _ (conj Href Hrest)) as [Hrev' Hmsg'];
      [lia|].
    replace (length ts + 1)%nat with (S (length ts)) by lia.
    split; [exact Hrev'|]. rewrite Hmsg'. exact Hmsg.
Qed.

Lemma reveal_commits_after_last_word_steps fullText a ts t :
  length ts = length (split_space fullText) ->
  messages (ticks (ts ++ [t]) (reveal fullText a)) =
    (messages a ++ [{| sender := "ai"; text := fullText |}])%list /\
  streamingMessage (ticks (ts ++ [t]) (reveal fullText a)) = "" /\
  isStreaming (ticks (ts ++ [t]) (reveal fullText a)) = false /\
  forall t', ticks [t'] (ticks (ts ++ [t]) (reveal fullText a)) =
             ticks (ts ++ [t]) (reveal fullText a).
Proof.
  intros Hlen.
  destruct (revealing_ticks fullText a ts) as [(Href & Hiv & Hstr & Hq) Hmsg];
    [lia|].
  rewrite ticks_snoc, Href.
  destruct (tick_commits t _ _ _ Href Hiv eq_refl) as
    (Hmsg2 & Hstr2 & Hbuf2 & Hq2 & Href2 & Hivs2); [cbn; lia|].
  rewrite Hmsg2, Hmsg. repeat split; try assumption.
  intros t'. rewrite ticks_one, Href2.
  eapply tick_of_cleared_interval; [| |exact Hq2].
  - rewrite Hivs2. apply list_lookup_insert_eq.
    eapply lookup_lt_Some. exact Hiv.
  - reflexivity.
Qed.

(** X9. Whatever text is revealed and whenever React runs the updaters,
    the reveal commits once, on the tick after the last word: before it
    the message list is untouched and the streaming state on; that tick
    appends the record with the full text, empties the buffer and ends the
    streaming state; later ticks of the interval change nothing. *)
Theorem reveal_commits_after_last_word (fullText : string) (a : App)
                                       (ts : list Timing) (t t' : Timing) :
  length ts = length (split_space fullText) ->
  let during := ticks ts (reveal fullText a) in
  let done := ticks (ts ++ [t]) (reveal fullText a) in
  (forall ts0, ts0 `prefix_of` ts ->
     messages (ticks ts0 (reveal fullText a)) = messages a /\
     isStreaming (ticks ts0 (reveal fullText a)) = true) /\
  messages done = (messages a ++ [{| sender := "ai"; text := fullText |}])%list /\
  streamingMessage done = "" /\
  isStreaming done = false /\
  ticks [t'] done = done.
Proof.
  intros Hlen. cbn zeta. split.
  - intros ts0 Hpre.
    destruct (revealing_ticks fullText a ts0) as [(_ & _ & Hstr & _) Hmsg].
    { apply prefix_length in Hpre. lia. }
    split; assumption.
  - destruct (reveal_commits_after_last_word_steps fullText a ts t Hlen)
      as (H1 & H2 & H3 & H4).
    repeat split; try assumption. apply H4.
Qed.

(** Two words, revealed with the updaters run at render. *)
Lemma reveal_commits_after_last_word_witness :
  messages (ticks [AtRender; AtRender; AtRender] (reveal "alpha beta" initial_app)) =
  [{| sender := "ai"; text := "alpha beta" |}].
Proof.
  destruct (reveal_commits_after_last_word "alpha beta" initial_app
              [AtRender; AtRender] AtRender AtRender eq_refl)
    as (_ & H & _).
  exact H.
Defined.

(** *** A reveal that replaces another *)

Lemma reveal_clears_previous fullText a id iv :
  streamIntervalRef a = Some id ->
  intervals a !! id = Some iv ->
  intervals (reveal fullText a) !! id =
    Some {| iv_active := false; iv_index := iv_index iv;
            iv_words := iv_words iv; iv_fullText := iv_fullText iv |}.
Proof.
  intros Href Hiv.
  unfold reveal, simulateStreaming, render, setStreamingMessage,
    clear_current_interval, clearInterval.
  rewrite Href, Hiv.
  cbn [streamIntervalRef intervals messages isStreaming streamingMessage
       streamingQueue with_streaming with_intervals with_streamIntervalRef
       with_isStreaming].
  assert (Hlt : (id < length (intervals a))%nat)
    by (eapply lookup_lt_Some; exact Hiv).
  rewrite lookup_app_l by (rewrite length_insert; exact Hlt).
  apply list_lookup_insert_eq. exact Hlt.
Qed.

(** X10. When [simulateStreaming] is called while an earlier reveal is
    still running, the earlier interval is cleared: its callback changes
    nothing any more, its text is never committed, and the new reveal ends
    with the one record of the new text. *)
Theorem superseded_reveal_never_commits (first second : string) (a : App)
                                        (ts ts2 : list Timing) (t t0 : Timing) :
  (length ts <= length (split_space first))%nat ->
  length ts2 = length (split_space second) ->
  let b := reveal second (ticks ts (reveal first a)) in
  tick t0 (length (intervals a)) b = b /\
  messages (ticks (ts2 ++ [t]) b) =
    (messages a ++ [{| sender := "ai"; text := second |}])%list.
Proof.
  intros Hlen Hlen2. cbn zeta.
  destruct (revealing_ticks first a ts Hlen) as [(Href & Hiv & _ & _) Hmsg].
  split.
  - eapply tick_of_cleared_interval.
    + eapply reveal_clears_previous; eassumption.
    + reflexivity.
    + apply reveal_state.
  - destruct (reveal_commits_after_last_word_steps second
                (ticks ts (reveal first a)) ts2 t Hlen2) as [H _].
    rewrite H, Hmsg. reflexivity.
Qed.

(** A second answer arrives after the first word of the first. *)
Lemma superseded_reveal_never_commits_witness :
  messages
    (ticks [AtRender; AtRender]
       (reveal "two" (ticks [AtRender] (reveal "alpha beta" initial_app)))) =
  [{| sender := "ai"; text := "two" |}].
Proof.
  destruct (superseded_reveal_never_commits "alpha beta" "two" initial_app
              [AtRender] [AtRender] AtRender AtRender) as [_ H].
  - cbn. lia.
  - reflexivity.
  - exact H.
Defined.


(** *** What a submission does *)

(** X11. [sendMessage] ignores an input that [trim] empties or whose
    [length] exceeds [MAX_INPUT_LENGTH]: the state stays as it is and
    nothing is sent.
    Any other input is appended to the messages as the user's, the input
    is emptied, the typing state set, the error cleared and a fresh
    controller stored in the ref; when the request goes out directly it
    carries the input as typed, white space included. *)
Theorem sendMessage_begin_submits E a :
  let too_long :=
    (MAX_INPUT_LENGTH (config E) <? utf16_length (input a))%Z in
  let a' := sendMessage_begin E a in
  (is_blank (input a) = true \/ too_long = true -> a' = a) /\
  (is_blank (input a) = false -> too_long = false ->
     messages a' =
       (messages a ++ [{| sender := "user"; text := input a |}])%list /\
     input a' = "" /\
     isTyping a' = true /\
     apiError a' = None /\
     abortControllerRef a' = Some (length (controllers (rt a))) /\
     (sdk_path E = false -> has_api_key (config E) = true ->
      exists req,
        pending (rt a') = (pending (rt a) ++ [req])%list /\
        req_prompt req = input a /\
        req_signal req = S (length (controllers (rt a))) /\
        isLoading (rt a') = true)).
Proof.
  cbn zeta. unfold sendMessage_begin. split.
  - intros [Hblank|Hlong].
    + rewrite Hblank. reflexivity.
    + rewrite Hlong. destruct (is_blank (input a)); reflexivity.
  - intros Hblank Hlong. rewrite Hblank, Hlong.
    destruct a as [w ms i ty sm sq st sel err ivs sref [c|]];
      cbn -[callPuterAI_issue];
      (split; [reflexivity|]); (split; [reflexivity|]);
      (split; [reflexivity|]); (split; [reflexivity|]);
      (split; [rewrite ?length_insert; reflexivity|]);
      intros Hsdk Hkey;
      unfold callPuterAI_issue; rewrite Hsdk, Hkey;
      PipelineFacts.js_unfold; cbn; rewrite Hkey; cbn;
      (eexists; split; [reflexivity|]; split; [reflexivity|];
       split; [|reflexivity]);
      rewrite length_app, ?length_insert; cbn; f_equal; lia.
Qed.

(** A padded prompt, sent as typed. *)
Lemma sendMessage_begin_submits_witness :
  req_prompt <$> pending (rt (sendMessage_begin offline
                                (with_input initial_app "  hello "))) =
  ["  hello "].
Proof.
  destruct (sendMessage_begin_submits offline (with_input initial_app "  hello "))
    as [_ H].
  destruct (H eq_refl eq_refl) as (_ & _ & _ & _ & _ & Hreq).
  destruct (Hreq eq_refl eq_refl) as (req & Hpending & Hprompt & _).
  rewrite Hpending. cbn. rewrite Hprompt. reflexivity.
Defined.

(** White space beyond ASCII is stripped too: a no-break space alone is
    no prompt. *)
Lemma no_break_space_is_ignored :
  is_blank no_break_space = true /\
  sendMessage_begin offline (with_input initial_app no_break_space) =
    with_input initial_app no_break_space.
Proof. split; vm_compute; reflexivity. Qed.

Lemma sendMessage_begin_submits_messages E a :
  is_blank (input a) = false ->
  messages (sendMessage_begin E a) =
    (messages a ++ [{| sender := "user"; text := input a |}])%list \/
  (MAX_INPUT_LENGTH (config E) <? utf16_length (input a))%Z = true.
Proof.
  intros Hblank. unfold sendMessage_begin. rewrite Hblank.
  destruct (_ <? _)%Z; [right; reflexivity|left].
  destruct a as [w ms i ty sm sq st sel err ivs sref [c|]];
    cbn -[callPuterAI_issue]; reflexivity.
Qed.

(** *** Typing *)

(** X12. Starting from an input within [MAX_INPUT_LENGTH], typing keeps it
    within the limit, both measured as [length] does, in UTF-16 code
    units: a longer value is dropped and the input stays as it was. So a
    typed input that [trim] does not empty is never turned away by
    [sendMessage] for its length. *)
Theorem typing_stays_within_limit E (values : list string) (a : App) :
  (utf16_length (input a) <= MAX_INPUT_LENGTH (config E))%Z ->
  let a' := fold_left (fun a v => handleInputChange (config E) v a) values a in
  (utf16_length (input a') <= MAX_INPUT_LENGTH (config E))%Z /\
  (input a' = input a \/ input a' ∈ values) /\
  messages a' = messages a /\
  (is_blank (input a') = false ->
   messages (sendMessage_begin E a') =
     (messages a' ++ [{| sender := "user"; text := input a' |}])%list).
Proof.
  cbn zeta. intros Hlen.
  assert (H : let a' := fold_left (fun a v => handleInputChange (config E) v a)
                          values a in
              (utf16_length (input a') <= MAX_INPUT_LENGTH (config E))%Z /\
              (input a' = input a \/ input a' ∈ values) /\
              messages a' = messages a).
  { revert a Hlen. induction values as [|v values IH]; intros a Hlen; cbn zeta.
    - repeat split; [exact Hlen|left; reflexivity].
    - cbn [fold_left].
      destruct (Z.leb_spec (utf16_length v) (MAX_INPUT_LENGTH (config E)))
        as [Hv|Hv].
      + assert (Hstep : handleInputChange (config E) v a = with_input a v).
        { unfold handleInputChange. apply Z.leb_le in Hv. rewrite Hv.
          reflexivity. }
        rewrite Hstep.
        destruct (IH (with_input a v) Hv) as (H1 & H2 & H3).
        split; [exact H1|]. split; [|exact H3].
        right. destruct H2 as [H2|H2].
        * rewrite H2. apply list_elem_of_here.
        * apply list_elem_of_further. exact H2.
      + assert (Hstep : handleInputChange (config E) v a = a).
        { unfold handleInputChange. apply Z.leb_gt in Hv. rewrite Hv.
          reflexivity. }
        rewrite Hstep.
        destruct (IH a Hlen) as (H1 & H2 & H3).
        split; [exact H1|]. split; [|exact H3].
        destruct H2 as [H2|H2]; [left; exact H2|].
        right. apply list_elem_of_further. exact H2. }
  cbn zeta in H. destruct H as (H1 & H2 & H3).
  repeat split; try assumption.
  intros Hblank.
  destruct (sendMessage_begin_submits_messages E _ Hblank) as [Hm|Hm].
  - exact Hm.
  - apply Z.ltb_lt in Hm. lia.
Qed.

(** A value within the limit is typed, then one beyond it. *)
Lemma typing_stays_within_limit_witness :
  (utf16_length
     (input (fold_left (fun a v => handleInputChange (config offline) v a)
               ["hello"; String.concat "" (repeat "0123456789" 401)]
               initial_app)) <= 4000)%Z.
Proof.
  assert (H0 : (utf16_length (input initial_app) <=
                MAX_INPUT_LENGTH (config offline))%Z)
    by (vm_compute; intros H; discriminate H).
  exact (proj1 (typing_stays_within_limit offline
                  ["hello"; String.concat "" (repeat "0123456789" 401)]
                  initial_app H0)).
Defined.


(** The limit counts code units, not bytes: 4000 accented letters, 8000
    bytes, are accepted and submitted, one more is dropped. *)
Lemma limit_counts_code_units :
  utf16_length (accented 4000) = 4000%Z /\
  input (handleInputChange (config offline) (accented 4000) initial_app) =
    accented 4000 /\
  length (messages (sendMessage_begin offline
                      (with_input initial_app (accented 4000)))) = 1%nat /\
  input (handleInputChange (config offline) (accented 4001) initial_app) = "".
Proof. repeat split; vm_compute; reflexivity. Qed.

(** *** Clearing the chat while a reveal runs *)

Lemma revealing_completes id fullText words t :
  forall ts k b,
    revealing id k words fullText b ->
    (length ts + k)%nat = length words ->
    messages (ticks (ts ++ [t]) b) =
      (messages b ++ [{| sender := "ai"; text := fullText |}])%list /\
    isStreaming (ticks (ts ++ [t]) b) = false.
Proof.
  induction ts as [|t1 ts IH]; intros k b Hrev Hlen.
  - destruct Hrev as (Href & Hiv & Hstr & Hq).
    cbn [app]. rewrite ticks_one, Href.
    destruct (tick_commits t id b _ Href Hiv eq_refl) as (Hmsg & Hs & _);
      [cbn in *; lia|].
    split; assumption.
  - destruct (revealing_step t1 id k words fullText b Hrev) as [Hrev' Hmsg];
      [cbn in Hlen; lia|].
    change (ticks ((t1 :: ts) ++ [t]) b)
      with (ticks (ts ++ [t])
              (match streamIntervalRef b with
               | Some id => tick t1 id b
               | None => b
               end)).
    destruct Hrev as (Href & _). rewrite Href.
    destruct (IH (S k) _ Hrev') as [H1 H2]; [cbn in Hlen; lia|].
    rewrite H1, Hmsg. split; [reflexivity|exact H2].
Qed.

(** X13. [clearChat] empties the message list but does not stop a reveal
    that is running: the interval stays armed, and when the reveal ends its
    record is appended to the emptied list, which then holds exactly that
    one message. *)
Theorem clearChat_does_not_stop_reveal (fullText : string) (a : App)
                                       (ts ts' : list Timing) (t : Timing) :
  (length ts + length ts')%nat = length (split_space fullText) ->
  let cleared := clearChat (ticks ts (reveal fullText a)) in
  messages cleared = [] /\
  isStreaming cleared = true /\
  messages (ticks (ts' ++ [t]) cleared) =
    [{| sender := "ai"; text := fullText |}].
Proof.
  intros Hlen. cbn zeta.
  destruct (revealing_ticks fullText a ts) as [Hrev _]; [lia|].
  assert (Hrev' : revealing (length (intervals a)) (length ts)
                    (split_space fullText) fullText
                    (clearChat (ticks ts (reveal fullText a)))).
  { destruct Hrev as (H1 & H2 & H3 & H4). repeat split; assumption. }
  split; [reflexivity|]. split; [apply Hrev'|].
  destruct (revealing_completes _ fullText _ t ts' _ _ Hrev') as [H _]; [lia|].
  rewrite H. reflexivity.
Qed.

(** The chat is cleared after the first of two words. *)
Lemma clearChat_does_not_stop_reveal_witness :
  messages
    (ticks [AtRender; AtRender]
       (clearChat (ticks [AtRender] (reveal "alpha beta" initial_app)))) =
  [{| sender := "ai"; text := "alpha beta" |}].
Proof.
  exact (proj2 (proj2 (clearChat_does_not_stop_reveal "alpha beta" initial_app
                         [AtRender] [AtRender] AtRender eq_refl))).
Defined.


(** *** The whole submission *)

Lemma sendMessage_begin_prepare E a :
  is_blank (input a) = false ->
  (MAX_INPUT_LENGTH (config E) <? utf16_length (input a))%Z = false ->
  sendMessage_begin E a =
  run_hook (callPuterAI_issue E (input a) (sendMessage_options (config E)))
    (sendMessage_prepare a).
Proof.
  intros Hb Hl. unfold sendMessage_begin, sendMessage_prepare.
  rewrite Hb, Hl. reflexivity.
Qed.

Lemma render_idle a : streamingQueue a = [] -> render a = a.
Proof.
  intros Hq. unfold render, pending_streamingMessage. rewrite Hq.
  destruct a; cbn in *; subst; reflexivity.
Qed.

Lemma idle_ticks a ts : idle a -> ticks ts a = a.
Proof.
  intros [Hq Hidle]. induction ts as [|t ts IH]; [reflexivity|].
  unfold ticks in *. cbn [fold_left].
  destruct (streamIntervalRef a) as [id|] eqn:Href; [|exact IH].
  replace (tick t id a) with a; [exact IH|].
  unfold tick, interval_callback.
  destruct (intervals a !! id) as [iv|] eqn:Hiv.
  - rewrite (Hidle id iv eq_refl Hiv). symmetry. apply render_idle, Hq.
  - symmetry. apply render_idle, Hq.
Qed.

Lemma clear_current_interval_inactive a id iv :
  streamIntervalRef (clear_current_interval a) = Some id ->
  intervals (clear_current_interval a) !! id = Some iv ->
  iv_active iv = false.
Proof.
  unfold clear_current_interval, clearInterval.
  destruct (streamIntervalRef a) as [id0|] eqn:Href.
  - destruct (intervals a !! id0) as [iv0|] eqn:Hiv.
    + cbn [streamIntervalRef intervals with_intervals].
      intros Hid Hiv'. rewrite Href in Hid. injection Hid as <-.
      rewrite list_lookup_insert_eq in Hiv'
        by (eapply lookup_lt_Some; exact Hiv).
      injection Hiv' as <-. reflexivity.
    + intros Hid Hiv'. rewrite Href in Hid. injection Hid as <-. congruence.
  - intros Hid. congruence.
Qed.

Lemma clear_current_interval_frame a :
  let c := clear_current_interval a in
  rt c = rt a /\ input c = input a /\ isTyping c = isTyping a /\
  isStreaming c = isStreaming a /\ selectedSuggestion c = selectedSuggestion a /\
  apiError c = apiError a /\ streamIntervalRef c = streamIntervalRef a /\
  abortControllerRef c = abortControllerRef a /\
  streamingMessage c = streamingMessage a /\
  streamingQueue c = streamingQueue a.
Proof.
  cbn zeta. unfold clear_current_interval, clearInterval.
  destruct (streamIntervalRef a) as [id|] eqn:Href;
    [|repeat split; exact Href].
  destruct (intervals a !! id); cbn;
    repeat split; first [reflexivity|exact Href].
Qed.

Lemma unmount_reveal a :
  streamingQueue (unmount a) = streamingQueue a /\
  streamIntervalRef (unmount a) = streamIntervalRef (clear_current_interval a) /\
  intervals (unmount a) = intervals (clear_current_interval a) /\
  messages (unmount a) = messages a.
Proof.
  unfold unmount.
  assert (H : abortControllerRef (clear_current_interval a) = abortControllerRef a
              /\ streamingQueue (clear_current_interval a) = streamingQueue a
              /\ messages (clear_current_interval a) = messages a).
  { unfold clear_current_interval, clearInterval.
    destruct (streamIntervalRef a) as [id|]; [|repeat split].
    destruct (intervals a !! id); repeat split. }
  destruct H as (Hc & Hq & Hm).
  destruct (abortControllerRef (clear_current_interval a)); cbn; repeat split;
    assumption.
Qed.

(** X19. When the component unmounts while a reveal is running, the
    cleanup clears the interval: no later tick changes the state, and the
    text being revealed is never appended to the messages. The controller
    in the ref is aborted, which leaves every request that carries the
    signal of another controller as it was. *)
Theorem unmount_stops_reveal (fullText : string) (a : App)
                             (ts ts2 : list Timing) :
  (length ts <= length (split_space fullText))%nat ->
  let b := unmount (ticks ts (reveal fullText a)) in
  ticks ts2 b = b /\
  messages b = messages a /\
  (forall req, abortControllerRef b <> Some (req_signal req) ->
               cancelled b req = cancelled (ticks ts (reveal fullText a)) req).
Proof.
  intros Hlen. cbn zeta.
  destruct (revealing_ticks fullText a ts Hlen) as [(_ & _ & _ & Hq) Hmsg].
  set (r := ticks ts (reveal fullText a)) in *.
  destruct (unmount_reveal r) as (Hq' & Href' & Hivs' & Hmsg').
  split; [|split].
  - apply idle_ticks.
    split; [rewrite Hq'; exact Hq|].
    rewrite Href', Hivs'. apply clear_current_interval_inactive.
  - rewrite Hmsg'. exact Hmsg.
  - intros req Hneq. unfold cancelled, aborted, unmount in *.
    assert (Hrt : rt (clear_current_interval r) = rt r).
    { unfold clear_current_interval, clearInterval.
      destruct (streamIntervalRef r) as [id|]; [|reflexivity].
      destruct (intervals r !! id); reflexivity. }
    destruct (abortControllerRef (clear_current_interval r)) as [c|] eqn:Hc;
      cbn [rt with_rt abortControllerRef] in *; rewrite ?Hrt; [|reflexivity].
    unfold abort. cbn [controllers with_controllers].
    rewrite Hc in Hneq.
    rewrite list_lookup_insert_ne by congruence. reflexivity.
Qed.

(** The component unmounts after the first word of two. *)
Lemma unmount_stops_reveal_witness :
  messages
    (ticks [AtRender; AtRender; AtRender]
       (unmount (ticks [AtRender] (reveal "alpha beta" initial_app)))) = [].
Proof.
  destruct (unmount_stops_reveal "alpha beta" initial_app [AtRender]
              [AtRender; AtRender; AtRender]) as (H1 & H2 & _).
  - cbn. lia.
  - rewrite H1. exact H2.
Defined.

(** *** The submission from the guards to the end *)

Lemma sendMessage_prepare_state a :
  let p := sendMessage_prepare a in
  messages p = (messages a ++ [{| sender := "user"; text := input a |}])%list /\
  input p = "" /\ isTyping p = true /\ apiError p = None /\
  streamIntervalRef p = streamIntervalRef a /\ intervals p = intervals a /\
  isStreaming p = isStreaming a.
Proof.
  cbn zeta. unfold sendMessage_prepare.
  destruct a as [w ms i ty sm sq st sel err ivs sref [c|]]; cbn;
    repeat split; reflexivity.
Qed.

Lemma sendMessage_catch_error m a :
  sendMessage_catch (JErr ClsTypeError "TypeError" m) a =
    sendMessage_catch (new_Error m) a /\
  exists a',
    sendMessage_catch (new_Error m) a = Some a' /\
    isTyping a' = false /\ input a' = input a /\ rt a' = rt a /\
    messages a' = (messages a ++ [{| sender := "ai"; text := m |}])%list /\
    apiError a' = Some m /\ isStreaming a' = isStreaming a /\
    streamIntervalRef a' = streamIntervalRef a /\
    intervals a' = intervals a /\
    streamingQueue a' = streamingQueue a /\
    streamingMessage a' = streamingMessage a.
Proof.
  split; [reflexivity|].
  eexists. split; [reflexivity|]. cbn. repeat split; reflexivity.
Qed.

Lemma split_error_message v :
  exists m, split_error v = JErr ClsTypeError "TypeError" m.
Proof. destruct v; eexists; reflexivity. Qed.

Lemma simulateStreaming_of_other v a :
  is_string v = false ->
  simulateStreaming_of v a =
  (Throws (split_error v),
   setStreamingMessage AtRender (SetTo "")
     (with_isStreaming (clear_current_interval a) true)).
Proof. destruct v; intros H; try reflexivity. discriminate H. Qed.

Lemma sendMessage_resume_text s b :
  exists a',
    sendMessage_resume (Returns (JStr s)) b = Some a' /\
    isTyping a' = false /\ input a' = input b /\
    messages a' = messages b /\ apiError a' = apiError b /\
    revealing (length (intervals b)) 0 (split_space s) s (render a').
Proof.
  cbn [sendMessage_resume simulateStreaming_of].
  eexists. split; [reflexivity|].
  set (c := with_isTyping b false).
  destruct (clear_current_interval_frame c)
    as (_ & Hcin & Hcty & _ & _ & Hcerr & _).
  unfold simulateStreaming at 1 2 3 4.
  cbn [isTyping input messages apiError with_streamIntervalRef with_intervals
       setStreamingMessage with_streaming with_isStreaming].
  rewrite Hcty, Hcin, Hcerr, clear_current_interval_messages.
  repeat split; try reflexivity;
    destruct (reveal_state s c) as (H1 & H2 & _ & H4 & _ & H6); assumption.
Qed.

Lemma sendMessage_resume_thrown m b :
  exists a',
    sendMessage_resume (Throws (new_Error m)) b = Some a' /\
    isTyping a' = false /\ input a' = input b /\ rt a' = rt b /\
    messages a' = (messages b ++ [{| sender := "ai"; text := m |}])%list /\
    apiError a' = Some m /\ isStreaming a' = isStreaming b.
Proof.
  cbn [sendMessage_resume].
  destruct (sendMessage_catch_error m b)
    as (_ & a' & -> & Hty' & Hin' & Hrt' & Hmsg' & Herr' & Hstr' & _).
  exists a'. repeat split; assumption.
Qed.

Lemma sendMessage_resume_other v b :
  is_string v = false ->
  exists a' m,
    sendMessage_resume (Returns v) b = Some a' /\
    isTyping a' = false /\ input a' = input b /\
    messages a' = (messages b ++ [{| sender := "ai"; text := m |}])%list /\
    apiError a' = Some m /\ isStreaming a' = true /\
    idle (render a').
Proof.
  intros Hv. cbn [sendMessage_resume].
  rewrite simulateStreaming_of_other by exact Hv.
  destruct (split_error_message v) as [m Hm]. rewrite Hm.
  set (b0 := with_isTyping b false).
  set (c := setStreamingMessage AtRender (SetTo "")
              (with_isStreaming (clear_current_interval b0) true)).
  destruct (sendMessage_catch_error m c)
    as (-> & a' & -> & Hty' & Hin' & _ & Hmsg' & Herr' & Hstr' & Href' &
        Hivs' & Hq' & _).
  destruct (clear_current_interval_frame b0) as (_ & Hcin & _).
  exists a', m. split; [reflexivity|]. split; [exact Hty'|].
  split; [|split; [|split; [exact Herr'|split]]].
  - rewrite Hin'. unfold c.
    cbn [input setStreamingMessage with_streaming with_isStreaming].
    exact Hcin.
  - rewrite Hmsg'. unfold c.
    cbn [messages setStreamingMessage with_streaming with_isStreaming].
    rewrite clear_current_interval_messages. reflexivity.
  - rewrite Hstr'. reflexivity.
  - split; [reflexivity|].
    unfold render. cbn [streamIntervalRef intervals with_streaming].
    rewrite Href', Hivs'. unfold c.
    cbn [streamIntervalRef intervals setStreamingMessage with_streaming
         with_isStreaming].
    apply clear_current_interval_inactive.
Qed.

Lemma sendMessage_settles_steps E a :
  is_blank (input a) = false ->
  (MAX_INPUT_LENGTH (config E) <? utf16_length (input a))%Z = false ->
  let user := {| sender := "user"; text := input a |} in
  let r := fst (callPuterAI E (input a) (sendMessage_options (config E))
                  (rt (sendMessage_prepare a))) in
  exists a',
    sendMessage E a = Some a' /\
    isTyping a' = false /\
    input a' = "" /\
    ((exists fullText,
        r = Returns (JStr fullText) /\
        messages a' = (messages a ++ [user])%list /\
        apiError a' = None /\
        revealing (length (intervals a)) 0 (split_space fullText) fullText
          (render a')) \/
     (exists errorType,
        let m := userFriendlyMessage errorType in
        r = Throws (new_Error m) /\
        messages a' =
          (messages a ++ [user; {| sender := "ai"; text := m |}])%list /\
        apiError a' = Some m /\
        error (rt a') = Some (errorType, m) /\
        isStreaming a' = isStreaming a) \/
     (exists v m,
        r = Returns v /\ is_string v = false /\
        messages a' =
          (messages a ++ [user; {| sender := "ai"; text := m |}])%list /\
        apiError a' = Some m /\
        isStreaming a' = true /\
        idle (render a'))).
Proof.
  intros Hb Hl. cbv zeta. unfold sendMessage. rewrite Hb, Hl.
  destruct (sendMessage_prepare_state a)
    as (Hmsg & Hin & Hty & Herr & Href & Hivs & Hstr).
  generalize dependent (sendMessage_prepare a). intros p Hmsg Hin Hty Herr Href Hivs Hstr.
  pose proof (PipelineFacts.callPuterAI_answers E (input a)
                (sendMessage_options (config E)) (rt p)) as Hans.
  unfold Pipeline.answers in Hans.
  destruct (callPuterAI E (input a) (sendMessage_options (config E)) (rt p))
    as [[v|e|] w] eqn:Hrun; [| |exfalso; apply Hans; reflexivity].
  - destruct (is_string v) eqn:Hv.
    + destruct v; try discriminate Hv. clear Hv.
      destruct (sendMessage_resume_text s (with_rt p w))
        as (a' & -> & Hty' & Hin' & Hmsg' & Herr' & Hrev).
      exists a'. split; [reflexivity|]. split; [exact Hty'|].
      split; [rewrite Hin'; exact Hin|].
      left. exists s. split; [reflexivity|].
      split; [rewrite Hmsg'; exact Hmsg|].
      split; [rewrite Herr'; exact Herr|].
      rewrite <- Hivs. exact Hrev.
    + destruct (sendMessage_resume_other v (with_rt p w) Hv)
        as (a' & m & -> & Hty' & Hin' & Hmsg' & Herr' & Hstr' & Hidle).
      exists a'. split; [reflexivity|]. split; [exact Hty'|].
      split; [rewrite Hin'; exact Hin|].
      right; right. exists v, m.
      split; [reflexivity|]. split; [exact Hv|].
      split; [|split; [exact Herr'|split; [exact Hstr'|exact Hidle]]].
      rewrite Hmsg'. cbn [messages with_rt]. rewrite Hmsg, <- app_assoc.
      reflexivity.
  - destruct (PipelineFacts.callPuterAI_fuel_throws_message _ _ _ _ _ _ _ Hrun)
      as (errorType & -> & Herror).
    destruct (sendMessage_resume_thrown (userFriendlyMessage errorType)
                (with_rt p w))
      as (a' & -> & Hty' & Hin' & Hrt' & Hmsg' & Herr' & Hstr').
    exists a'. split; [reflexivity|]. split; [exact Hty'|].
    split; [rewrite Hin'; exact Hin|].
    right; left. exists errorType.
    split; [reflexivity|]. split; [|split; [exact Herr'|split]].
    + rewrite Hmsg'. cbn [messages with_rt]. rewrite Hmsg, <- app_assoc.
      reflexivity.
    + rewrite Hrt'. exact Herror.
    + rewrite Hstr'. exact Hstr.
Qed.



Lemma render_frame a :
  isStreaming (render a) = isStreaming a /\
  isTyping (render a) = isTyping a /\
  messages (render a) = messages a.
Proof. repeat split. Qed.

(** X18. When the pipeline returns a value that is no text (a number, an
    object, a list of content parts), [simulateStreaming] throws at
    [fullText.split] after it has set the streaming state: the submission
    ends with the [TypeError]'s message as the assistant's answer and as
    the error, no interval is armed, and the streaming state stays on
    whatever ticks follow. *)
Theorem non_text_response_leaves_streaming_on E a v :
  is_blank (input a) = false ->
  (MAX_INPUT_LENGTH (config E) <? utf16_length (input a))%Z = false ->
  fst (callPuterAI E (input a) (sendMessage_options (config E))
         (rt (sendMessage_prepare a))) = Returns v ->
  is_string v = false ->
  exists a' m,
    sendMessage E a = Some a' /\
    messages a' =
      (messages a ++ [{| sender := "user"; text := input a |};
                      {| sender := "ai"; text := m |}])%list /\
    apiError a' = Some m /\
    forall ts,
      ticks ts (render a') = render a' /\
      isStreaming (render a') = true /\
      messages (render a') = messages a'.
Proof.
  intros Hb Hl Hrun Hv.
  destruct (sendMessage_settles_steps E a Hb Hl)
    as (a' & Hsend & _ & _ & [Hcase|[Hcase|Hcase]]).
  - destruct Hcase as (s & Hr & _). rewrite Hrun in Hr.
    injection Hr as ->. discriminate Hv.
  - destruct Hcase as (errorType & Hr & _). rewrite Hrun in Hr.
    discriminate Hr.
  - destruct Hcase as (v' & m & _ & _ & Hmsg & Herr & Hstr & Hidle).
    exists a', m. split; [exact Hsend|]. split; [exact Hmsg|].
    split; [exact Herr|]. intros ts.
    destruct (render_frame a') as (Hs & _ & Hm).
    split; [apply idle_ticks; exact Hidle|].
    split; [rewrite Hs; exact Hstr|exact Hm].
Qed.

(** The service answers with a list of content parts. *)
Lemma non_text_response_leaves_streaming_on_witness :
  exists a',
    sendMessage (page key_set (responds 200 (answer_in_parts "Hi")))
      (with_input initial_app "hello") = Some a' /\
    isStreaming (ticks [AtRender; AtRender] (render a')) = true.
Proof.
  destruct (non_text_response_leaves_streaming_on
              (page key_set (responds 200 (answer_in_parts "Hi")))
              (with_input initial_app "hello") (content_parts "Hi"))
    as (a' & m & H1 & _ & _ & H2).
  - reflexivity.
  - vm_compute. reflexivity.
  - vm_compute. reflexivity.
  - reflexivity.
  - exists a'. split; [exact H1|].
    destruct (H2 [AtRender; AtRender]) as (-> & H3 & _). exact H3.
Defined.




(** *** Prompts and outstanding turns *)







(** *** The request of a turn and the controller in the ref *)

Lemma sendMessage_begin_request E a :
  is_blank (input a) = false ->
  (MAX_INPUT_LENGTH (config E) <? utf16_length (input a))%Z = false ->
  sdk_path E = false ->
  has_api_key (config E) = true ->
  let n := length (controllers (rt a)) in
  let a1 := sendMessage_begin E a in
  exists req,
    pending (rt a1) = (pending (rt a) ++ [req])%list /\
    req_prompt req = input a /\
    req_signal req = S n /\
    abortControllerRef a1 = Some n /\
    controllers (rt a1) !! S n = Some false /\
    length (controllers (rt a1)) = S (S n).
Proof.
  intros Hblank Hlong Hsdk Hkey. cbn zeta. unfold sendMessage_begin.
  rewrite Hblank, Hlong.
  destruct a as [w ms i ty sm sq st sel err ivs sref [c|]];
    cbn -[callPuterAI_issue];
    unfold callPuterAI_issue; rewrite Hsdk, Hkey;
    PipelineFacts.js_unfold; cbn; rewrite Hkey; cbn;
    (eexists; split; [reflexivity|]; split; [reflexivity|]);
    rewrite ?length_app, ?length_insert; cbn;
    (split; [f_equal; lia|]); (split; [f_equal; lia|]);
    (split; [|lia]).
  - rewrite <- app_assoc. cbn.
    replace (S (length (controllers w)))
      with (length (<[c:=true]> (controllers w)) + 1)%nat
      by (rewrite length_insert; lia).
    rewrite lookup_app_r by lia.
    replace (_ + 1 - _)%nat with 1%nat by lia. reflexivity.
  - rewrite <- app_assoc. cbn.
    replace (S (length (controllers w)))
      with (length (controllers w) + 1)%nat by lia.
    rewrite lookup_app_r by lia.
    replace (_ + 1 - _)%nat with 1%nat by lia. reflexivity.
Qed.

Lemma unmount_rt a c :
  abortControllerRef a = Some c -> rt (unmount a) = abort c (rt a).
Proof.
  intros Hc. unfold unmount.
  destruct (clear_current_interval_frame a) as (Hrt & _ & _ & _ & _ & _ & _ & Href & _).
  rewrite Href, Hc. cbn [rt with_rt]. rewrite Hrt. reflexivity.
Qed.

(** X21. The request of a turn carries the signal of the controller
    [callDirectAPI] created for itself, never that of the controller
    [sendMessage] stored in the ref. When the component unmounts while
    the request is in flight, the cleanup aborts the controller in the
    ref and the request is not cancelled: it stays pending. *)
Theorem unmount_cancels_no_request E a :
  is_blank (input a) = false ->
  (MAX_INPUT_LENGTH (config E) <? utf16_length (input a))%Z = false ->
  sdk_path E = false ->
  has_api_key (config E) = true ->
  let a1 := sendMessage_begin E a in
  exists req c,
    pending (rt a1) = (pending (rt a) ++ [req])%list /\
    req_prompt req = input a /\
    abortControllerRef a1 = Some c /\
    req_signal req <> c /\
    aborted (rt (unmount a1)) c = true /\
    cancelled (unmount a1) req = false /\
    pending (rt (unmount a1)) = pending (rt a1).
Proof.
  intros Hblank Hlong Hsdk Hkey. cbn zeta.
  destruct (sendMessage_begin_request E a Hblank Hlong Hsdk Hkey)
    as (req & Hpending & Hprompt & Hsignal & Href & Hfresh & Hlen).
  exists req, (length (controllers (rt a))).
  split; [exact Hpending|]. split; [exact Hprompt|]. split; [exact Href|].
  split; [rewrite Hsignal; lia|].
  unfold cancelled, aborted. rewrite (unmount_rt _ _ Href). unfold abort.
  cbn [controllers with_controllers pending].
  split; [|split].
  - rewrite list_lookup_insert_eq by lia. reflexivity.
  - rewrite Hsignal, list_lookup_insert_ne by lia. rewrite Hfresh.
    reflexivity.
  - destruct (rt (sendMessage_begin E a)); reflexivity.
Qed.

(** The component unmounts while the first request is in flight. *)
Lemma unmount_cancels_no_request_witness :
  length (pending (rt (unmount (sendMessage_begin offline
                                  (with_input initial_app "hello"))))) = 1%nat.
Proof.
  destruct (unmount_cancels_no_request offline (with_input initial_app "hello"))
    as (req & c & H1 & _ & _ & _ & _ & _ & H2).
  - reflexivity.
  - vm_compute. reflexivity.
  - reflexivity.
  - reflexivity.
  - rewrite H2, H1. reflexivity.
Defined.

End ChatFacts.

(* ===================================================================== *)
(** ** Properties of the script loader *)
(* ===================================================================== *)

Module ProbeFacts.
Import Js Config Probe.

Lemma remove_appended (ss : list Script) id url :
  Forall (fun s => (script_id s < id)%nat) ss ->
  filter (fun s => script_id s <> id)
    (ss ++ [{| script_id := id; script_src := url |}])%list = ss.
Proof.
  intros Hss. rewrite filter_app.
  rewrite filter_cons_False by (cbn; auto).
  rewrite filter_nil, app_nil_r.
  induction Hss as [|s ss Hs Hss IH]; [reflexivity|].
  rewrite filter_cons_True by lia. rewrite IH. reflexivity.
Qed.

Lemma linear_delays_cons d first k :
  linear_delays d first (S k) =
  (d * Z.of_nat first)%Z :: linear_delays d (S first) k.
Proof. reflexivity. Qed.

(** After [k] failed loads and a successful one, within the budget. *)
Lemma loadPuterScript_loads L :
  forall k retryCount p,
    (retryCount + k <= maxRetries)%nat ->
    puter_script_present p = false ->
    numbered p ->
    (forall i, (i < k)%nat -> loads L (created p + i) = false) ->
    loads L (created p + k) = true ->
    loadPuterScript L (maxRetries - retryCount) retryCount p =
      (Resolved,
       {| scripts := (scripts p ++ [{| script_id := created p + k;
                                       script_src := script_url L |}])%list;
          created := S (created p + k);
          isPuterLoaded := true;
          apiHealth := healthy;
          scriptLoadAttempted := true;
          waited := (waited p ++
                       linear_delays (PUTER_RETRY_DELAY (loader_config L))
                         (S retryCount) k)%list |}).
Proof.
  induction k as [|k IH]; intros retryCount p Hbudget Hnone Hnum Hfail Hload.
  - rewrite Nat.add_0_r in *.
    destruct (maxRetries - retryCount)%nat; cbn [loadPuterScript];
      rewrite Hnone, Hload; unfold mark_healthy, append_script; cbn;
      rewrite app_nil_r; reflexivity.
  - assert (Hfirst : loads L (created p) = false).
    { specialize (Hfail 0%nat). rewrite Nat.add_0_r in Hfail. apply Hfail. lia. }
    assert (Hlt : Nat.ltb retryCount maxRetries = true) by (apply Nat.ltb_lt; lia).
    replace (maxRetries - retryCount)%nat
      with (S (maxRetries - S retryCount)) by lia.
    cbn [loadPuterScript]. rewrite Hnone, Hfirst, Hlt.
    set (p2 := retry_after _ _ _).
    assert (Hscripts : scripts p2 = scripts p).
    { unfold p2, retry_after, append_script. cbn [scripts].
      apply remove_appended. exact Hnum. }
    assert (Hcreated : created p2 = S (created p)) by reflexivity.
    rewrite (IH (S retryCount) p2).
    + rewrite Hscripts, Hcreated. unfold p2; cbn [waited retry_after append_script].
      rewrite linear_delays_cons, <- app_assoc.
      replace (S (created p) + k)%nat with (created p + S k)%nat by lia.
      reflexivity.
    + lia.
    + unfold puter_script_present. rewrite Hscripts. exact Hnone.
    + unfold numbered. rewrite Hscripts, Hcreated.
      eapply Forall_impl; [exact Hnum|]. cbn. intros s Hs. lia.
    + intros i Hi. rewrite Hcreated.
      replace (S (created p) + i)%nat with (created p + S i)%nat by lia.
      apply Hfail. lia.
    + rewrite Hcreated.
      replace (S (created p) + k)%nat with (created p + S k)%nat by lia.
      exact Hload.
Qed.

Lemma script_loads_within_budget_steps L p (k : nat) :
  USE_DIRECT_API (loader_config L) = false ->
  scriptLoadAttempted p = false ->
  puter_script_present p = false ->
  numbered p ->
  (k <= maxRetries)%nat ->
  (forall i, (i < k)%nat -> loads L (created p + i) = false) ->
  loads L (created p + k) = true ->
  let p' := load_effect L p in
  apiHealth p' = healthy /\
  isPuterLoaded p' = true /\
  scriptLoadAttempted p' = true /\
  created p' = S (created p + k) /\
  scripts p' = (scripts p ++ [{| script_id := created p + k;
                                 script_src := script_url L |}])%list /\
  waited p' = (waited p ++
                 linear_delays (PUTER_RETRY_DELAY (loader_config L)) 1 k)%list.
Proof.
  intros Hdirect Hattempted Hnone Hnum Hk Hfail Hload. cbn zeta.
  unfold load_effect. rewrite Hdirect, Hattempted. cbn [orb].
  pose proof (loadPuterScript_loads L k 0 p Hk Hnone Hnum Hfail Hload) as Hrun.
  change (maxRetries - 0)%nat with maxRetries in Hrun.
  rewrite Hrun. repeat split; reflexivity.
Qed.

(** X14. When the effect runs (direct API not forced, no load attempted
    yet, no puter.com script in the document) and the [k]-th retry is the
    first load to succeed, [k] at most 3, the hook ends healthy and
    loaded; [k + 1] script elements were created, the failed ones removed
    again, and the waits before the retries were one, two, ... [k] times
    [PUTER_RETRY_DELAY]. *)
Theorem script_loads_within_budget L p (k : nat) :
  USE_DIRECT_API (loader_config L) = false ->
  scriptLoadAttempted p = false ->
  puter_script_present p = false ->
  numbered p ->
  (k <= maxRetries)%nat ->
  (forall i, (i < k)%nat -> loads L (created p + i) = false) ->
  loads L (created p + k) = true ->
  let p' := load_effect L p in
  apiHealth p' = healthy /\
  isPuterLoaded p' = true /\
  scriptLoadAttempted p' = true /\
  created p' = S (created p + k) /\
  scripts p' = (scripts p ++ [{| script_id := created p + k;
                                 script_src := script_url L |}])%list /\
  waited p' = (waited p ++
                 linear_delays (PUTER_RETRY_DELAY (loader_config L)) 1 k)%list.
Proof. apply script_loads_within_budget_steps. Qed.

(** The script fails twice and loads the third time. *)
Lemma script_loads_within_budget_witness :
  let L := {| loader_config := ENV_CONFIG Scenarios.nothing_set;
              script_url := PUTER_SCRIPT_URL None;
              loads := fun n => Nat.eqb n 2 |} in
  apiHealth (load_effect L (fresh_page [])) = healthy /\
  waited (load_effect L (fresh_page [])) = [1000; 2000]%Z.
Proof.
  cbn zeta.
  match goal with |- context [load_effect ?L _] =>
    destruct (script_loads_within_budget L (fresh_page []) 2)
      as (H1 & _ & _ & _ & _ & H2)
  end; try reflexivity.
  - constructor.
  - unfold maxRetries. lia.
  - intros [|[|i]] Hi; try reflexivity. lia.
  - split; [exact H1|exact H2].
Defined.


Lemma loadPuterScript_gives_up L :
  forall n retryCount p,
    (retryCount + n)%nat = maxRetries ->
    puter_script_present p = false ->
    numbered p ->
    (forall i, (i <= n)%nat -> loads L (created p + i) = false) ->
    loadPuterScript L n retryCount p =
      (Rejected "Failed to load Puter.ai script after multiple attempts",
       {| scripts := (scripts p ++ [{| script_id := created p + n;
                                       script_src := script_url L |}])%list;
          created := S (created p + n);
          isPuterLoaded := isPuterLoaded p;
          apiHealth := unhealthy;
          scriptLoadAttempted := true;
          waited := (waited p ++
                       linear_delays (PUTER_RETRY_DELAY (loader_config L))
                         (S retryCount) n)%list |}).
Proof.
  induction n as [|n IH]; intros retryCount p Hbudget Hnone Hnum Hfail;
    assert (Hfirst : loads L (created p) = false)
      by (specialize (Hfail 0%nat); rewrite Nat.add_0_r in Hfail;
          apply Hfail; lia).
  - assert (Hlt : Nat.ltb retryCount maxRetries = false)
      by (apply Nat.ltb_ge; lia).
    cbn [loadPuterScript]. rewrite Hnone, Hfirst, Hlt.
    unfold mark_unhealthy, append_script; cbn.
    rewrite Nat.add_0_r, app_nil_r. reflexivity.
  - assert (Hlt : Nat.ltb retryCount maxRetries = true)
      by (apply Nat.ltb_lt; lia).
    cbn [loadPuterScript]. rewrite Hnone, Hfirst, Hlt.
    set (p2 := retry_after _ _ _).
    assert (Hscripts : scripts p2 = scripts p).
    { unfold p2, retry_after, append_script. cbn [scripts].
      apply remove_appended. exact Hnum. }
    assert (Hcreated : created p2 = S (created p)) by reflexivity.
    rewrite (IH (S retryCount) p2).
    + rewrite Hscripts, Hcreated. unfold p2; cbn [waited retry_after append_script isPuterLoaded].
      rewrite linear_delays_cons, <- app_assoc.
      replace (S (created p) + n)%nat with (created p + S n)%nat by lia.
      reflexivity.
    + lia.
    + unfold puter_script_present. rewrite Hscripts. exact Hnone.
    + unfold numbered. rewrite Hscripts, Hcreated.
      eapply Forall_impl; [exact Hnum|]. cbn. intros s Hs. lia.
    + intros i Hi. rewrite Hcreated.
      replace (S (created p) + i)%nat with (created p + S i)%nat by lia.
      apply Hfail. lia.
Qed.

Lemma script_load_gives_up_steps L p :
  USE_DIRECT_API (loader_config L) = false ->
  scriptLoadAttempted p = false ->
  puter_script_present p = false ->
  numbered p ->
  (forall i, (i <= maxRetries)%nat -> loads L (created p + i) = false) ->
  let d := PUTER_RETRY_DELAY (loader_config L) in
  let p' := load_effect L p in
  apiHealth p' = unhealthy /\
  isPuterLoaded p' = isPuterLoaded p /\
  created p' = (created p + 4)%nat /\
  scripts p' = (scripts p ++ [{| script_id := created p + 3;
                                 script_src := script_url L |}])%list /\
  waited p' = (waited p ++ [d * 1; d * 2; d * 3])%list%Z /\
  load_effect L p' = p'.
Proof.
  intros Hdirect Hattempted Hnone Hnum Hfail. cbn zeta.
  pose proof (loadPuterScript_gives_up L maxRetries 0 p eq_refl Hnone Hnum Hfail)
    as Hrun.
  assert (Heff : load_effect L p =
                 {| scripts := (scripts p ++ [{| script_id := created p + 3;
                                                 script_src := script_url L |}])%list;
                    created := S (created p + 3);
                    isPuterLoaded := isPuterLoaded p;
                    apiHealth := unhealthy;
                    scriptLoadAttempted := true;
                    waited := (waited p ++
                                 linear_delays (PUTER_RETRY_DELAY (loader_config L))
                                   1 3)%list |}).
  { unfold load_effect. rewrite Hdirect, Hattempted. cbn [orb].
    rewrite Hrun. reflexivity. }
  rewrite Heff. cbn [scripts created isPuterLoaded apiHealth waited].
  repeat split; try reflexivity.
  - f_equal. lia.
  - unfold load_effect. cbn [scriptLoadAttempted]. rewrite orb_true_r.
    reflexivity.
Qed.

(** X15. When the script fails to load four times in a row, the effect
    gives up: the hook ends unhealthy and not loaded, four script elements
    were created of which the last stays in the document, the three waits
    were one, two and three times [PUTER_RETRY_DELAY], and running the
    effect again does nothing. *)
Theorem script_load_gives_up L p :
  USE_DIRECT_API (loader_config L) = false ->
  scriptLoadAttempted p = false ->
  puter_script_present p = false ->
  numbered p ->
  (forall i, (i <= maxRetries)%nat -> loads L (created p + i) = false) ->
  let d := PUTER_RETRY_DELAY (loader_config L) in
  let p' := load_effect L p in
  apiHealth p' = unhealthy /\
  isPuterLoaded p' = isPuterLoaded p /\
  created p' = (created p + 4)%nat /\
  scripts p' = (scripts p ++ [{| script_id := created p + 3;
                                 script_src := script_url L |}])%list /\
  waited p' = (waited p ++ [d * 1; d * 2; d * 3])%list%Z /\
  load_effect L p' = p'.
Proof. apply script_load_gives_up_steps. Qed.

(** The script never loads. *)
Lemma script_load_gives_up_witness :
  let L := {| loader_config := ENV_CONFIG Scenarios.nothing_set;
              script_url := PUTER_SCRIPT_URL None;
              loads := fun _ => false |} in
  apiHealth (load_effect L (fresh_page [])) = unhealthy /\
  waited (load_effect L (fresh_page [])) = [1000; 2000; 3000]%Z.
Proof.
  cbn zeta.
  match goal with |- context [load_effect ?L _] =>
    destruct (script_load_gives_up L (fresh_page []))
      as (H1 & _ & _ & _ & H2 & _)
  end; try reflexivity.
  - constructor.
  - split; [exact H1|exact H2].
Defined.

(** X16. Whatever loads or fails, the effect settles: it creates at most
    four script elements, leaves at most one more in the document than it
    found, waits at most three times, and ends either healthy and loaded
    or with [isPuterLoaded] as it was; with the direct API forced or a
    puter.com script already in the document it creates none. *)
Theorem load_effect_is_bounded L p :
  numbered p ->
  let p' := load_effect L p in
  (created p <= created p' <= created p + 4)%nat /\
  (length (scripts p') <= S (length (scripts p)))%nat /\
  (length (waited p') <= length (waited p) + 3)%nat /\
  (apiHealth p' = healthy /\ isPuterLoaded p' = true \/
   isPuterLoaded p' = isPuterLoaded p) /\
  (USE_DIRECT_API (loader_config L) = true \/ puter_script_present p = true ->
   created p' = created p /\ scripts p' = scripts p /\ waited p' = waited p).
Proof.
  intros Hnum. cbn zeta.
  destruct (USE_DIRECT_API (loader_config L)) eqn:Hdirect.
  { unfold load_effect. rewrite Hdirect. cbn [orb].
    repeat split; try lia. right. reflexivity. }
  destruct (scriptLoadAttempted p) eqn:Hattempted.
  { unfold load_effect. rewrite Hdirect, Hattempted. cbn [orb].
    repeat split; try lia. right. reflexivity. }
  destruct (puter_script_present p) eqn:Hnone.
  { unfold load_effect. rewrite Hdirect, Hattempted. cbn [orb].
    unfold maxRetries. cbn [loadPuterScript]. rewrite Hnone.
    unfold mark_healthy; cbn [scripts created isPuterLoaded apiHealth waited].
    repeat split; try lia. left. split; reflexivity. }
  assert (Hcases :
    (exists k, (k <= maxRetries)%nat /\
               (forall i, (i < k)%nat -> loads L (created p + i) = false) /\
               loads L (created p + k) = true) \/
    (forall i, (i <= maxRetries)%nat -> loads L (created p + i) = false)).
  { unfold maxRetries.
    destruct (loads L (created p + 0)) eqn:H0;
      [left; exists 0%nat; repeat split; [lia|intros i Hi; lia|exact H0]|].
    destruct (loads L (created p + 1)) eqn:H1;
      [left; exists 1%nat; repeat split;
       [lia|intros [|i] Hi; [exact H0|lia]|exact H1]|].
    destruct (loads L (created p + 2)) eqn:H2;
      [left; exists 2%nat; repeat split;
       [lia|intros [|[|i]] Hi; [exact H0|exact H1|lia]|exact H2]|].
    destruct (loads L (created p + 3)) eqn:H3;
      [left; exists 3%nat; repeat split;
       [lia|intros [|[|[|i]]] Hi; [exact H0|exact H1|exact H2|lia]|exact H3]|].
    right. intros [|[|[|[|i]]]] Hi; [exact H0|exact H1|exact H2|exact H3|lia]. }
  destruct Hcases as [(k & Hk & Hfail & Hload)|Hfail].
  - destruct (script_loads_within_budget_steps L p k Hdirect Hattempted Hnone
                Hnum Hk Hfail Hload) as (H1 & H2 & _ & H4 & H5 & H6).
    rewrite H4, H5, H6, !length_app. unfold linear_delays.
    rewrite length_map, length_seq. cbn [length]. unfold maxRetries in Hk.
    repeat split; try lia;
      try (left; split; assumption);
      try (intros [H|H]; discriminate H).
  - destruct (script_load_gives_up_steps L p Hdirect Hattempted Hnone Hnum Hfail)
      as (_ & H2 & H3 & H4 & H5 & _).
    rewrite H3, H4, H5, !length_app. cbn [length].
    repeat split; try lia;
      try (right; exact H2);
      try (intros [H|H]; discriminate H).
Qed.


(** A document that already holds another script; the loader's script
    fails once and then loads. *)
Lemma load_effect_is_bounded_witness :
  let L := {| loader_config := ENV_CONFIG Scenarios.nothing_set;
              script_url := PUTER_SCRIPT_URL None;
              loads := fun n => Nat.eqb n 2 |} in
  let p := fresh_page ["https://example.org/app.js"] in
  numbered p /\
  (created (load_effect L p) <= created p + 4)%nat /\
  (length (scripts (load_effect L p)) <= S (length (scripts p)))%nat.
Proof.
  cbn zeta.
  assert (Hnum : numbered (fresh_page ["https://example.org/app.js"])).
  { repeat constructor. }
  split; [exact Hnum|].
  match goal with |- context [load_effect ?L ?p] =>
    destruct (load_effect_is_bounded L p Hnum) as ((_ & H1) & H2 & _)
  end.
  split; [exact H1|exact H2].
Defined.

End ProbeFacts.
